(** * js.net: the resumable chunked loader (FileLoader) and the whole-resource
    loader (URLLoader), embedded over an explicit model of the browser objects
    they drive.

    The loaders are event-driven JavaScript classes.  Their fields become a
    record, every method and every private (symbol-keyed) method becomes a
    state-passing function on a [World]: the loader object together with the
    XMLHttpRequest objects it has created, the listener list of [window], the
    counter that gives each bound function object its identity, and the log of
    notifications passed to [emit]. *)

From Stdlib Require Import ZArith List String Ascii Lia Bool DecimalString DecimalN.
From Stdlib.Strings Require Import Byte.
From stdpp Require Import base list.
Import ListNotations.
Local Open Scope string_scope.
Local Open Scope list_scope.
Local Open Scope Z_scope.

(** ** JavaScript values that the loader stores in [bytesTotal] *)

(** [bytesTotal] holds the number [0] after [reset], and afterwards whatever
    [getResponseHeader('Content-Length')] returned: a string or [null]. *)
Inductive JsValue :=
| JNull
| JNum (z : Z)
| JStr (s : string).

(** Truthiness, as tested by [!this.bytesTotal] and [this.bytesTotal ? a : b]. *)
Definition truthy (v : JsValue) : bool :=
  match v with
  | JNull => false
  | JNum z => negb (z =? 0)
  | JStr s => negb (String.eqb s "")
  end.

(** [ToNumber].  [None] is NaN.  On strings the decimal digit strings are read
    (the empty string is 0); the other numeric literal forms of JavaScript
    (sign, fraction, exponent, radix prefix, surrounding blanks) are not part of
    the Content-Length grammar [1*DIGIT] and are read as NaN here. *)
Definition ToNumber (v : JsValue) : option Z :=
  match v with
  | JNull => Some 0
  | JNum z => Some z
  | JStr s =>
      match NilEmpty.uint_of_string s with
      | Some d => Some (Z.of_N (N.of_uint d))
      | None => None
      end
  end.

(** [a < v] for a number [a]; any comparison with NaN is false. *)
Definition js_lt (a : Z) (v : JsValue) : bool :=
  match ToNumber v with
  | Some n => a <? n
  | None => false
  end.

(** [a > v] for a number [a]. *)
Definition js_gt (a : Z) (v : JsValue) : bool :=
  match ToNumber v with
  | Some n => n <? a
  | None => false
  end.

Inductive JsError :=
| TypeError (message : string)
| RangeError
| JsonError.

(** ** Constants: LoaderDataFormat, LoaderEvent, EventLevel *)

Module LoaderDataFormat.
Definition BINARY := "binary".
Definition JSON := "json".
Definition TEXT := "text".
Definition DOCUMENT := "document".
Definition ZIP := "zip".
End LoaderDataFormat.

Module LoaderEvent.
Definition COMPLETE := "complete".
Definition HTTP_STATUS := "httpStatus".
Definition ERROR := "error".
Definition START := "start".
Definition PROGRESS := "progress".
Definition CLOSE := "close".
Definition GETBACK := "getback".
End LoaderEvent.

Module EventLevel.
Definition STATUS := "status".
Definition COMMAND := "command".
Definition WARNING := "warning".
Definition ERROR := "error".
End EventLevel.

(** ** URLRequest *)

Inductive HeaderValue :=
| HText (s : string)
| HBytes (first last : Z).   (* the template `bytes=${first}-${last}` *)

Module URLRequest.
Record t := {
  contentType : string;
  data : option (list byte);
  method : string;
  requestHeaders : list (string * HeaderValue);
  url : option string
}.

(** [initialize], the body of [new URLRequest(url)]. *)
Definition initialize (u : option string) : t :=
  {| contentType := "application/x-www-form-urlencoded";
     data := None;
     method := "GET";
     requestHeaders := [];
     url := u |}.
End URLRequest.

(** The text a [HeaderValue] stands for. *)
Definition decimal (z : Z) : string := NilZero.string_of_int (Z.to_int z).

Definition header_text (h : HeaderValue) : string :=
  match h with
  | HText s => s
  | HBytes a b => ("bytes=" ++ decimal a ++ "-" ++ decimal b)%string
  end.

(** ** Notifications handed to [emit] *)

Inductive Code :=
| CodeName (s : string)
| CodeNum (z : Z).

(** The object passed to [emit(name, _evt)].  [target] is always the loader
    itself and [message] is a human-readable rendering of the other fields;
    neither is carried.  The [progress] fraction of a PROGRESS notification is
    the double [loaded / total] (or 0), determined by the two fields kept. *)
Record Notification := {
  n_name : string;
  n_code : Code;
  n_level : string;
  n_desc : option string;
  n_loaded : option Z;
  n_total : option JsValue;
  n_data : option (option (list byte))
}.

Definition notification (name : string) (code : Code) (level : string) : Notification :=
  {| n_name := name; n_code := code; n_level := level; n_desc := None;
     n_loaded := None; n_total := None; n_data := None |}.

Definition with_desc (d : string) (n : Notification) : Notification :=
  {| n_name := n_name n; n_code := n_code n; n_level := n_level n; n_desc := Some d;
     n_loaded := n_loaded n; n_total := n_total n; n_data := n_data n |}.

Definition with_counts (l : Z) (t : JsValue) (n : Notification) : Notification :=
  {| n_name := n_name n; n_code := n_code n; n_level := n_level n; n_desc := n_desc n;
     n_loaded := Some l; n_total := Some t; n_data := n_data n |}.

Definition with_data (d : option (list byte)) (n : Notification) : Notification :=
  {| n_name := n_name n; n_code := n_code n; n_level := n_level n; n_desc := n_desc n;
     n_loaded := n_loaded n; n_total := n_total n; n_data := Some d |}.

(** ** Event targets: XMLHttpRequest objects and [window] *)

Inductive EventType :=
| loadstart | progress | abort_ | error | load_ | readystatechange
| online_ | offline_.

Scheme Equality for EventType.

(** The private methods that the loaders bind and register as callbacks. *)
Inductive Handler :=
| OnStart | OnProgress | OnHTTPStatus | OnComplete | OnError | OnClose
| Online | Offline.

(** One entry of an event target's listener list.  [l_fn] is the identity of
    the callback: every evaluation of [f.bind(this)] yields a new function
    object, so it is drawn from a counter kept in the world.  [l_handler] is
    the method that the bound function runs. *)
Record Listener := {
  l_type : EventType;
  l_fn : nat;
  l_handler : Handler
}.

Definition same_listener (ty : EventType) (fn : nat) (l : Listener) : bool :=
  EventType_beq ty (l_type l) && Nat.eqb fn (l_fn l).

(** [addEventListener(type, callback, false)]: appended unless the same
    type and callback are already registered. *)
Definition add_listener (ty : EventType) (fn : nat) (h : Handler)
    (ls : list Listener) : list Listener :=
  if existsb (same_listener ty fn) ls then ls
  else ls ++ [{| l_type := ty; l_fn := fn; l_handler := h |}].

(** [removeEventListener(type, callback, false)]: removes the entry registered
    with this very callback object. *)
Definition remove_listener (ty : EventType) (fn : nat)
    (ls : list Listener) : list Listener :=
  List.filter (fun l => negb (same_listener ty fn l)) ls.

Definition listeners_for (ty : EventType) (ls : list Listener) : list Listener :=
  List.filter (fun l => EventType_beq ty (l_type l)) ls.

(** An XMLHttpRequest object, with the parts of the XMLHttpRequest Standard
    that the loaders observe. *)
Record XHR := {
  x_readyState : Z;          (* 0 UNSENT, 1 OPENED, 2 HEADERS_RECEIVED, 3 LOADING, 4 DONE *)
  x_sendFlag : bool;         (* the request is in flight *)
  x_status : Z;              (* 0 until a response arrives, and for a network error *)
  x_contentLength : option string;  (* getResponseHeader('Content-Length') *)
  x_response : option (list byte);  (* null until DONE *)
  x_method : string;
  x_url : option string;
  x_requestHeaders : list (string * HeaderValue);
  x_responseType : string;
  x_body : option (list byte);
  x_listeners : list Listener
}.

Definition new_XHR : XHR :=
  {| x_readyState := 0; x_sendFlag := false; x_status := 0;
     x_contentLength := None; x_response := None;
     x_method := ""; x_url := None; x_requestHeaders := [];
     x_responseType := ""; x_body := None; x_listeners := [] |}.

Definition xhr_set_listeners (ls : list Listener) (x : XHR) : XHR :=
  {| x_readyState := x_readyState x; x_sendFlag := x_sendFlag x; x_status := x_status x;
     x_contentLength := x_contentLength x; x_response := x_response x;
     x_method := x_method x; x_url := x_url x; x_requestHeaders := x_requestHeaders x;
     x_responseType := x_responseType x; x_body := x_body x; x_listeners := ls |}.

(** The response side of an XHR: ready state, send flag, status, header, body. *)
Definition xhr_set_response (rs : Z) (sf : bool) (st : Z) (cl : option string)
    (r : option (list byte)) (x : XHR) : XHR :=
  {| x_readyState := rs; x_sendFlag := sf; x_status := st;
     x_contentLength := cl; x_response := r;
     x_method := x_method x; x_url := x_url x; x_requestHeaders := x_requestHeaders x;
     x_responseType := x_responseType x; x_body := x_body x; x_listeners := x_listeners x |}.

(** The request side of an XHR. *)
Definition xhr_set_request (m : string) (u : option string)
    (hs : list (string * HeaderValue)) (rt : string) (b : option (list byte))
    (x : XHR) : XHR :=
  {| x_readyState := x_readyState x; x_sendFlag := x_sendFlag x; x_status := x_status x;
     x_contentLength := x_contentLength x; x_response := x_response x;
     x_method := m; x_url := u; x_requestHeaders := hs;
     x_responseType := rt; x_body := b; x_listeners := x_listeners x |}.

(** ** The loader object and the world around it *)

Record FileLoader := {
  _state : Z;
  _loaded : Z;
  _total : JsValue;
  _data : option (list byte);
  _dataFormat : string;
  _timeout : Z;
  _xhr : option nat;
  _loader : option nat;
  _active_disconnect : bool;      (* undefined, hence falsy, until first set *)
  _request : option URLRequest.t
}.

Record World := {
  this : FileLoader;
  xhrs : list XHR;                (* every XMLHttpRequest created, by id *)
  window : list Listener;         (* the listener list of window *)
  next_fn : nat;                  (* identity of the next bound function *)
  emitted : list Notification;    (* what emit was called with, oldest first *)
  uncaught : list JsError         (* exceptions that escaped a listener *)
}.

Definition upd_this (f : FileLoader -> FileLoader) (w : World) : World :=
  {| this := f (this w); xhrs := xhrs w; window := window w;
     next_fn := next_fn w; emitted := emitted w; uncaught := uncaught w |}.

Definition upd_xhrs (f : list XHR -> list XHR) (w : World) : World :=
  {| this := this w; xhrs := f (xhrs w); window := window w;
     next_fn := next_fn w; emitted := emitted w; uncaught := uncaught w |}.

Definition upd_window (f : list Listener -> list Listener) (w : World) : World :=
  {| this := this w; xhrs := xhrs w; window := f (window w);
     next_fn := next_fn w; emitted := emitted w; uncaught := uncaught w |}.

Definition set_next_fn (n : nat) (w : World) : World :=
  {| this := this w; xhrs := xhrs w; window := window w;
     next_fn := n; emitted := emitted w; uncaught := uncaught w |}.

(** [this.emit(name, _evt)]: the listeners of the loader's own EventEmitter
    belong to the caller; the call is recorded. *)
Definition emit (n : Notification) (w : World) : World :=
  {| this := this w; xhrs := xhrs w; window := window w;
     next_fn := next_fn w; emitted := emitted w ++ [n]; uncaught := uncaught w |}.

Definition report (e : JsError) (w : World) : World :=
  {| this := this w; xhrs := xhrs w; window := window w;
     next_fn := next_fn w; emitted := emitted w; uncaught := uncaught w ++ [e] |}.

Definition set_state (v : Z) (l : FileLoader) : FileLoader :=
  {| _state := v; _loaded := _loaded l; _total := _total l; _data := _data l;
     _dataFormat := _dataFormat l; _timeout := _timeout l; _xhr := _xhr l;
     _loader := _loader l; _active_disconnect := _active_disconnect l;
     _request := _request l |}.

Definition set_loaded (v : Z) (l : FileLoader) : FileLoader :=
  {| _state := _state l; _loaded := v; _total := _total l; _data := _data l;
     _dataFormat := _dataFormat l; _timeout := _timeout l; _xhr := _xhr l;
     _loader := _loader l; _active_disconnect := _active_disconnect l;
     _request := _request l |}.

Definition set_total (v : JsValue) (l : FileLoader) : FileLoader :=
  {| _state := _state l; _loaded := _loaded l; _total := v; _data := _data l;
     _dataFormat := _dataFormat l; _timeout := _timeout l; _xhr := _xhr l;
     _loader := _loader l; _active_disconnect := _active_disconnect l;
     _request := _request l |}.

Definition set_data (v : option (list byte)) (l : FileLoader) : FileLoader :=
  {| _state := _state l; _loaded := _loaded l; _total := _total l; _data := v;
     _dataFormat := _dataFormat l; _timeout := _timeout l; _xhr := _xhr l;
     _loader := _loader l; _active_disconnect := _active_disconnect l;
     _request := _request l |}.

Definition set_xhr (v : option nat) (l : FileLoader) : FileLoader :=
  {| _state := _state l; _loaded := _loaded l; _total := _total l; _data := _data l;
     _dataFormat := _dataFormat l; _timeout := _timeout l; _xhr := v;
     _loader := _loader l; _active_disconnect := _active_disconnect l;
     _request := _request l |}.

Definition set_loader (v : option nat) (l : FileLoader) : FileLoader :=
  {| _state := _state l; _loaded := _loaded l; _total := _total l; _data := _data l;
     _dataFormat := _dataFormat l; _timeout := _timeout l; _xhr := _xhr l;
     _loader := v; _active_disconnect := _active_disconnect l;
     _request := _request l |}.

Definition set_active_disconnect (v : bool) (l : FileLoader) : FileLoader :=
  {| _state := _state l; _loaded := _loaded l; _total := _total l; _data := _data l;
     _dataFormat := _dataFormat l; _timeout := _timeout l; _xhr := _xhr l;
     _loader := _loader l; _active_disconnect := v;
     _request := _request l |}.

Definition set_request (v : option URLRequest.t) (l : FileLoader) : FileLoader :=
  {| _state := _state l; _loaded := _loaded l; _total := _total l; _data := _data l;
     _dataFormat := _dataFormat l; _timeout := _timeout l; _xhr := _xhr l;
     _loader := _loader l; _active_disconnect := _active_disconnect l;
     _request := v |}.

(** The outcome of running a method: it returns, or it throws; the world as
    changed up to the [throw] stays changed. *)
Inductive Outcome :=
| Done (w : World)
| Thrown (e : JsError) (w : World).

Definition world_of (o : Outcome) : World :=
  match o with Done w => w | Thrown _ w => w end.

Definition Op := World -> Outcome.

Definition ret : Op := Done.

Definition seq (a b : Op) : Op :=
  fun w => match a w with Done w' => b w' | Thrown e w' => Thrown e w' end.

Definition lift (f : World -> World) : Op := fun w => Done (f w).

Notation "a ;;; b" := (seq a b) (at level 62, right associativity).

(** ** Event targets in a world *)

Inductive Target :=
| TXhr (id : nat)
| TWindow.

(** The event object a listener receives: its target and, for a progress
    event, the [loaded] and [total] counts of the exchange. *)
Record Event := {
  e_target : Target;
  e_loaded : Z;
  e_total : Z
}.

(** An event that is not a progress event, or carries no counts. *)
Definition event_at (t : Target) : Event :=
  {| e_target := t; e_loaded := 0; e_total := 0 |}.

(** The [total] of a progress event: the length announced by the response,
    0 when there is none. *)
Definition announced_length (x : XHR) : Z :=
  match x_contentLength x with
  | Some s => match ToNumber (JStr s) with Some n => n | None => 0 end
  | None => 0
  end.

Definition progress_event (id : nat) (received : Z) (x : XHR) : Event :=
  {| e_target := TXhr id; e_loaded := received; e_total := announced_length x |}.

Definition listeners_of (t : Target) (w : World) : list Listener :=
  match t with
  | TXhr id => match xhrs w !! id with Some x => x_listeners x | None => [] end
  | TWindow => window w
  end.

Definition upd_listeners (t : Target) (f : list Listener -> list Listener)
    (w : World) : World :=
  match t with
  | TXhr id => upd_xhrs (alter (fun x => xhr_set_listeners (f (x_listeners x)) x) id) w
  | TWindow => upd_window f w
  end.

(** [target.addEventListener(type, this[h].bind(this), false)]: [bind] makes a
    new function object, which is then registered. *)
Definition addEventListener (t : Target) (ty : EventType) (h : Handler)
    (w : World) : World :=
  let fn := next_fn w in
  set_next_fn (S fn) (upd_listeners t (add_listener ty fn h) w).

(** [target.removeEventListener(type, this[h].bind(this), false)]: [bind] makes
    a new function object, and the entry registered with that object, if any,
    is removed. *)
Definition removeEventListener (t : Target) (ty : EventType) (h : Handler)
    (w : World) : World :=
  let fn := next_fn w in
  set_next_fn (S fn) (upd_listeners t (remove_listener ty fn) w).

(** [new XMLHttpRequest()]: the new object's id is its index in [xhrs]. *)
Definition new_XMLHttpRequest (w : World) : nat * World :=
  (length (xhrs w), upd_xhrs (fun xs => xs ++ [new_XHR]) w).

Definition xhr_get (id : nat) (w : World) : option XHR := xhrs w !! id.

(** [xhr.setRequestHeader(name, value)].  The loaders call it between [open]
    and [send] of the same object, where it cannot throw. *)
Definition xhr_setRequestHeader (id : nat) (name : string) (v : HeaderValue)
    (w : World) : World :=
  upd_xhrs (alter (fun x =>
    xhr_set_request (x_method x) (x_url x) (x_requestHeaders x ++ [(name, v)])
      (x_responseType x) (x_body x) x) id) w.

(** [xhr.responseType = rt] *)
Definition xhr_set_responseType (id : nat) (rt : string) (w : World) : World :=
  upd_xhrs (alter (fun x =>
    xhr_set_request (x_method x) (x_url x) (x_requestHeaders x) rt (x_body x) x) id) w.

(** An exchange is in flight from [send] until its terminal event. *)
Definition in_flight (x : XHR) : bool :=
  x_sendFlag x && ((x_readyState x =? 1) || (x_readyState x =? 2) || (x_readyState x =? 3)).

(** ** ArrayBuffer and Int8Array *)

Definition byteLength (b : list byte) : Z := Z.of_nat (length b).

(** [new Int8Array(n)]: [n] zero bytes. *)
Definition new_Int8Array (n : Z) : list byte := replicate (Z.to_nat n) x00.

(** [temp.set(source, offset)]: copies [source] into [temp] at [offset];
    a RangeError ([None]) when it does not fit. *)
Definition typed_set (temp source : list byte) (offset : Z) : option (list byte) :=
  if offset + byteLength source <=? byteLength temp then
    Some (take (Z.to_nat offset) temp ++ source
            ++ drop (Z.to_nat (offset + byteLength source)) temp)
  else None.

(** ** FileLoader *)

Module FileLoader.

(** *** Methods that dispatch no event *)

Definition bytesLoaded (w : World) : Z := _loaded (this w).
Definition set_bytesLoaded (value : Z) (w : World) : World :=
  upd_this (set_loaded value) w.

Definition bytesTotal (w : World) : JsValue := _total (this w).
Definition set_bytesTotal (value : JsValue) (w : World) : World :=
  upd_this (set_total value) w.

Definition data (w : World) : option (list byte) := _data (this w).
Definition set_data (value : option (list byte)) (w : World) : World :=
  upd_this (set_data value) w.

Definition dataFormat (w : World) : string := _dataFormat (this w).

(** The values a caller may assign to [dataFormat]. *)
Definition strict_eq_string (value : JsValue) (s : string) : bool :=
  match value with
  | JStr v => String.eqb v s
  | _ => false
  end.

Definition set_dataFormat (value : JsValue) : Op := fun w =>
  if negb (strict_eq_string value LoaderDataFormat.BINARY) then
    Thrown (TypeError "文件下载仅支持二进制数据下载，如有其他需求请联系作者。") w
  else Done w.

Definition timeout (w : World) : Z := _timeout (this w).
Definition set_timeout (value : Z) (w : World) : World := w.

Definition state (w : World) : Z := _state (this w).

Definition reset (w : World) : World :=
  upd_this (fun l =>
    {| _state := 0;
       _loaded := 0;
       _total := JNum 0;
       _data := None;
       _dataFormat := LoaderDataFormat.BINARY;
       _timeout := 0;
       _xhr := None;
       _loader := None;
       _active_disconnect := _active_disconnect l;
       _request := _request l |}) w.

Definition aline (w : World) : World :=
  if negb (_state (this w) =? 3) then w
  else
    let w := addEventListener TWindow online_ Online w in
    addEventListener TWindow offline_ Offline w.

Definition rline (w : World) : World :=
  let w := removeEventListener TWindow online_ Online w in
  removeEventListener TWindow offline_ Offline w.

Definition onStart (evt : Event) : Op := fun w =>
  let w := upd_this (set_state 1) w in
  Done (emit (notification LoaderEvent.START (CodeName LoaderEvent.START)
                EventLevel.STATUS) w).

Definition onClose (evt : Event) : Op := fun w =>
  if _active_disconnect (this w) then
    Done (upd_this (set_active_disconnect false) w)
  else
    Done (emit (with_counts (bytesLoaded w) (bytesTotal w)
                  (notification LoaderEvent.CLOSE (CodeName LoaderEvent.CLOSE)
                     EventLevel.STATUS)) w).

Definition onError (evt : Event) : Op := fun w =>
  let _code := 1000 in
  let _desc := "network error" in
  Done (emit (with_desc _desc
                (notification LoaderEvent.ERROR (CodeNum _code) EventLevel.ERROR)) w).

Definition onLoadend (evt : Event) : Op := fun w => Done w.

Definition onProgress (evt : Event) : Op := fun w =>
  match _loader (this w) with
  | None => Thrown (TypeError "Cannot read properties of null (reading 'readyState')") w
  | Some id =>
      match xhr_get id w with
      | None => Done w
      | Some ld =>
          if x_readyState ld <? 2 then Done w
          else if 400 <=? x_status ld then Done w
          else
            let _loaded := bytesLoaded w + e_loaded evt in
            Done (emit (with_counts _loaded (bytesTotal w)
                          (notification LoaderEvent.PROGRESS
                             (CodeName LoaderEvent.PROGRESS) EventLevel.STATUS)) w)
      end
  end.

Definition offline (evt : Event) : Op := fun w =>
  Done (emit (with_desc "network disconnection"
                (notification "networkState" (CodeName "offline")
                   EventLevel.WARNING)) w).

(** [initialize]: the constructor's body. *)
Definition initialize (request : option URLRequest.t) (w : World) : World :=
  let w := reset w in
  let w := upd_this (set_request request) w in
  let '(id, w) := new_XMLHttpRequest w in
  let w := upd_this (set_xhr (Some id)) w in
  let w := addEventListener (TXhr id) loadstart OnStart w in
  let w := addEventListener (TXhr id) abort_ OnClose w in
  let w := addEventListener (TXhr id) readystatechange OnHTTPStatus w in
  addEventListener (TXhr id) error OnError w.

(** *** Methods that reach an event dispatch

    [open], [send] and [abort] of an XMLHttpRequest dispatch events
    synchronously, to listeners that are methods of the loader again.
    [inner] is how a listener called from inside such a dispatch runs. *)
Section Methods.

Variable inner : Listener -> Event -> World -> World.

(** Dispatch of one event: the listeners registered for its type on its
    target when the dispatch starts run in registration order. *)
Definition fire (ty : EventType) (evt : Event) (w : World) : World :=
  fold_left (fun w' l => inner l evt w')
    (listeners_for ty (listeners_of (e_target evt) w)) w.

(** [xhr.open(method, url, true)]: any exchange in flight is dropped and
    the response emptied; unless already OPENED the object becomes OPENED
    and readystatechange is fired.  The method and URL of a URLRequest are
    taken as acceptable to [open]. *)
Definition xhr_open (id : nat) (m : string) (u : option string)
    (w : World) : World :=
  match xhr_get id w with
  | None => w
  | Some x =>
      let w := upd_xhrs (alter (fun x =>
                 xhr_set_request m u [] (x_responseType x) None
                   (xhr_set_response (x_readyState x) false 0 None None x)) id) w in
      if x_readyState x =? 1 then w
      else
        let w := upd_xhrs (alter (xhr_set_response 1 false 0 None None) id) w in
        fire readystatechange (event_at (TXhr id)) w
  end.

(** [xhr.send(body)], called on an OPENED object: the exchange is in flight
    and loadstart is fired. *)
Definition xhr_send (id : nat) (body : option (list byte)) (w : World) : World :=
  let w := upd_xhrs (alter (fun x =>
             xhr_set_request (x_method x) (x_url x) (x_requestHeaders x)
               (x_responseType x) body
               (xhr_set_response (x_readyState x) true (x_status x)
                  (x_contentLength x) (x_response x) x)) id) w in
  fire loadstart (event_at (TXhr id)) w.

(** [xhr.abort()]: an exchange in flight ends as a network error in state
    DONE, readystatechange and abort are fired (and loadend, for which the
    loaders register nothing), and a DONE object falls back to UNSENT. *)
Definition xhr_abort (id : nat) (w : World) : World :=
  match xhr_get id w with
  | None => w
  | Some x =>
      let w :=
        if in_flight x then
          let w := upd_xhrs (alter (xhr_set_response 4 false 0 None None) id) w in
          let w := fire readystatechange (event_at (TXhr id)) w in
          fire abort_ (event_at (TXhr id)) w
        else w in
      upd_xhrs (alter (fun x =>
        if x_readyState x =? 4 then xhr_set_response 0 false 0 None None x
        else x) id) w
  end.

Definition abort (w : World) : World :=
  let w := rline w in
  let w :=
    match _xhr (this w) with
    | Some id =>
        let w := xhr_abort id w in
        let w := removeEventListener (TXhr id) loadstart OnStart w in
        let w := removeEventListener (TXhr id) abort_ OnClose w in
        let w := removeEventListener (TXhr id) readystatechange OnHTTPStatus w in
        removeEventListener (TXhr id) error OnError w
    | None => w
    end in
  match _loader (this w) with
  | Some id =>
      let w := xhr_abort id w in
      let w := removeEventListener (TXhr id) load_ OnComplete w in
      let w := removeEventListener (TXhr id) progress OnProgress w in
      let w := removeEventListener (TXhr id) abort_ OnClose w in
      removeEventListener (TXhr id) readystatechange OnHTTPStatus w
  | None => w
  end.

Definition slice : Op := fun w =>
  let w := upd_this (set_state 3) w in
  let '(id, w) := new_XMLHttpRequest w in
  let w := upd_this (set_loader (Some id)) w in
  let w := addEventListener (TXhr id) progress OnProgress w in
  let w := addEventListener (TXhr id) abort_ OnClose w in
  let w := addEventListener (TXhr id) load_ OnComplete w in
  let w := addEventListener (TXhr id) readystatechange OnHTTPStatus w in
  match _request (this w) with
  | None => Thrown (TypeError "Cannot read properties of null (reading 'method')") w
  | Some r =>
      let w := xhr_open id (URLRequest.method r) (URLRequest.url r) w in
      let w := xhr_setRequestHeader id "Content-Type"
                 (HText "application/octet-stream") w in
      let w := xhr_setRequestHeader id "Range"
                 (HBytes (bytesLoaded w) (bytesLoaded w + 204799)) w in
      let w := xhr_set_responseType id "arraybuffer" w in
      Done (xhr_send id None w)
  end.

Definition close : Op :=
  lift abort ;;; lift reset.

Definition pause : Op := fun w =>
  if negb (state w =? 3) then Done w
  else
    let w := upd_this (set_active_disconnect true) w in
    Done (abort w).

Definition resume : Op := fun w =>
  if negb (state w =? 3) then Done w
  else slice w.

Definition load (request : option URLRequest.t) : Op := fun w =>
  let w := match request with
           | Some r => upd_this (set_request (Some r)) w
           | None => w
           end in
  match _xhr (this w), _request (this w) with
  | Some id, Some r =>
      let w := xhr_open id (URLRequest.method r) (URLRequest.url r) w in
      let w := xhr_set_responseType id "arraybuffer" w in
      let w := fold_left (fun w' item =>
                 xhr_setRequestHeader id (fst item) (snd item) w')
                 (URLRequest.requestHeaders r) w in
      Done (xhr_send id (URLRequest.data r) w)
  | _, _ =>
      Thrown (TypeError
        "所传递的请求 URLRequest 对象或 URLRequest.url 属性为 null。") w
  end.

Definition onHTTPStatus (evt : Event) : Op := fun w =>
  match e_target evt with
  | TWindow => Done w
  | TXhr id =>
      match xhr_get id w with
      | None => Done w
      | Some xhr =>
          if x_status xhr =? 0 then Done w
          else if x_readyState xhr =? 2 then
            let w := if _state (this w) <? 2 then upd_this (set_state 2) w else w in
            if 400 <=? x_status xhr then
              let w := rline w in
              let _code := x_status xhr in
              let _desc := if 500 <=? x_status xhr then "server error"
                           else "request error" in
              Done (emit (with_desc _desc
                            (notification LoaderEvent.ERROR (CodeNum _code)
                               EventLevel.ERROR)) w)
            else if 3 <=? _state (this w) then Done w
            else
              match _xhr (this w) with
              | None =>
                  Thrown (TypeError
                    "Cannot read properties of null (reading 'getResponseHeader')") w
              | Some hid =>
                  let header :=
                    match xhr_get hid w with
                    | Some h => x_contentLength h
                    | None => None
                    end in
                  let w := set_bytesTotal
                             (match header with Some s => JStr s | None => JNull end) w in
                  if negb (truthy (bytesTotal w)) then
                    let _code := 1001 in
                    let _desc := "unable to get file size" in
                    Done (emit (with_desc _desc
                                  (notification LoaderEvent.ERROR (CodeNum _code)
                                     EventLevel.ERROR)) w)
                  else
                    (lift (upd_this (set_active_disconnect true)) ;;;
                     lift abort ;;; slice ;;; lift aline) w
              end
          else Done w
      end
  end.

Definition onComplete (evt : Event) : Op := fun w =>
  match _loader (this w) with
  | None => Done w
  | Some id =>
      match xhr_get id w with
      | None => Done w
      | Some ld =>
          if x_status ld <? 400 then
            match x_response ld with
            | None =>
                Thrown (TypeError
                  "Cannot read properties of null (reading 'byteLength')") w
            | Some response =>
                let ln := bytesLoaded w + byteLength response in
                if ln <? 0 then Thrown RangeError w
                else
                  let temp := new_Int8Array ln in
                  let temp1 :=
                    match data w with
                    | Some d => typed_set temp d 0
                    | None => Some temp
                    end in
                  match temp1 with
                  | None => Thrown RangeError w
                  | Some temp =>
                      match typed_set temp response (bytesLoaded w) with
                      | None => Thrown RangeError w
                      | Some temp =>
                          let w := set_data (Some temp) w in
                          let w := set_bytesLoaded (byteLength temp) w in
                          if js_lt (bytesLoaded w) (bytesTotal w) then slice w
                          else
                            let w := upd_this (set_state 4) w in
                            let w := rline w in
                            Done (emit (with_data (data w)
                                          (notification LoaderEvent.COMPLETE
                                             (CodeName LoaderEvent.COMPLETE)
                                             EventLevel.STATUS)) w)
                      end
                  end
            end
          else Done w
      end
  end.

Definition online (evt : Event) : Op := fun w =>
  if _state (this w) =? 3 then
    (slice ;;;
     lift (emit (with_desc "network recovery"
                   (notification "networkState" (CodeName "online")
                      EventLevel.STATUS)))) w
  else Done w.

(** A registered callback runs the method it was bound from; an exception
    that escapes it is reported and goes no further. *)
Definition handle (l : Listener) (evt : Event) (w : World) : World :=
  let o :=
    match l_handler l with
    | OnStart => onStart evt w
    | OnProgress => onProgress evt w
    | OnHTTPStatus => onHTTPStatus evt w
    | OnComplete => onComplete evt w
    | OnError => onError evt w
    | OnClose => onClose evt w
    | Online => online evt w
    | Offline => offline evt w
    end in
  match o with
  | Done w' => w'
  | Thrown e w' => report e w'
  end.

End Methods.

End FileLoader.

(** ** The browser side: what reaches the loader from outside *)

(** How a registered callback of a FileLoader runs.  A method reached from a
    dispatch may itself call [open], [send] or [abort], whose dispatches reach
    methods again; two levels are all that a FileLoader uses: a method
    reached from inside [open], [send] or [abort] finds status 0, or is
    [onStart] or [onClose], and dispatches nothing in its turn. *)
Definition callback0 : Listener -> Event -> World -> World :=
  FileLoader.handle (fun _ _ w => w).

Definition callback : Listener -> Event -> World -> World :=
  FileLoader.handle callback0.

Definition dispatch (ty : EventType) (evt : Event) (w : World) : World :=
  FileLoader.fire callback ty evt w.

(** The world before [new FileLoader(request)]. *)
Definition empty_world : World :=
  {| this := {| _state := 0; _loaded := 0; _total := JNull; _data := None;
                _dataFormat := ""; _timeout := 0; _xhr := None; _loader := None;
                _active_disconnect := false; _request := None |};
     xhrs := []; window := []; next_fn := 0%nat; emitted := []; uncaught := [] |}.

(** [new FileLoader(request)] *)
Definition new_FileLoader (request : option URLRequest.t) : World :=
  FileLoader.initialize request empty_world.

(** The transport delivers the status line and headers of a response:
    HEADERS_RECEIVED, readystatechange. *)
Definition net_headers (id : nat) (status : Z) (contentLength : option string)
    (w : World) : World :=
  match xhr_get id w with
  | Some x =>
      if x_sendFlag x && (x_readyState x =? 1) then
        let w := upd_xhrs (alter (xhr_set_response 2 true status contentLength None) id) w in
        dispatch readystatechange (event_at (TXhr id)) w
      else w
  | None => w
  end.

(** A part of the body arrives: LOADING, readystatechange, then progress with
    the count of bytes received so far in this exchange. *)
Definition net_progress (id : nat) (received : Z) (w : World) : World :=
  match xhr_get id w with
  | Some x =>
      if x_sendFlag x && ((x_readyState x =? 2) || (x_readyState x =? 3)) then
        let w := upd_xhrs (alter (xhr_set_response 3 true (x_status x)
                                    (x_contentLength x) None) id) w in
        let w := dispatch readystatechange (event_at (TXhr id)) w in
        dispatch progress (progress_event id received x) w
      else w
  | None => w
  end.

(** The body is complete: a last progress event, then DONE with the response
    available, readystatechange, load. *)
Definition net_load (id : nat) (body : list byte) (w : World) : World :=
  match xhr_get id w with
  | Some x =>
      if x_sendFlag x && ((x_readyState x =? 2) || (x_readyState x =? 3)) then
        let w := dispatch progress (progress_event id (byteLength body) x) w in
        let w := upd_xhrs (alter (xhr_set_response 4 false (x_status x)
                                    (x_contentLength x) (Some body)) id) w in
        let w := dispatch readystatechange (event_at (TXhr id)) w in
        dispatch load_ (progress_event id (byteLength body) x) w
      else w
  | None => w
  end.

(** The exchange fails in the network: DONE with a network error,
    readystatechange, error. *)
Definition net_error (id : nat) (w : World) : World :=
  match xhr_get id w with
  | Some x =>
      if in_flight x then
        let w := upd_xhrs (alter (xhr_set_response 4 false 0 None None) id) w in
        let w := dispatch readystatechange (event_at (TXhr id)) w in
        dispatch error (event_at (TXhr id)) w
      else w
  | None => w
  end.

(** The connectivity signals of [window]. *)
Definition win_online (w : World) : World :=
  dispatch online_ (event_at TWindow) w.

Definition win_offline (w : World) : World :=
  dispatch offline_ (event_at TWindow) w.

(** What can happen to a loader: a call of its public interface by the
    caller, or an event of the transport or of [window]. *)
Inductive Input :=
| CallLoad (request : option URLRequest.t)
| CallClose
| CallPause
| CallResume
| AssignDataFormat (value : JsValue)
| NetHeaders (id : nat) (status : Z) (contentLength : option string)
| NetProgress (id : nat) (received : Z)
| NetLoad (id : nat) (body : list byte)
| NetError (id : nat)
| WinOnline
| WinOffline.

(** One input; an exception thrown by a public method ends that call and is
    the caller's to catch. *)
Definition step (i : Input) (w : World) : World :=
  match i with
  | CallLoad r => world_of (FileLoader.load callback r w)
  | CallClose => world_of (FileLoader.close callback w)
  | CallPause => world_of (FileLoader.pause callback w)
  | CallResume => world_of (FileLoader.resume callback w)
  | AssignDataFormat v => world_of (FileLoader.set_dataFormat v w)
  | NetHeaders id st cl => net_headers id st cl w
  | NetProgress id n => net_progress id n w
  | NetLoad id b => net_load id b w
  | NetError id => net_error id w
  | WinOnline => win_online w
  | WinOffline => win_offline w
  end.

Definition run (inputs : list Input) (w : World) : World :=
  fold_left (fun w' i => step i w') inputs w.

(** ** A server holding one resource *)

Section Server.

Variable resource : list byte.

(** The Range header of a request, if it has one. *)
Fixpoint range_of (hs : list (string * HeaderValue)) : option (Z * Z) :=
  match hs with
  | [] => None
  | (name, HBytes a b) :: hs' =>
      if String.eqb name "Range" then Some (a, b) else range_of hs'
  | _ :: hs' => range_of hs'
  end.

(** Bytes [first .. last] of the resource, clipped to what exists. *)
Definition bytes_between (first last : Z) : list byte :=
  take (Z.to_nat (last - first + 1)) (drop (Z.to_nat first) resource).

(** The response to the request of an exchange: 200 and the whole resource
    without a Range header; with one, 206 and the bytes of the range when it
    starts inside the resource, 416 otherwise. *)
Definition response_status (x : XHR) : Z :=
  match range_of (x_requestHeaders x) with
  | None => 200
  | Some (a, b) => if a <? byteLength resource then 206 else 416
  end.

Definition response_body (x : XHR) : list byte :=
  match range_of (x_requestHeaders x) with
  | None => resource
  | Some (a, b) => if a <? byteLength resource then bytes_between a b else []
  end.

Definition response_length (x : XHR) : option string :=
  Some (decimal (byteLength (response_body x))).

Definition serve_headers (id : nat) (w : World) : World :=
  match xhr_get id w with
  | Some x => net_headers id (response_status x) (response_length x) w
  | None => w
  end.

Definition serve_body (id : nat) (w : World) : World :=
  match xhr_get id w with
  | Some x => net_load id (response_body x) w
  | None => w
  end.

(** The server answers an exchange in full. *)
Definition serve (id : nat) (w : World) : World :=
  serve_body id (serve_headers id w).

End Server.

(** * Properties *)

(** ** Lists of sessions *)

Lemma lookup_snoc {A} (xs : list A) (x : A) : (xs ++ [x]) !! length xs = Some x.
Proof. rewrite lookup_app_r by lia. now rewrite Nat.sub_diag. Qed.

Lemma alter_snoc {A} (f : A -> A) (xs : list A) (x : A) :
  alter f (length xs) (xs ++ [x]) = xs ++ [f x].
Proof.
  replace (length xs) with (length xs + 0)%nat at 1 by lia.
  now rewrite alter_app_r.
Qed.

Lemma alter_same {A} (f : A -> A) (i : nat) (xs : list A) :
  Forall (fun x => f x = x) xs -> alter f i xs = xs.
Proof.
  intros H. revert i. induction H as [|x xs Hx _ IH]; intros [|i]; simpl; auto.
  - now rewrite Hx.
  - f_equal. apply IH.
Qed.

(** ** Registered callbacks *)

(** The method each event type is bound to, wherever the loader registers. *)
Definition handler_of (ty : EventType) : Handler :=
  match ty with
  | loadstart => OnStart
  | progress => OnProgress
  | abort_ => OnClose
  | error => OnError
  | load_ => OnComplete
  | readystatechange => OnHTTPStatus
  | online_ => Online
  | offline_ => Offline
  end.

(** A listener as the loader registers them: the method that goes with its
    type, bound to a function object created before [n]. *)
Definition registered (n : nat) (l : Listener) : Prop :=
  l_handler l = handler_of (l_type l) /\ (l_fn l < n)%nat.

Definition wf_world (w : World) : Prop :=
  Forall (fun x => Forall (registered (next_fn w)) (x_listeners x)) (xhrs w)
  /\ Forall (registered (next_fn w)) (window w).

Lemma registered_mono n m l : (n <= m)%nat -> registered n l -> registered m l.
Proof. intros Hle [H1 H2]. split; [assumption | lia]. Qed.

Lemma same_listener_fresh ty n l : (l_fn l < n)%nat -> same_listener ty n l = false.
Proof.
  intros H. unfold same_listener.
  destruct (Nat.eqb_spec n (l_fn l)); [lia | apply andb_false_r].
Qed.

(** A callback object that was never registered removes nothing. *)
Lemma remove_listener_fresh ty n ls :
  Forall (registered n) ls -> remove_listener ty n ls = ls.
Proof.
  unfold remove_listener. induction 1 as [|l ls [_ Hl] _ IH]; simpl; [reflexivity|].
  rewrite (same_listener_fresh ty n l Hl). simpl. now rewrite IH.
Qed.

Lemma add_listener_fresh ty n h ls :
  Forall (registered n) ls ->
  add_listener ty n h ls = ls ++ [{| l_type := ty; l_fn := n; l_handler := h |}].
Proof.
  intros H. unfold add_listener.
  replace (existsb (same_listener ty n) ls) with false; [reflexivity|].
  symmetry. induction H as [|l ls [_ Hl] _ IH]; simpl; [reflexivity|].
  now rewrite (same_listener_fresh ty n l Hl).
Qed.

Lemma xhr_set_listeners_same x : xhr_set_listeners (x_listeners x) x = x.
Proof. now destruct x. Qed.

Lemma upd_xhrs_same f w : f (xhrs w) = xhrs w -> upd_xhrs f w = w.
Proof. intros H. unfold upd_xhrs. rewrite H. now destruct w. Qed.

Lemma upd_window_same f w : f (window w) = window w -> upd_window f w = w.
Proof. intros H. unfold upd_window. rewrite H. now destruct w. Qed.

(** [removeEventListener] with a freshly bound callback leaves every listener
    list as it was; only the function counter moves. *)
Lemma removeEventListener_fresh t ty h w :
  wf_world w ->
  removeEventListener t ty h w = set_next_fn (S (next_fn w)) w.
Proof.
  intros [Hx Hw]. unfold removeEventListener. f_equal.
  destruct t as [id|]; simpl.
  - apply upd_xhrs_same, alter_same.
    eapply Forall_impl; [exact Hx|]. intros x Hl. simpl in Hl.
    rewrite (remove_listener_fresh _ _ _ Hl). apply xhr_set_listeners_same.
  - apply upd_window_same. now apply remove_listener_fresh.
Qed.

Lemma wf_set_next_fn n w : (next_fn w <= n)%nat -> wf_world w -> wf_world (set_next_fn n w).
Proof.
  intros Hle [Hx Hw]. split; simpl.
  - eapply Forall_impl; [exact Hx|]. intros x Hl. simpl in Hl.
    eapply Forall_impl; [exact Hl|]. intros l. now apply registered_mono.
  - eapply Forall_impl; [exact Hw|]. intros l. now apply registered_mono.
Qed.

(** ** What [slice] does *)

(** The four listeners that [slice] registers on a new exchange, the first
    bound as function [f]. *)
Definition chunk_listeners (f : nat) : list Listener :=
  [ {| l_type := progress; l_fn := f; l_handler := OnProgress |};
    {| l_type := abort_; l_fn := S f; l_handler := OnClose |};
    {| l_type := load_; l_fn := S (S f); l_handler := OnComplete |};
    {| l_type := readystatechange; l_fn := S (S (S f)); l_handler := OnHTTPStatus |} ].

(** The exchange that [slice] leaves in flight for offset [k]. *)
Definition chunk_request (r : URLRequest.t) (k : Z) (f : nat) : XHR :=
  {| x_readyState := 1; x_sendFlag := true; x_status := 0;
     x_contentLength := None; x_response := None;
     x_method := URLRequest.method r; x_url := URLRequest.url r;
     x_requestHeaders := [("Content-Type", HText "application/octet-stream");
                          ("Range", HBytes k (k + 204799))];
     x_responseType := "arraybuffer"; x_body := None;
     x_listeners := chunk_listeners f |}.

Definition sliced (r : URLRequest.t) (w : World) : World :=
  {| this := set_loader (Some (length (xhrs w))) (set_state 3 (this w));
     xhrs := xhrs w ++ [chunk_request r (_loaded (this w)) (next_fn w)];
     window := window w;
     next_fn := (4 + next_fn w)%nat;
     emitted := emitted w;
     uncaught := uncaught w |}.

(** A readystatechange listener that finds status 0 returns at once. *)
Definition quiet (inner : Listener -> Event -> World -> World) : Prop :=
  forall l id x w,
    l_handler l = OnHTTPStatus -> xhr_get id w = Some x -> x_status x = 0 ->
    inner l {| e_target := TXhr id; e_loaded := 0; e_total := 0 |} w = w.

Lemma handle_quiet inner : quiet (FileLoader.handle inner).
Proof.
  intros l id x w Hl Hx Hs. unfold FileLoader.handle, FileLoader.onHTTPStatus.
  rewrite Hl. simpl. rewrite Hx, Hs. reflexivity.
Qed.

Lemma callback0_quiet : quiet callback0.
Proof. apply handle_quiet. Qed.

Lemma callback_quiet : quiet callback.
Proof. apply handle_quiet. Qed.

(** Symbolic execution of the methods on a world given by its fields: the
    record updates, the projections and the browser primitives are unfolded,
    the newest exchange is looked up and altered by [lookup_snoc] and
    [alter_snoc], and tests on literals are decided. *)
Ltac wcbv :=
  cbv beta iota zeta delta
    [upd_this upd_xhrs upd_window set_next_fn emit report
     set_state set_loaded set_total set_data set_xhr set_loader
     set_active_disconnect set_request
     xhr_set_listeners xhr_set_response xhr_set_request new_XHR
     FileLoader.bytesLoaded FileLoader.bytesTotal FileLoader.data FileLoader.state
     FileLoader.set_bytesLoaded FileLoader.set_bytesTotal FileLoader.set_data
     xhr_get new_XMLHttpRequest addEventListener removeEventListener upd_listeners
     xhr_setRequestHeader xhr_set_responseType listeners_of
     seq lift ret world_of event_at progress_event in_flight
     FileLoader.slice FileLoader.xhr_open FileLoader.xhr_send FileLoader.fire
     FileLoader.xhr_abort
     this xhrs window next_fn emitted uncaught
     _state _loaded _total _data _dataFormat _timeout _xhr _loader
     _active_disconnect _request
     x_readyState x_sendFlag x_status x_contentLength x_response x_method x_url
     x_requestHeaders x_responseType x_body x_listeners
     l_type l_fn l_handler e_target e_loaded e_total
     listeners_for EventType_beq add_listener
     same_listener andb orb negb fst snd].

Ltac wcbn :=
  cbn [fold_left List.filter existsb app andb orb negb
       Z.eqb Z.ltb Z.leb Z.compare Pos.compare Pos.compare_cont Pos.eqb CompOpp].

Ltac wsimpl := repeat (progress (wcbv; rewrite ?alter_snoc, ?lookup_snoc; wcbn)).

Lemma slice_spec inner r w :
  quiet inner -> _request (this w) = Some r ->
  FileLoader.slice inner w = Done (sliced r w).
Proof.
  intros Hq Hr. destruct w as [t xs win n em un]. destruct t. cbn in Hr. subst.
  wsimpl.
  erewrite Hq; [ | reflexivity | unfold xhr_get; cbn; apply lookup_snoc | reflexivity ].
  wsimpl. reflexivity.
Qed.

(** ** Appending a chunk to the assembled buffer *)

(** The bytes of [data]: none while it is [null]. *)
Definition buffer (d : option (list byte)) : list byte :=
  match d with Some b => b | None => [] end.

Lemma byteLength_app a b : byteLength (a ++ b) = byteLength a + byteLength b.
Proof. unfold byteLength. rewrite length_app. lia. Qed.

Lemma byteLength_nonneg a : 0 <= byteLength a.
Proof. unfold byteLength. lia. Qed.

Lemma byteLength_new_Int8Array n : 0 <= n -> byteLength (new_Int8Array n) = n.
Proof. intros H. unfold byteLength, new_Int8Array. rewrite length_replicate. lia. Qed.

(** Copying [d] to the front of a longer array. *)
Lemma typed_set_front temp d :
  byteLength d <= byteLength temp ->
  typed_set temp d 0 = Some (d ++ drop (length d) temp).
Proof.
  intros H. unfold typed_set. rewrite Z.add_0_l.
  destruct (Z.leb_spec (byteLength d) (byteLength temp)) as [_|]; [|lia].
  change (Z.to_nat 0) with 0%nat. rewrite take_0. simpl.
  unfold byteLength. now rewrite Nat2Z.id.
Qed.

(** Copying [r] to the end of an array that starts with [d]. *)
Lemma typed_set_back d pad r :
  length pad = length r ->
  typed_set (d ++ pad) r (byteLength d) = Some (d ++ r).
Proof.
  intros H. unfold typed_set.
  assert (Hl : byteLength d + byteLength r = byteLength (d ++ pad)).
  { rewrite byteLength_app. unfold byteLength. lia. }
  rewrite Hl, Z.leb_refl. f_equal.
  unfold byteLength at 1. rewrite Nat2Z.id, take_app_length.
  unfold byteLength. rewrite Nat2Z.id, drop_all, app_nil_r. reflexivity.
Qed.

(** The two copies of [onComplete] build [data ++ response] whenever
    [bytesLoaded] is the length of [data]. *)
Lemma assemble d r k :
  byteLength (buffer d) = k ->
  exists t1,
    match d with
    | Some b => typed_set (new_Int8Array (k + byteLength r)) b 0
    | None => Some (new_Int8Array (k + byteLength r))
    end = Some t1
    /\ typed_set t1 r k = Some (buffer d ++ r).
Proof.
  intros Hk. set (temp := new_Int8Array (k + byteLength r)).
  assert (Ht : byteLength temp = byteLength (buffer d) + byteLength r).
  { rewrite Hk. apply byteLength_new_Int8Array.
    pose proof (byteLength_nonneg (buffer d)). pose proof (byteLength_nonneg r). lia. }
  assert (Hlen : length temp = (length (buffer d) + length r)%nat).
  { unfold byteLength in Ht. lia. }
  subst k. destruct d as [b|]; simpl in *.
  - eexists. split.
    + apply typed_set_front. pose proof (byteLength_nonneg r). lia.
    + apply typed_set_back. rewrite length_drop. lia.
  - exists temp. split; [reflexivity|].
    change temp with ([] ++ temp) at 1. apply (typed_set_back [] temp r). lia.
Qed.

(** ** C2: what [onComplete] does after the append *)

Definition COMPLETE_notification (d : option (list byte)) : Notification :=
  with_data d (notification LoaderEvent.COMPLETE (CodeName LoaderEvent.COMPLETE)
                 EventLevel.STATUS).

(** C2.  When the load event of the current chunk exchange reaches
    [onComplete] with a successful response, and [bytesLoaded] is the length
    of the buffer assembled so far, the response is appended to the buffer and
    [bytesLoaded] advances by its length.  Then, with a numeric total [n]:
    if the new [bytesLoaded] has reached [n] the state becomes 4 and exactly
    one COMPLETE notification carrying the whole buffer is emitted, with no
    further request; otherwise nothing is emitted and the next ranged exchange
    is issued at once, starting at the new [bytesLoaded]. *)
Theorem onComplete_completes_or_continues :
  forall inner evt w id ld response r n,
    quiet inner ->
    _loader (this w) = Some id ->
    xhr_get id w = Some ld ->
    x_status ld < 400 ->
    x_response ld = Some response ->
    _request (this w) = Some r ->
    byteLength (buffer (FileLoader.data w)) = FileLoader.bytesLoaded w ->
    ToNumber (FileLoader.bytesTotal w) = Some n ->
    let appended := buffer (FileLoader.data w) ++ response in
    let loaded' := FileLoader.bytesLoaded w + byteLength response in
    exists w',
      FileLoader.onComplete inner evt w = Done w'
      /\ FileLoader.data w' = Some appended
      /\ FileLoader.bytesLoaded w' = loaded'
      /\ FileLoader.bytesTotal w' = FileLoader.bytesTotal w
      /\ ((n <= loaded'
           /\ FileLoader.state w' = 4
           /\ emitted w' = emitted w ++ [COMPLETE_notification (Some appended)]
           /\ xhrs w' = xhrs w)
          \/ (loaded' < n
              /\ FileLoader.state w' = 3
              /\ emitted w' = emitted w
              /\ xhrs w' = xhrs w ++ [chunk_request r loaded' (next_fn w)]
              /\ _loader (this w') = Some (length (xhrs w)))).
Proof.
  intros inner evt w id ld response r n Hq Hl Hget Hst Hresp Hreq Hbuf Hn appended loaded'.
  destruct (assemble (FileLoader.data w) response (FileLoader.bytesLoaded w) Hbuf)
    as (t1 & E1 & E2).
  assert (Hlen : byteLength appended = loaded').
  { unfold appended, loaded'. rewrite byteLength_app. lia. }
  unfold FileLoader.onComplete. rewrite Hl, Hget.
  destruct (Z.ltb_spec (x_status ld) 400) as [_|]; [|lia].
  rewrite Hresp. cbv zeta.
  destruct (Z.ltb_spec (FileLoader.bytesLoaded w + byteLength response) 0) as [Hneg|_].
  { pose proof (byteLength_nonneg appended). lia. }
  rewrite E1, E2. fold appended.
  set (W := FileLoader.set_bytesLoaded (byteLength appended)
              (FileLoader.set_data (Some appended) w)).
  change (FileLoader.bytesLoaded W) with (byteLength appended).
  change (FileLoader.bytesTotal W) with (FileLoader.bytesTotal w).
  unfold js_lt. rewrite Hn, Hlen.
  destruct (Z.ltb_spec loaded' n) as [Hlt|Hge].
  - rewrite (slice_spec inner r W Hq Hreq).
    eexists. split; [reflexivity|].
    repeat split; try reflexivity; try assumption.
    right. repeat split; try reflexivity; try assumption.
    cbn. now rewrite Hlen.
  - eexists. split; [reflexivity|].
    repeat split; try reflexivity; try assumption.
    left. repeat split; try reflexivity; assumption.
Qed.

(** ** What [abort] does *)

Definition alter_opt {A} (f : A -> A) (o : option nat) (xs : list A) : list A :=
  match o with Some id => alter f id xs | None => xs end.

(** An XMLHttpRequest after [abort()]: an exchange in flight, or one that had
    ended, is back in state UNSENT with an empty response. *)
Definition aborted (x : XHR) : XHR :=
  if in_flight x || (x_readyState x =? 4)
  then xhr_set_response 0 false 0 None None x
  else x.

Definition is_CLOSE (n : Notification) : Prop :=
  n_name n = LoaderEvent.CLOSE /\ n_code n = CodeName LoaderEvent.CLOSE.

(** [settles w w']: [w'] is [w] except for the [_active_disconnect] flag, the
    function counter, and CLOSE notifications emitted on top. *)
Definition settles (w w' : World) : Prop :=
  this w' = set_active_disconnect (_active_disconnect (this w')) (this w)
  /\ xhrs w' = xhrs w
  /\ window w' = window w
  /\ (next_fn w <= next_fn w')%nat
  /\ uncaught w' = uncaught w
  /\ exists cs, emitted w' = emitted w ++ cs /\ Forall is_CLOSE cs.

Lemma settles_refl w : settles w w.
Proof.
  repeat split; auto.
  - now destruct (this w).
  - exists []. split; [now rewrite app_nil_r | constructor].
Qed.

Lemma settles_trans a b c : settles a b -> settles b c -> settles a c.
Proof.
  intros (T1 & X1 & W1 & N1 & U1 & cs1 & E1 & C1) (T2 & X2 & W2 & N2 & U2 & cs2 & E2 & C2).
  repeat split; try congruence; try lia.
  - rewrite T2, T1. reflexivity.
  - exists (cs1 ++ cs2). split.
    + rewrite E2, E1. now rewrite app_assoc.
    + now apply Forall_app.
Qed.

Lemma onClose_settles inner l evt w :
  l_handler l = OnClose -> settles w (FileLoader.handle inner l evt w).
Proof.
  intros Hl. unfold FileLoader.handle, FileLoader.onClose. rewrite Hl.
  destruct (_active_disconnect (this w)) eqn:Had; unfold emit, upd_this; cbn.
  - repeat split; auto. exists []. split; [now rewrite app_nil_r | constructor].
  - repeat split; auto.
    + now destruct (this w).
    + eexists. split; [reflexivity|]. repeat constructor.
Qed.

Lemma listeners_for_registered n ty ls :
  Forall (registered n) ls ->
  Forall (fun l => l_handler l = handler_of ty) (listeners_for ty ls).
Proof.
  unfold listeners_for. induction 1 as [|l ls [Hl _] _ IH]; simpl; [constructor|].
  destruct (EventType_beq ty (l_type l)) eqn:E; [|assumption].
  constructor; [|assumption].
  apply internal_EventType_dec_bl in E. now rewrite Hl, E.
Qed.

Lemma fold_settles inner evt ls :
  Forall (fun l => l_handler l = OnClose) ls ->
  forall w, settles w (fold_left (fun w' l => FileLoader.handle inner l evt w') ls w).
Proof.
  induction 1 as [|l ls Hl _ IH]; intros w; simpl; [apply settles_refl|].
  eapply settles_trans; [|apply IH]. now apply onClose_settles.
Qed.

Lemma fold_quiet inner id x w ls :
  quiet inner -> xhr_get id w = Some x -> x_status x = 0 ->
  Forall (fun l => l_handler l = OnHTTPStatus) ls ->
  fold_left (fun w' l => inner l {| e_target := TXhr id; e_loaded := 0; e_total := 0 |} w')
    ls w = w.
Proof.
  intros Hq Hx Hs. induction 1 as [|l ls Hl _ IH]; simpl; [reflexivity|].
  rewrite (Hq l id x w Hl Hx Hs). apply IH.
Qed.

Lemma aborted_listeners x : x_listeners (aborted x) = x_listeners x.
Proof. unfold aborted. now destruct (in_flight x || (x_readyState x =? 4)). Qed.

Lemma alter_out {A} (f : A -> A) (i : nat) (xs : list A) :
  xs !! i = None -> alter f i xs = xs.
Proof.
  revert i. induction xs as [|x xs IH]; intros [|i] H; simpl in *; try reflexivity.
  - discriminate.
  - f_equal. now apply IH.
Qed.

(** [xhr.abort()], seen from the loader: the object is as [aborted] says, and
    the abort listeners, all [onClose], have run. *)
Lemma xhr_abort_spec inner id w :
  wf_world w ->
  settles (upd_xhrs (alter aborted id) w)
          (FileLoader.xhr_abort (FileLoader.handle inner) id w).
Proof.
  intros [Hwf _]. unfold FileLoader.xhr_abort.
  destruct (xhr_get id w) as [x|] eqn:Hx; unfold xhr_get in Hx.
  2:{ rewrite upd_xhrs_same by now apply alter_out. apply settles_refl. }
  assert (Hreg : Forall (registered (next_fn w)) (x_listeners x)).
  { exact (Forall_lookup_1 _ _ _ _ Hwf Hx). }
  destruct (in_flight x) eqn:Hfl.
  - set (w1 := upd_xhrs (alter (xhr_set_response 4 false 0 None None) id) w).
    assert (Hx1 : xhr_get id w1 = Some (xhr_set_response 4 false 0 None None x)).
    { unfold xhr_get, w1. cbn. rewrite list_lookup_alter_eq, Hx. reflexivity. }
    unfold FileLoader.fire at 2. cbn [e_target event_at listeners_of].
    unfold xhr_get in Hx1. rewrite Hx1. cbn [x_listeners xhr_set_response].
    rewrite (fold_quiet _ id _ w1 _ (handle_quiet inner) Hx1 eq_refl)
      by (apply (listeners_for_registered _ readystatechange _ Hreg)).
    unfold FileLoader.fire. cbn [e_target event_at listeners_of].
    rewrite Hx1. cbn [x_listeners xhr_set_response].
    pose proof (fold_settles inner (event_at (TXhr id)) _
                  (listeners_for_registered _ abort_ _ Hreg) w1) as Hs.
    set (w2 := fold_left _ _ w1) in *.
    destruct Hs as (T & X & W & N & U & cs & E & C).
    repeat split; cbn; try assumption.
    + rewrite X. unfold w1. cbn. rewrite list_alter_alter_eq.
      apply list_alter_ext; [|reflexivity].
      intros y Hy. rewrite Hx in Hy. injection Hy as <-.
      unfold aborted. rewrite Hfl. reflexivity.
    + exists cs. now split.
  - replace (upd_xhrs (alter aborted id) w) with
      (upd_xhrs (alter (fun x0 => if x_readyState x0 =? 4
                                  then xhr_set_response 0 false 0 None None x0
                                  else x0) id) w).
    + apply settles_refl.
    + unfold upd_xhrs. f_equal. apply list_alter_ext; [|reflexivity].
      intros y Hy. rewrite Hx in Hy. injection Hy as <-.
      unfold aborted. now rewrite Hfl.
Qed.

Lemma wf_settles w w' : wf_world w -> settles w w' -> wf_world w'.
Proof.
  intros [Hx Hw] (_ & X & W & N & _). split; rewrite ?X, ?W.
  - eapply Forall_impl; [exact Hx|]. intros x Hl. simpl in Hl.
    eapply Forall_impl; [exact Hl|]. intros l. now apply registered_mono.
  - eapply Forall_impl; [exact Hw|]. intros l. now apply registered_mono.
Qed.

Lemma wf_aborted id w : wf_world w -> wf_world (upd_xhrs (alter aborted id) w).
Proof.
  intros [Hx Hw]. split; [|exact Hw]. cbn.
  apply Forall_alter; [exact Hx|]. intros x _ Hl. now rewrite aborted_listeners.
Qed.

Lemma settles_set_next_fn n w : (next_fn w <= n)%nat -> settles w (set_next_fn n w).
Proof.
  intros H. repeat split; auto.
  - cbn. now destruct (this w).
  - exists []. split; [cbn; now rewrite app_nil_r | constructor].
Qed.

Lemma settles_upd_xhrs f a b : settles a b -> settles (upd_xhrs f a) (upd_xhrs f b).
Proof.
  intros (T & X & W & N & U & E). repeat split; cbn; auto. now rewrite X.
Qed.

Lemma settles_this_fields w w' :
  settles w w' ->
  _state (this w') = _state (this w) /\ _loaded (this w') = _loaded (this w)
  /\ _total (this w') = _total (this w) /\ _data (this w') = _data (this w)
  /\ _dataFormat (this w') = _dataFormat (this w)
  /\ _xhr (this w') = _xhr (this w) /\ _loader (this w') = _loader (this w)
  /\ _request (this w') = _request (this w).
Proof. intros (T & _). rewrite T. repeat split. Qed.

(** With a callback that is never the registered one,
    [removeEventListener] only binds a function. *)
Lemma remove1 t ty h w :
  wf_world w ->
  settles w (removeEventListener t ty h w) /\ wf_world (removeEventListener t ty h w).
Proof.
  intros Hwf. rewrite (removeEventListener_fresh t ty h w) by assumption.
  split.
  - apply settles_set_next_fn. lia.
  - apply wf_set_next_fn; [lia | assumption].
Qed.

Lemma remove4 t ty1 h1 ty2 h2 ty3 h3 ty4 h4 w :
  wf_world w ->
  let w' := removeEventListener t ty4 h4 (removeEventListener t ty3 h3
              (removeEventListener t ty2 h2 (removeEventListener t ty1 h1 w))) in
  settles w w' /\ wf_world w'.
Proof.
  intros Hwf w'. subst w'.
  destruct (remove1 t ty1 h1 _ Hwf) as [S1 W1].
  destruct (remove1 t ty2 h2 _ W1) as [S2 W2].
  destruct (remove1 t ty3 h3 _ W2) as [S3 W3].
  destruct (remove1 t ty4 h4 _ W3) as [S4 W4].
  split; [|exact W4].
  eapply settles_trans; [exact S1|]. eapply settles_trans; [exact S2|].
  eapply settles_trans; [exact S3|]. exact S4.
Qed.

Lemma rline_spec w :
  wf_world w -> settles w (FileLoader.rline w) /\ wf_world (FileLoader.rline w).
Proof.
  intros Hwf. unfold FileLoader.rline.
  destruct (remove1 TWindow online_ Online _ Hwf) as [S1 W1].
  destruct (remove1 TWindow offline_ Offline _ W1) as [S2 W2].
  split; [|exact W2]. eapply settles_trans; [exact S1|exact S2].
Qed.

(** [abort], seen from the loader: the header exchange and the chunk exchange
    are [aborted], their abort listeners have run, and every listener list
    is as before. *)
Lemma abort_spec inner w :
  wf_world w ->
  let w' := FileLoader.abort (FileLoader.handle inner) w in
  settles (upd_xhrs (fun xs => alter_opt aborted (_loader (this w))
                                 (alter_opt aborted (_xhr (this w)) xs)) w) w'
  /\ wf_world w'.
Proof.
  intros Hwf. unfold FileLoader.abort. cbv zeta.
  destruct (rline_spec w Hwf) as [S1 W1].
  set (w1 := FileLoader.rline w) in *.
  destruct (settles_this_fields _ _ S1) as (_ & _ & _ & _ & _ & Ex & El & _).
  rewrite Ex.
  set (A1 := alter_opt aborted (_xhr (this w))).
  assert (H2 : exists w2,
    match _xhr (this w) with
    | Some id =>
        removeEventListener (TXhr id) error OnError
          (removeEventListener (TXhr id) readystatechange OnHTTPStatus
             (removeEventListener (TXhr id) abort_ OnClose
                (removeEventListener (TXhr id) loadstart OnStart
                   (FileLoader.xhr_abort (FileLoader.handle inner) id w1))))
    | None => w1
    end = w2 /\ settles (upd_xhrs A1 w) w2 /\ wf_world w2).
  { eexists. split; [reflexivity|]. unfold A1.
    destruct (_xhr (this w)) as [id|]; cbn [alter_opt].
    - pose proof (xhr_abort_spec inner id w1 W1) as Sa.
      pose proof (wf_settles _ _ (wf_aborted id w1 W1) Sa) as Wa.
      destruct (remove4 (TXhr id) loadstart OnStart abort_ OnClose
                  readystatechange OnHTTPStatus error OnError _ Wa) as [Sr Wr].
      split; [|exact Wr].
      eapply settles_trans; [|exact Sr].
      eapply settles_trans; [|exact Sa].
      now apply settles_upd_xhrs.
    - split; [|exact W1].
      replace (upd_xhrs (fun xs => xs) w) with w by now destruct w.
      exact S1. }
  destruct H2 as (w2 & -> & S2 & W2).
  destruct (settles_this_fields _ _ S2) as (_ & _ & _ & _ & _ & _ & El2 & _).
  rewrite El2. cbn [this upd_xhrs].
  destruct (_loader (this w)) as [id|]; cbn [alter_opt].
  - pose proof (xhr_abort_spec inner id w2 W2) as Sa.
    pose proof (wf_settles _ _ (wf_aborted id w2 W2) Sa) as Wa.
    destruct (remove4 (TXhr id) load_ OnComplete progress OnProgress
                abort_ OnClose readystatechange OnHTTPStatus _ Wa) as [Sr Wr].
    split; [|exact Wr].
    eapply settles_trans; [|exact Sr].
    eapply settles_trans; [|exact Sa].
    apply (settles_upd_xhrs (alter aborted id)) in S2. exact S2.
  - split; [|exact W2]. exact S2.
Qed.

(** The same, field by field. *)
Lemma abort_fields inner w :
  wf_world w ->
  let w' := FileLoader.abort (FileLoader.handle inner) w in
  _state (this w') = _state (this w) /\ _loaded (this w') = _loaded (this w)
  /\ _total (this w') = _total (this w) /\ _data (this w') = _data (this w)
  /\ _dataFormat (this w') = _dataFormat (this w)
  /\ _xhr (this w') = _xhr (this w) /\ _loader (this w') = _loader (this w)
  /\ _request (this w') = _request (this w)
  /\ xhrs w' = alter_opt aborted (_loader (this w))
                 (alter_opt aborted (_xhr (this w)) (xhrs w))
  /\ window w' = window w
  /\ wf_world w'.
Proof.
  intros Hwf w'. destruct (abort_spec inner w Hwf) as [S W]. fold w' in S, W.
  destruct (settles_this_fields _ _ S) as (E1 & E2 & E3 & E4 & E5 & E6 & E7 & E8).
  destruct S as (_ & X & Wi & _).
  split; [exact E1|]. split; [exact E2|]. split; [exact E3|]. split; [exact E4|].
  split; [exact E5|]. split; [exact E6|]. split; [exact E7|]. split; [exact E8|].
  split; [exact X|]. split; [exact Wi|exact W].
Qed.

Lemma aborted_not_in_flight x : in_flight (aborted x) = false.
Proof.
  unfold aborted. destruct (in_flight x) eqn:E; cbn.
  - reflexivity.
  - destruct (x_readyState x =? 4); [reflexivity | exact E].
Qed.

Lemma wf_upd_this f w : wf_world w -> wf_world (upd_this f w).
Proof. intros H. exact H. Qed.

(** ** C6: pause, then resume *)

(** C6.  In any state other than 3, [pause] and [resume] return without any
    effect.  In state 3, [pause] followed at once by [resume] keeps
    [bytesLoaded], [bytesTotal] and [data]; after the [pause] the exchange
    that was current is no longer in flight; and [resume] issues exactly one
    new exchange, the current one from then on, which asks for the bytes from
    the kept [bytesLoaded] on, so the next byte received is the one that
    follows the buffer. *)
Theorem pause_resume_restarts_at_loaded :
  (forall w,
     FileLoader.state w <> 3 ->
     FileLoader.pause callback w = Done w /\ FileLoader.resume callback w = Done w)
  /\ (forall w r,
        wf_world w ->
        _request (this w) = Some r ->
        FileLoader.state w = 3 ->
        exists w1 w2 f,
          FileLoader.pause callback w = Done w1
          /\ FileLoader.resume callback w1 = Done w2
          /\ FileLoader.bytesLoaded w2 = FileLoader.bytesLoaded w
          /\ FileLoader.bytesTotal w2 = FileLoader.bytesTotal w
          /\ FileLoader.data w2 = FileLoader.data w
          /\ FileLoader.state w2 = 3
          /\ length (xhrs w1) = length (xhrs w)
          /\ (forall id x, _loader (this w) = Some id ->
                           xhrs w1 !! id = Some x -> in_flight x = false)
          /\ xhrs w2 = xhrs w1 ++ [chunk_request r (FileLoader.bytesLoaded w) f]
          /\ _loader (this w2) = Some (length (xhrs w))).
Proof.
  split.
  - intros w H. unfold FileLoader.pause, FileLoader.resume.
    destruct (Z.eqb_spec (FileLoader.state w) 3); [contradiction|]. now split.
  - intros w r Hwf Hreq Hst.
    set (w0 := upd_this (set_active_disconnect true) w).
    pose proof (abort_fields callback0 w0 (wf_upd_this _ w Hwf)) as H.
    change (FileLoader.abort (FileLoader.handle callback0) w0)
      with (FileLoader.abort callback w0) in H.
    remember (FileLoader.abort callback w0) as w1 eqn:Hw1.
    destruct H as (Es & El & Et & Ed & _ & Ex & Elo & Er & X & _ & W).
    change (this w0) with (set_active_disconnect true (this w)) in *.
    change (xhrs w0) with (xhrs w) in X.
    cbn [_state _loaded _total _data _xhr _loader _request set_active_disconnect]
      in Es, El, Et, Ed, Ex, Elo, Er, X.
    assert (Hlen : length (xhrs w1) = length (xhrs w)).
    { rewrite X. destruct (_loader (this w)), (_xhr (this w)); cbn [alter_opt];
        now rewrite ?length_alter. }
    exists w1, (sliced r w1), (next_fn w1).
    split. { unfold FileLoader.pause. rewrite Hst. cbn [Z.eqb Pos.eqb negb].
             now rewrite Hw1. }
    unfold FileLoader.state in *.
    split. { unfold FileLoader.resume, FileLoader.state. rewrite Es, Hst.
             cbn [Z.eqb Pos.eqb negb].
             apply slice_spec; [apply callback_quiet | congruence]. }
    unfold FileLoader.bytesLoaded, FileLoader.bytesTotal, FileLoader.data.
    unfold sliced.
    cbn [this xhrs _state _loaded _total _data _loader set_loader set_state].
    repeat (split; [congruence|]).
    split; [|split; [now rewrite El | now rewrite Hlen]].
    intros id x Hid Hx. rewrite Hid in X. cbn [alter_opt] in X.
    rewrite X, list_lookup_alter_eq in Hx.
    destruct (alter_opt aborted (_xhr (this w)) (xhrs w) !! id); [|discriminate].
    injection Hx as <-. apply aborted_not_in_flight.
Qed.

(** ** C7: the online signal *)

Definition recovery_notification : Notification :=
  with_desc "network recovery"
    (notification "networkState" (CodeName "online") EventLevel.STATUS).

(** C7.  With the connectivity monitor registered (one online listener on
    [window], bound from [online]): an online signal in state 3 does what
    [resume] does, issuing a new exchange that asks for the bytes from the
    current [bytesLoaded] on, and then emits one STATUS-level
    network-recovery notification; in any other state it does nothing. *)
Theorem online_signal_resumes :
  forall w r l,
    _request (this w) = Some r ->
    listeners_for online_ (window w) = [l] ->
    l_handler l = Online ->
    (FileLoader.state w = 3 ->
       FileLoader.resume callback w = Done (sliced r w)
       /\ win_online w = emit recovery_notification (sliced r w)
       /\ xhrs (win_online w)
          = xhrs w ++ [chunk_request r (FileLoader.bytesLoaded w) (next_fn w)]
       /\ emitted (win_online w) = emitted w ++ [recovery_notification]
       /\ n_level recovery_notification = EventLevel.STATUS)
    /\ (FileLoader.state w <> 3 -> win_online w = w).
Proof.
  intros w r l Hreq Hls Hl.
  assert (Hw : win_online w
               = match FileLoader.online callback0 (event_at TWindow) w with
                 | Done w' => w'
                 | Thrown e w' => report e w'
                 end).
  { unfold win_online, dispatch, FileLoader.fire.
    cbn [e_target event_at listeners_of]. rewrite Hls. cbn [fold_left].
    unfold callback, FileLoader.handle at 1. now rewrite Hl. }
  unfold FileLoader.state. split; intros Hst.
  - assert (Ho : FileLoader.online callback0 (event_at TWindow) w
                 = Done (emit recovery_notification (sliced r w))).
    { unfold FileLoader.online. rewrite Hst. cbn [Z.eqb Pos.eqb].
      unfold seq. now rewrite (slice_spec callback0 r w callback0_quiet Hreq). }
    rewrite Hw, Ho.
    split.
    { unfold FileLoader.resume, FileLoader.state. rewrite Hst. cbn [Z.eqb Pos.eqb negb].
      apply slice_spec; [apply callback_quiet | assumption]. }
    repeat split.
  - rewrite Hw. unfold FileLoader.online.
    destruct (Z.eqb_spec (_state (this w)) 3); [contradiction | reflexivity].
Qed.

(** ** C4: close, then load *)

(** C4 (the code at the failing input, and at every other).  [close] leaves
    state 0, [bytesLoaded] 0, [bytesTotal] 0 and no data, but it also leaves
    the loader without its XMLHttpRequest: whatever the world it is called in
    and whatever request follows, the next [load] opens no exchange and
    throws the TypeError that blames the request. *)
Theorem close_then_load_throws :
  forall w request,
    let w' := world_of (FileLoader.close callback w) in
    FileLoader.state w' = 0
    /\ FileLoader.bytesLoaded w' = 0
    /\ FileLoader.bytesTotal w' = JNum 0
    /\ FileLoader.data w' = None
    /\ _xhr (this w') = None
    /\ exists w'',
         FileLoader.load callback request w'
         = Thrown (TypeError "所传递的请求 URLRequest 对象或 URLRequest.url 属性为 null。") w''
         /\ xhrs w'' = xhrs w'
         /\ emitted w'' = emitted w'.
Proof.
  intros w request w'. subst w'.
  unfold FileLoader.close, seq, lift. cbn [world_of].
  set (wa := FileLoader.abort callback w). clearbody wa.
  repeat (split; [reflexivity|]).
  unfold FileLoader.load, FileLoader.reset.
  destruct request as [r|]; cbn; eexists; repeat split.
Qed.

(** ** C10: dataFormat *)

(** No method but [reset] assigns [_dataFormat]. *)
Definition df (w : World) : string := _dataFormat (this w).

Lemma df_upd_xhrs f w : df (upd_xhrs f w) = df w.
Proof. reflexivity. Qed.

Lemma df_upd_window f w : df (upd_window f w) = df w.
Proof. reflexivity. Qed.

Lemma df_set_next_fn n w : df (set_next_fn n w) = df w.
Proof. reflexivity. Qed.

Lemma df_emit n w : df (emit n w) = df w.
Proof. reflexivity. Qed.

Lemma df_report e w : df (report e w) = df w.
Proof. reflexivity. Qed.

Lemma df_addEventListener t ty h w : df (addEventListener t ty h w) = df w.
Proof. now destruct t. Qed.

Lemma df_removeEventListener t ty h w : df (removeEventListener t ty h w) = df w.
Proof. now destruct t. Qed.

Lemma df_set_state v w : df (upd_this (set_state v) w) = df w.
Proof. reflexivity. Qed.

Lemma df_set_loader v w : df (upd_this (set_loader v) w) = df w.
Proof. reflexivity. Qed.

Lemma df_set_request v w : df (upd_this (set_request v) w) = df w.
Proof. reflexivity. Qed.

Lemma df_set_active_disconnect v w : df (upd_this (set_active_disconnect v) w) = df w.
Proof. reflexivity. Qed.

Lemma df_set_bytesLoaded v w : df (FileLoader.set_bytesLoaded v w) = df w.
Proof. reflexivity. Qed.

Lemma df_set_bytesTotal v w : df (FileLoader.set_bytesTotal v w) = df w.
Proof. reflexivity. Qed.

Lemma df_set_data v w : df (FileLoader.set_data v w) = df w.
Proof. reflexivity. Qed.

Lemma df_xhr_setRequestHeader id n v w : df (xhr_setRequestHeader id n v w) = df w.
Proof. reflexivity. Qed.

Lemma df_xhr_set_responseType id rt w : df (xhr_set_responseType id rt w) = df w.
Proof. reflexivity. Qed.

Lemma df_rline w : df (FileLoader.rline w) = df w.
Proof. unfold FileLoader.rline. now rewrite !df_removeEventListener. Qed.

Lemma df_aline w : df (FileLoader.aline w) = df w.
Proof.
  unfold FileLoader.aline. destruct (negb _); [reflexivity|].
  now rewrite !df_addEventListener.
Qed.

Ltac df_rw :=
  rewrite ?df_upd_xhrs, ?df_upd_window, ?df_set_next_fn, ?df_emit, ?df_report,
    ?df_addEventListener, ?df_removeEventListener, ?df_set_state, ?df_set_loader,
    ?df_set_request, ?df_set_active_disconnect, ?df_set_bytesLoaded,
    ?df_set_bytesTotal, ?df_set_data, ?df_xhr_setRequestHeader,
    ?df_xhr_set_responseType, ?df_rline, ?df_aline.

Ltac df_step :=
  first
    [ reflexivity
    | progress df_rw
    | match goal with
      | |- context [match ?x with _ => _ end] => destruct x eqn:?
      end ].

Lemma df_seq (a b : Op) w :
  (forall w, df (world_of (a w)) = df w) ->
  (forall w, df (world_of (b w)) = df w) ->
  df (world_of ((a ;;; b) w)) = df w.
Proof.
  intros Ha Hb. unfold seq. specialize (Ha w).
  destruct (a w) as [w1|e w1]; cbn [world_of] in *; [|assumption].
  now rewrite Hb.
Qed.

Section DataFormat.

Variable inner : Listener -> Event -> World -> World.
Hypothesis inner_df : forall l e w, df (inner l e w) = df w.

Lemma df_fire ty e w : df (FileLoader.fire inner ty e w) = df w.
Proof.
  unfold FileLoader.fire.
  generalize (listeners_for ty (listeners_of (e_target e) w)). intros ls.
  revert w. induction ls as [|l ls IH]; intros w; simpl; [reflexivity|].
  now rewrite IH, inner_df.
Qed.

Lemma df_xhr_open id m u w : df (FileLoader.xhr_open inner id m u w) = df w.
Proof. unfold FileLoader.xhr_open. repeat (rewrite ?df_fire; df_step). Qed.

Lemma df_xhr_send id b w : df (FileLoader.xhr_send inner id b w) = df w.
Proof. unfold FileLoader.xhr_send. repeat (rewrite ?df_fire; df_step). Qed.

Lemma df_xhr_abort id w : df (FileLoader.xhr_abort inner id w) = df w.
Proof. unfold FileLoader.xhr_abort. repeat (rewrite ?df_fire; df_step). Qed.

Lemma df_abort w : df (FileLoader.abort inner w) = df w.
Proof.
  unfold FileLoader.abort. cbv zeta.
  repeat (rewrite ?df_xhr_abort; df_step).
Qed.

Lemma df_slice w : df (world_of (FileLoader.slice inner w)) = df w.
Proof.
  unfold FileLoader.slice, new_XMLHttpRequest. cbv zeta.
  repeat (cbn [world_of]; rewrite ?df_xhr_send, ?df_xhr_open; df_step).
Qed.

Lemma df_pause w : df (world_of (FileLoader.pause inner w)) = df w.
Proof.
  unfold FileLoader.pause.
  repeat (cbn [world_of]; rewrite ?df_abort; df_step).
Qed.

Lemma df_resume w : df (world_of (FileLoader.resume inner w)) = df w.
Proof.
  unfold FileLoader.resume. destruct (negb _); [reflexivity | apply df_slice].
Qed.

Lemma df_fold_headers id hs w :
  df (fold_left (fun w' item => xhr_setRequestHeader id (fst item) (snd item) w') hs w)
  = df w.
Proof. revert w. induction hs as [|h hs IH]; intros w; simpl; [reflexivity|]. now rewrite IH. Qed.

Lemma df_load r w : df (world_of (FileLoader.load inner r w)) = df w.
Proof.
  unfold FileLoader.load. cbv zeta.
  repeat (cbn [world_of];
          rewrite ?df_xhr_send, ?df_fold_headers, ?df_xhr_open; df_step).
Qed.

Lemma df_lift f w : (forall w, df (f w) = df w) -> df (world_of (lift f w)) = df w.
Proof. intros H. apply H. Qed.

Lemma df_onHTTPStatus e w : df (world_of (FileLoader.onHTTPStatus inner e w)) = df w.
Proof.
  unfold FileLoader.onHTTPStatus. cbv zeta.
  repeat (cbn [world_of];
          first [ rewrite df_seq;
                  [ | intros; apply df_lift; intros; now df_rw
                    | intros; rewrite df_seq;
                      [ reflexivity
                      | intros; apply df_lift; intros; apply df_abort
                      | intros; rewrite df_seq;
                        [ reflexivity
                        | intros; apply df_slice
                        | intros; apply df_lift; intros; apply df_aline ] ] ]
                | df_step ]).
Qed.

Lemma df_onComplete e w : df (world_of (FileLoader.onComplete inner e w)) = df w.
Proof.
  unfold FileLoader.onComplete. cbv zeta.
  repeat (cbn [world_of]; rewrite ?df_slice; df_step).
Qed.

Lemma df_online e w : df (world_of (FileLoader.online inner e w)) = df w.
Proof.
  unfold FileLoader.online.
  destruct (_state (this w) =? 3); [|reflexivity].
  apply df_seq; [apply df_slice | intros; apply df_lift; intros; apply df_emit].
Qed.

Lemma df_handle l e w : df (FileLoader.handle inner l e w) = df w.
Proof.
  unfold FileLoader.handle.
  assert (H : forall o : Outcome,
            df (world_of o) = df w ->
            df match o with Done w' => w' | Thrown err w' => report err w' end = df w).
  { intros [w'|err w'] Ho; cbn [world_of] in Ho; now rewrite ?df_report. }
  apply H. destruct (l_handler l).
  - reflexivity.
  - unfold FileLoader.onProgress. repeat (cbn [world_of]; df_step).
  - apply df_onHTTPStatus.
  - apply df_onComplete.
  - reflexivity.
  - unfold FileLoader.onClose. repeat (cbn [world_of]; df_step).
  - apply df_online.
  - reflexivity.
Qed.

End DataFormat.

Lemma df_callback0 l e w : df (callback0 l e w) = df w.
Proof. apply df_handle. reflexivity. Qed.

Lemma df_callback l e w : df (callback l e w) = df w.
Proof. apply df_handle. apply df_callback0. Qed.

Lemma df_dispatch ty e w : df (dispatch ty e w) = df w.
Proof. apply df_fire, df_callback. Qed.

Lemma df_reset w : df (FileLoader.reset w) = LoaderDataFormat.BINARY.
Proof. reflexivity. Qed.

(** Every input keeps ['binary'] in [_dataFormat]. *)
Lemma binary_step i w :
  df w = LoaderDataFormat.BINARY -> df (step i w) = LoaderDataFormat.BINARY.
Proof.
  intros H. destruct i; cbn [step].
  - now rewrite df_load by apply df_callback.
  - reflexivity.
  - now rewrite df_pause by apply df_callback.
  - now rewrite df_resume by apply df_callback.
  - unfold FileLoader.set_dataFormat. now destruct (negb _).
  - unfold net_headers. repeat first [rewrite df_dispatch | df_step]; assumption.
  - unfold net_progress. repeat first [rewrite df_dispatch | df_step]; assumption.
  - unfold net_load. repeat first [rewrite df_dispatch | df_step]; assumption.
  - unfold net_error. repeat first [rewrite df_dispatch | df_step]; assumption.
  - unfold win_online. now rewrite df_dispatch.
  - unfold win_offline. now rewrite df_dispatch.
Qed.

Lemma binary_run inputs w :
  df w = LoaderDataFormat.BINARY -> df (run inputs w) = LoaderDataFormat.BINARY.
Proof.
  revert w. induction inputs as [|i inputs IH]; intros w H; [exact H|].
  apply IH, binary_step, H.
Qed.

(** C10.  Whatever the caller and the browser have done to a FileLoader since
    it was constructed, [dataFormat] reads ['binary']; assigning it any value
    other than LoaderDataFormat.BINARY throws a TypeError, assigning
    LoaderDataFormat.BINARY returns, and either way the loader is exactly as
    before, so [dataFormat] still reads ['binary']. *)
Theorem dataFormat_always_binary :
  forall request inputs value,
    let w := run inputs (new_FileLoader request) in
    FileLoader.dataFormat w = LoaderDataFormat.BINARY
    /\ FileLoader.set_dataFormat value w
       = (if FileLoader.strict_eq_string value LoaderDataFormat.BINARY
          then Done w
          else Thrown (TypeError "文件下载仅支持二进制数据下载，如有其他需求请联系作者。") w)
    /\ FileLoader.dataFormat (world_of (FileLoader.set_dataFormat value w))
       = LoaderDataFormat.BINARY.
Proof.
  intros request inputs value w.
  assert (Hw : FileLoader.dataFormat w = LoaderDataFormat.BINARY).
  { apply binary_run. reflexivity. }
  split; [exact Hw|].
  unfold FileLoader.set_dataFormat.
  destruct (FileLoader.strict_eq_string value LoaderDataFormat.BINARY);
    cbn [negb world_of]; split; auto.
Qed.

(** ** C5: a header response without Content-Length *)

Definition ERROR_1001 : Notification :=
  with_desc "unable to get file size"
    (notification LoaderEvent.ERROR (CodeNum 1001) EventLevel.ERROR).

(** The four listeners that [initialize] registers on the header exchange. *)
Definition header_listeners (f : nat) : list Listener :=
  [ {| l_type := loadstart; l_fn := f; l_handler := OnStart |};
    {| l_type := abort_; l_fn := S f; l_handler := OnClose |};
    {| l_type := readystatechange; l_fn := S (S f); l_handler := OnHTTPStatus |};
    {| l_type := error; l_fn := S (S (S f)); l_handler := OnError |} ].

(** A loader that has no chunk exchange yet: the header exchange is its only
    XMLHttpRequest, and the connectivity monitor is not registered. *)
Definition before_chunks (x : XHR) (w : World) : Prop :=
  xhrs w = [x]
  /\ (exists f, x_listeners x = header_listeners f /\ (S (S (S f)) < next_fn w)%nat)
  /\ window w = []
  /\ _loader (this w) = None
  /\ _state (this w) < 3.

(** ... whose header request is in flight, the response not yet begun. *)
Definition discovering (w : World) : Prop :=
  exists x, before_chunks x w /\ _xhr (this w) = Some 0%nat
            /\ x_sendFlag x = true /\ x_readyState x = 1.

(** ... or whose header exchange is past the arrival of the headers. *)
Definition stalled (w : World) : Prop :=
  exists x, before_chunks x w /\ x_sendFlag x && (x_readyState x =? 1) = false.


Definition not_load (i : Input) : Prop :=
  match i with CallLoad _ => False | _ => True end.

(** Notifications other than PROGRESS, COMPLETE and the ERROR with code 1001. *)
Definition unrelated (n : Notification) : Prop :=
  n_name n <> LoaderEvent.PROGRESS /\ n_name n <> LoaderEvent.COMPLETE
  /\ n_code n <> CodeNum 1001.

Ltac hsimpl :=
  cbv beta iota zeta delta
    [upd_this upd_xhrs upd_window set_next_fn emit report
     set_state set_loaded set_total set_data set_xhr set_loader
     set_active_disconnect set_request
     xhr_set_listeners xhr_set_response xhr_set_request new_XHR
     FileLoader.bytesLoaded FileLoader.bytesTotal FileLoader.data FileLoader.state
     FileLoader.set_bytesLoaded FileLoader.set_bytesTotal FileLoader.set_data
     xhr_get new_XMLHttpRequest addEventListener removeEventListener upd_listeners
     xhr_setRequestHeader xhr_set_responseType listeners_of
     seq lift ret world_of event_at progress_event in_flight
     FileLoader.fire FileLoader.xhr_abort FileLoader.handle dispatch callback callback0
     FileLoader.onHTTPStatus FileLoader.onClose FileLoader.onError FileLoader.onStart
     FileLoader.onProgress FileLoader.offline
     net_headers net_progress net_load net_error win_online win_offline
     header_listeners
     this xhrs window next_fn emitted uncaught
     _state _loaded _total _data _dataFormat _timeout _xhr _loader
     _active_disconnect _request
     x_readyState x_sendFlag x_status x_contentLength x_response x_method x_url
     x_requestHeaders x_responseType x_body x_listeners
     l_type l_fn l_handler e_target e_loaded e_total
     listeners_for EventType_beq remove_listener
     lookup list_lookup alter list_alter
     fold_left List.filter
     fst snd].

Ltac hcbn :=
  cbn [fold_left List.filter existsb app andb orb negb truthy
       Z.eqb Z.ltb Z.leb Z.compare Pos.compare Pos.compare_cont Pos.eqb CompOpp].

Lemma headers_without_length w status :
  discovering w -> 0 < status < 400 ->
  stalled (net_headers 0 status None w)
  /\ emitted (net_headers 0 status None w) = emitted w ++ [ERROR_1001].
Proof.
  intros (x & (Hx & (f & Hl & Hf) & Hwin & Hld & Hst) & Hxhr & Hsf & Hrs) Hstatus.
  destruct w as [t xs win nf em un].
  destruct t as [st ld tot dat dfm tmo xh lo ad rq].
  destruct x as [rs sf xst cl resp me ur hs rt bo ls].
  cbn in Hx, Hl, Hf, Hwin, Hld, Hst, Hxhr, Hsf, Hrs. subst.
  assert (E1 : (status =? 0) = false) by (apply Z.eqb_neq; lia).
  assert (E2 : (400 <=? status) = false) by (apply Z.leb_gt; lia).
  assert (E3 : (3 <=? st) = false) by (apply Z.leb_gt; lia).
  unfold net_headers. hsimpl. hcbn. rewrite E1, E2.
  destruct (st <? 2) eqn:E4; hsimpl; hcbn; rewrite ?E3; hsimpl; hcbn.
  - split; [|reflexivity].
    eexists. split; [repeat split; cbn; try reflexivity; try lia;
                     exists f; split; [reflexivity|assumption] | reflexivity].
  - split; [|reflexivity].
    eexists. split; [repeat split; cbn; try reflexivity; try lia;
                     exists f; split; [reflexivity|assumption] | reflexivity].
Qed.

Lemma before_chunks_wf x w : before_chunks x w -> wf_world w.
Proof.
  intros (Hx & (f & Hl & Hf) & Hwin & _). split; rewrite ?Hx, ?Hwin; [|constructor].
  constructor; [|constructor]. rewrite Hl.
  repeat constructor; cbn; lia.
Qed.

Lemma unrelated_CLOSE cs : Forall is_CLOSE cs -> Forall unrelated cs.
Proof.
  intros H. eapply Forall_impl; [exact H|]. intros n [Hn Hc].
  repeat split; rewrite ?Hn, ?Hc; discriminate.
Qed.

Definition awaiting (x : XHR) : bool := x_sendFlag x && (x_readyState x =? 1).

Lemma aborted_not_awaiting x : awaiting x = false -> awaiting (aborted x) = false.
Proof.
  unfold aborted, awaiting. intros H.
  destruct (in_flight x || (x_readyState x =? 4)); [reflexivity | exact H].
Qed.

Lemma stalled_close w :
  stalled w ->
  stalled (step CallClose w)
  /\ exists later, emitted (step CallClose w) = emitted w ++ later
                   /\ Forall unrelated later.
Proof.
  intros (x & Hb & Ha).
  pose proof (before_chunks_wf x w Hb) as Hwf.
  destruct Hb as (Hx & (f & Hl & Hf) & Hwin & Hld & Hst).
  cbn [step]. unfold FileLoader.close, seq, lift. cbn [world_of].
  destruct (abort_spec callback0 w Hwf) as [S W].
  change (FileLoader.abort (FileLoader.handle callback0) w)
    with (FileLoader.abort callback w) in *.
  remember (FileLoader.abort callback w) as w1 eqn:Hw1. clear Hw1.
  destruct S as (_ & X & Wi & N & _ & cs & E & C).
  cbn [xhrs upd_xhrs window next_fn emitted] in X, Wi, N, E.
  rewrite Hld, Hx in X. cbn [alter_opt] in X.
  split.
  - exists (match _xhr (this w) with Some 0%nat => aborted x | _ => x end).
    split.
    + repeat split; cbn.
      * rewrite X. destruct (_xhr (this w)) as [[|n]|]; reflexivity.
      * exists f. split; [|lia].
        destruct (_xhr (this w)) as [[|n]|]; rewrite ?aborted_listeners; exact Hl.
      * congruence.
    + fold (awaiting x) in Ha.
      change (awaiting (match _xhr (this w) with Some 0%nat => aborted x | _ => x end) = false).
      destruct (_xhr (this w)) as [[|n]|]; auto using aborted_not_awaiting.
  - exists cs. split; [exact E | now apply unrelated_CLOSE].
Qed.

Ltac split_tests :=
  repeat match goal with
         | |- context [if ?c then _ else _] =>
             lazymatch c with
             | context [if _ then _ else _] => fail
             | _ => destruct c eqn:?
             end
         end.

Ltac stalled_done f Hf :=
  split;
  [ eexists; split;
    [ repeat split; cbn; try reflexivity; try lia;
      exists f; split; [reflexivity | assumption]
    | cbn; first [ assumption | reflexivity ] ]
  | first
      [ exists []; split; [ symmetry; apply app_nil_r | constructor ]
      | eexists; split;
        [ reflexivity
        | repeat constructor; cbn; discriminate ] ] ].

Lemma stalled_net i w :
  stalled w ->
  match i with
  | NetHeaders _ _ _ | NetProgress _ _ | NetLoad _ _ | NetError _
  | WinOnline | WinOffline => True
  | _ => False
  end ->
  stalled (step i w)
  /\ exists later, emitted (step i w) = emitted w ++ later
                   /\ Forall unrelated later.
Proof.
  intros (x & (Hx & (f & Hl & Hf) & Hwin & Hld & Hst) & Ha) Hi.
  destruct w as [t xs win nf em un].
  destruct t as [st ld tot dat dfm tmo xh lo ad rq].
  destruct x as [rs sf xst cl resp me ur hs rt bo ls].
  cbn in Hx, Hl, Hf, Hwin, Hld, Hst, Ha. subst.
  destruct i as [| | | | |id hstatus hlen|id n|id b|id| |]; try contradiction; clear Hi;
    cbn [step]; try destruct id as [|id].
  all: hsimpl; hcbn.
  all: try rewrite Ha.
  all: repeat (split_tests; hsimpl; hcbn).
  all: stalled_done f Hf.
Qed.

Lemma stalled_step i w :
  stalled w -> not_load i ->
  stalled (step i w)
  /\ exists later, emitted (step i w) = emitted w ++ later
                   /\ Forall unrelated later.
Proof.
  intros Hs Hi.
  assert (Hsame : step i w = w ->
                  stalled (step i w)
                  /\ exists later, emitted (step i w) = emitted w ++ later
                                   /\ Forall unrelated later).
  { intros ->. split; [exact Hs|]. exists []. split; [now rewrite app_nil_r | constructor]. }
  assert (Hlt : (FileLoader.state w =? 3) = false).
  { destruct Hs as (x & (_ & _ & _ & _ & Hst) & _). apply Z.eqb_neq.
    unfold FileLoader.state. lia. }
  destruct i; try contradiction.
  - now apply stalled_close.
  - apply Hsame. cbn [step]. unfold FileLoader.pause. now rewrite Hlt.
  - apply Hsame. cbn [step]. unfold FileLoader.resume. now rewrite Hlt.
  - apply Hsame. cbn [step]. unfold FileLoader.set_dataFormat. now destruct (negb _).
  - now apply stalled_net.
  - now apply stalled_net.
  - now apply stalled_net.
  - now apply stalled_net.
  - now apply stalled_net.
  - now apply stalled_net.
Qed.

Lemma stalled_run inputs w :
  stalled w -> Forall not_load inputs ->
  stalled (run inputs w)
  /\ exists later, emitted (run inputs w) = emitted w ++ later
                   /\ Forall unrelated later.
Proof.
  intros Hs Hi. revert w Hs. induction Hi as [|i inputs Hi _ IH]; intros w Hs.
  - split; [exact Hs|]. exists []. split; [now rewrite app_nil_r | constructor].
  - destruct (stalled_step i w Hs Hi) as (Hs1 & l1 & E1 & U1).
    destruct (IH _ Hs1) as (Hs2 & l2 & E2 & U2).
    split; [exact Hs2|]. exists (l1 ++ l2). split.
    + change (run (i :: inputs) w) with (run inputs (step i w)).
      rewrite E2, E1. now rewrite app_assoc.
    + now apply Forall_app.
Qed.

(** C5.  While the loader awaits the response of its header request, a
    response with a 2xx status and no Content-Length header makes it emit the
    ERROR notification with code 1001 and level ERROR, once.  From then on,
    whatever the caller (short of a new [load]), the transport and [window]
    do, the header exchange stays the only XMLHttpRequest of the loader, so no
    ranged request is ever issued, and nothing further is emitted that is a
    PROGRESS, a COMPLETE or another notification with code 1001. *)
Theorem headers_without_length_stop :
  forall w status,
    discovering w ->
    200 <= status < 300 ->
    let w1 := step (NetHeaders 0 status None) w in
    emitted w1 = emitted w ++ [ERROR_1001]
    /\ n_name ERROR_1001 = LoaderEvent.ERROR
    /\ n_code ERROR_1001 = CodeNum 1001
    /\ n_level ERROR_1001 = EventLevel.ERROR
    /\ forall inputs,
         Forall not_load inputs ->
         let w2 := run inputs w1 in
         length (xhrs w2) = length (xhrs w)
         /\ _loader (this w2) = None
         /\ exists later,
              emitted w2 = emitted w ++ [ERROR_1001] ++ later
              /\ Forall unrelated later.
Proof.
  intros w status Hd Hstatus w1.
  destruct (headers_without_length w status Hd ltac:(lia)) as [Hs He].
  change (net_headers 0 status None w) with w1 in Hs, He.
  split; [exact He|]. repeat (split; [reflexivity|]).
  intros inputs Hi w2.
  destruct (stalled_run inputs w1 Hs Hi) as ((x & (Hx & _ & _ & Hld & _) & _) & later & E & U).
  fold w2 in Hx, Hld, E.
  destruct Hd as (x0 & (Hx0 & _) & _).
  split; [now rewrite Hx, Hx0|]. split; [exact Hld|].
  exists later. split; [|exact U]. rewrite E, He. now rewrite <- app_assoc.
Qed.

(** * URLLoader: the whole-resource loader *)

(** JavaScript values that an XMLHttpRequest hands out as [response] when its
    [responseType] is text or json. *)
#[local] Unset Elimination Schemes.
Inductive Json :=
| JsNull
| JsBool (b : bool)
| JsNum (z : Z)
| JsStr (s : string)
| JsArr (items : list Json)
| JsObj (fields : list (string * Json)).
#[local] Set Elimination Schemes.

(** The value of [xhr.response]: an ArrayBuffer, a Document, or a plain value
    ([null] included). *)
Inductive Response :=
| RBuffer (b : list byte)
| RDocument (markup : string)
| RJs (v : Json).

Definition response_truthy (r : Response) : bool :=
  match r with
  | RBuffer _ => true
  | RDocument _ => true
  | RJs JsNull => false
  | RJs (JsBool b) => b
  | RJs (JsNum z) => negb (z =? 0)
  | RJs (JsStr s) => negb (String.eqb s "")
  | RJs (JsArr _) => true
  | RJs (JsObj _) => true
  end.

Module URLLoader.

Inductive Failure :=
| FTypeError (message : string)
| FError (message : string)
| FInvalidState.

(** The object passed to [emit]; [target] and [message] are not carried. *)
Record Note := {
  n_name : string;
  n_code : Code;
  n_level : string;
  n_desc : option string;
  n_loaded : option Z;
  n_total : option Z;
  n_progress : option (Z * Z);     (* the fraction loaded / total *)
  n_data : option Response;
  n_httpStatus : option Z
}.

Definition note (name : string) (code : Code) (level : string) : Note :=
  {| n_name := name; n_code := code; n_level := level; n_desc := None;
     n_loaded := None; n_total := None; n_progress := None; n_data := None;
     n_httpStatus := None |}.

(** The loader's one XMLHttpRequest. *)
Record Xhr := {
  x_readyState : Z;
  x_sendFlag : bool;
  x_status : Z;
  x_response : Response;         (* [response] once DONE; null before *)
  x_method : string;
  x_url : option string;
  x_requestHeaders : list (string * HeaderValue);
  x_responseType : string;
  x_body : option (list byte);
  x_listeners : list Listener
}.

Record t := {
  _loaded : Z;
  _total : Z;
  _data : Response;
  _dataFormat : string;
  _timeout : Z;
  _xhr : bool;                   (* [this._xhr] is the object, or is null *)
  _timer : option nat;
  _request : option URLRequest.t
}.

Record World := {
  this : t;
  xhr : Xhr;                     (* the object the constructor created *)
  next_fn : nat;                 (* identity of the next bound function *)
  timers : list nat;             (* timeouts set and not yet cleared or fired *)
  next_timer : nat;
  emitted : list Note;
  uncaught : list Failure
}.

Inductive Outcome :=
| Done (w : World)
| Thrown (e : Failure) (w : World).

Definition world_of (o : Outcome) : World :=
  match o with Done w => w | Thrown _ w => w end.

Definition upd_this (f : t -> t) (w : World) : World :=
  {| this := f (this w); xhr := xhr w; next_fn := next_fn w; timers := timers w;
     next_timer := next_timer w; emitted := emitted w; uncaught := uncaught w |}.

Definition upd_xhr (f : Xhr -> Xhr) (w : World) : World :=
  {| this := this w; xhr := f (xhr w); next_fn := next_fn w; timers := timers w;
     next_timer := next_timer w; emitted := emitted w; uncaught := uncaught w |}.

Definition emit (n : Note) (w : World) : World :=
  {| this := this w; xhr := xhr w; next_fn := next_fn w; timers := timers w;
     next_timer := next_timer w; emitted := emitted w ++ [n]; uncaught := uncaught w |}.

Definition report (e : Failure) (w : World) : World :=
  {| this := this w; xhr := xhr w; next_fn := next_fn w; timers := timers w;
     next_timer := next_timer w; emitted := emitted w; uncaught := uncaught w ++ [e] |}.

Definition set_loaded (v : Z) (l : t) : t :=
  {| _loaded := v; _total := _total l; _data := _data l; _dataFormat := _dataFormat l;
     _timeout := _timeout l; _xhr := _xhr l; _timer := _timer l; _request := _request l |}.

Definition set_total (v : Z) (l : t) : t :=
  {| _loaded := _loaded l; _total := v; _data := _data l; _dataFormat := _dataFormat l;
     _timeout := _timeout l; _xhr := _xhr l; _timer := _timer l; _request := _request l |}.

Definition set_data_field (v : Response) (l : t) : t :=
  {| _loaded := _loaded l; _total := _total l; _data := v; _dataFormat := _dataFormat l;
     _timeout := _timeout l; _xhr := _xhr l; _timer := _timer l; _request := _request l |}.

Definition set_dataFormat_field (v : string) (l : t) : t :=
  {| _loaded := _loaded l; _total := _total l; _data := _data l; _dataFormat := v;
     _timeout := _timeout l; _xhr := _xhr l; _timer := _timer l; _request := _request l |}.

Definition set_timeout_field (v : Z) (l : t) : t :=
  {| _loaded := _loaded l; _total := _total l; _data := _data l; _dataFormat := _dataFormat l;
     _timeout := v; _xhr := _xhr l; _timer := _timer l; _request := _request l |}.

Definition set_xhr_field (v : bool) (l : t) : t :=
  {| _loaded := _loaded l; _total := _total l; _data := _data l; _dataFormat := _dataFormat l;
     _timeout := _timeout l; _xhr := v; _timer := _timer l; _request := _request l |}.

Definition set_timer_field (v : option nat) (l : t) : t :=
  {| _loaded := _loaded l; _total := _total l; _data := _data l; _dataFormat := _dataFormat l;
     _timeout := _timeout l; _xhr := _xhr l; _timer := v; _request := _request l |}.

Definition set_request_field (v : option URLRequest.t) (l : t) : t :=
  {| _loaded := _loaded l; _total := _total l; _data := _data l; _dataFormat := _dataFormat l;
     _timeout := _timeout l; _xhr := _xhr l; _timer := _timer l; _request := v |}.

Definition xhr_with_listeners (ls : list Listener) (x : Xhr) : Xhr :=
  {| x_readyState := x_readyState x; x_sendFlag := x_sendFlag x; x_status := x_status x;
     x_response := x_response x; x_method := x_method x; x_url := x_url x;
     x_requestHeaders := x_requestHeaders x; x_responseType := x_responseType x;
     x_body := x_body x; x_listeners := ls |}.

Definition xhr_with_response (rs : Z) (sf : bool) (st : Z) (r : Response) (x : Xhr) : Xhr :=
  {| x_readyState := rs; x_sendFlag := sf; x_status := st;
     x_response := r; x_method := x_method x; x_url := x_url x;
     x_requestHeaders := x_requestHeaders x; x_responseType := x_responseType x;
     x_body := x_body x; x_listeners := x_listeners x |}.

Definition xhr_with_request (m : string) (u : option string)
    (hs : list (string * HeaderValue)) (rt : string) (b : option (list byte))
    (x : Xhr) : Xhr :=
  {| x_readyState := x_readyState x; x_sendFlag := x_sendFlag x; x_status := x_status x;
     x_response := x_response x; x_method := m; x_url := u;
     x_requestHeaders := hs; x_responseType := rt;
     x_body := b; x_listeners := x_listeners x |}.

(** [xhr.addEventListener(type, this[h].bind(this), false)] *)
Definition addEventListener (ty : EventType) (h : Handler) (w : World) : World :=
  let fn := next_fn w in
  let w := upd_xhr (fun x => xhr_with_listeners (add_listener ty fn h (x_listeners x)) x) w in
  {| this := this w; xhr := xhr w; next_fn := S fn; timers := timers w;
     next_timer := next_timer w; emitted := emitted w; uncaught := uncaught w |}.

(** [xhr.removeEventListener(type, this[h].bind(this), false)] *)
Definition removeEventListener (ty : EventType) (h : Handler) (w : World) : World :=
  let fn := next_fn w in
  let w := upd_xhr (fun x => xhr_with_listeners (remove_listener ty fn (x_listeners x)) x) w in
  {| this := this w; xhr := xhr w; next_fn := S fn; timers := timers w;
     next_timer := next_timer w; emitted := emitted w; uncaught := uncaught w |}.

(** [setTimeout(callback, delay)]: a new pending timer. *)
Definition setTimeout (w : World) : nat * World :=
  (next_timer w,
   {| this := this w; xhr := xhr w; next_fn := next_fn w;
      timers := timers w ++ [next_timer w]; next_timer := S (next_timer w);
      emitted := emitted w; uncaught := uncaught w |}).

(** [clearTimeout(id)]; [clearTimeout(null)] does nothing. *)
Definition clearTimeout (id : option nat) (w : World) : World :=
  match id with
  | Some i =>
      {| this := this w; xhr := xhr w; next_fn := next_fn w;
         timers := List.filter (fun j => negb (Nat.eqb i j)) (timers w);
         next_timer := next_timer w; emitted := emitted w; uncaught := uncaught w |}
  | None => w
  end.

Definition bytesLoaded (w : World) : Z := _loaded (this w).
Definition bytesTotal (w : World) : Z := _total (this w).
Definition data (w : World) : Response := _data (this w).
Definition dataFormat (w : World) : string := _dataFormat (this w).
Definition timeout (w : World) : Z := _timeout (this w).

Definition set_timeout (value : Z) (w : World) : World :=
  upd_this (set_timeout_field value) w.

Definition state (w : World) : Z :=
  if _xhr (this w) then x_readyState (xhr w) else 0.

Definition set_dataFormat (value : string) (w : World) : Outcome :=
  if String.eqb value LoaderDataFormat.BINARY
     || String.eqb value LoaderDataFormat.TEXT
     || String.eqb value LoaderDataFormat.DOCUMENT
     || String.eqb value LoaderDataFormat.JSON
  then Done (upd_this (set_dataFormat_field value) w)
  else Thrown (FTypeError ("暂不支持 " ++ value ++ " 格式的下载，如需要请联系作者。")) w.

Definition reset (w : World) : World :=
  upd_this (fun l =>
    {| _loaded := 0;
       _total := 0;
       _data := RJs JsNull;
       _dataFormat := LoaderDataFormat.TEXT;
       _timeout := 0;
       _xhr := false;
       _timer := None;
       _request := _request l |}) w.

Definition onStart (w : World) : Outcome :=
  Done (emit (note LoaderEvent.START (CodeName LoaderEvent.START) EventLevel.STATUS) w).

Definition null_xhr : Failure :=
  FTypeError "Cannot read properties of null".

Definition onProgress (evt : Event) (w : World) : Outcome :=
  if negb (_xhr (this w)) then Thrown null_xhr w
  else if x_readyState (xhr w) <? 2 then Done w
  else if 400 <=? x_status (xhr w) then Done w
  else
    let w := upd_this (set_loaded (e_loaded evt)) w in
    let w := if bytesTotal w =? 0 then upd_this (set_total (e_total evt)) w else w in
    if (bytesTotal w =? 0) || (bytesTotal w <? bytesLoaded w) then Done w
    else
      Done (emit {| n_name := LoaderEvent.PROGRESS;
                    n_code := CodeName LoaderEvent.PROGRESS;
                    n_level := EventLevel.STATUS;
                    n_desc := None;
                    n_loaded := Some (bytesLoaded w);
                    n_total := Some (bytesTotal w);
                    n_progress := Some (bytesLoaded w, bytesTotal w);
                    n_data := None;
                    n_httpStatus := None |} w).

Definition onClose (w : World) : Outcome :=
  Done (emit {| n_name := LoaderEvent.CLOSE;
                n_code := CodeName LoaderEvent.CLOSE;
                n_level := EventLevel.STATUS;
                n_desc := None;
                n_loaded := Some (bytesLoaded w);
                n_total := Some (bytesTotal w);
                n_progress := None;
                n_data := None;
                n_httpStatus := None |} w).

Definition error_note (code : Z) (desc : string) : Note :=
  {| n_name := LoaderEvent.ERROR; n_code := CodeNum code; n_level := EventLevel.ERROR;
     n_desc := Some desc; n_loaded := None; n_total := None; n_progress := None;
     n_data := None; n_httpStatus := None |}.

Definition onError (w : World) : Outcome :=
  let w := if negb (timeout w =? 0) then clearTimeout (_timer (this w)) w else w in
  let _code := 1000 in
  let _desc := "network error" in
  Done (emit (error_note _code _desc) w).


Definition onLoadend (w : World) : Outcome := Done w.

Definition onHTTPStatus (w : World) : Outcome :=
  if negb (_xhr (this w)) then Thrown null_xhr w
  else if x_status (xhr w) =? 0 then Done w
  else if state w =? 2 then
    if 400 <=? x_status (xhr w) then
      let _code := x_status (xhr w) in
      let _desc := if 500 <=? x_status (xhr w) then "server error" else "request error" in
      Done (emit (error_note _code _desc) w)
    else Done w
  else if state w =? 4 then
    let w := if negb (timeout w =? 0) then clearTimeout (_timer (this w)) w else w in
    Done (emit {| n_name := LoaderEvent.HTTP_STATUS;
                  n_code := CodeName LoaderEvent.HTTP_STATUS;
                  n_level := EventLevel.STATUS;
                  n_desc := None; n_loaded := None; n_total := None;
                  n_progress := None; n_data := None;
                  n_httpStatus := Some (x_status (xhr w)) |} w)
  else Done w.

Section Parse.

(** [JSON.parse], taken as given: [None] when it throws. *)
Variable JSON_parse : string -> option Json.

Definition onComplete (w : World) : Outcome :=
  if negb (_xhr (this w)) then Thrown null_xhr w
  else if 400 <=? x_status (xhr w) then Done w
  else
    (* this._xhr.response || this._xhr.responseText *)
    let fallback :=
      if response_truthy (x_response (xhr w)) then Some (x_response (xhr w))
      else if String.eqb (x_responseType (xhr w)) ""
              || String.eqb (x_responseType (xhr w)) "text"
           then Some (x_response (xhr w))
           else None in
    match fallback with
    | None => Thrown FInvalidState w
    | Some response =>
        let stored :=
          if String.eqb (dataFormat w) LoaderDataFormat.BINARY then
            Done (upd_this (set_data_field response) w)
          else if String.eqb (dataFormat w) LoaderDataFormat.TEXT
                  || String.eqb (dataFormat w) LoaderDataFormat.DOCUMENT then
            Done (upd_this (set_data_field response) w)
          else if String.eqb (dataFormat w) LoaderDataFormat.JSON then
            match response with
            | RJs (JsStr s) =>
                match JSON_parse s with
                | Some v => Done (upd_this (set_data_field (RJs v)) w)
                | None => Thrown (FError ("JSON parse failed: " ++ s)) w
                end
            | _ => Done (upd_this (set_data_field response) w)
            end
          else Done w in
        match stored with
        | Thrown e w' => Thrown e w'
        | Done w' =>
            Done (emit {| n_name := LoaderEvent.COMPLETE;
                          n_code := CodeName LoaderEvent.COMPLETE;
                          n_level := EventLevel.STATUS;
                          n_desc := None; n_loaded := None; n_total := None;
                          n_progress := None; n_data := Some (data w');
                          n_httpStatus := None |} w')
        end
    end.

(** A registered callback runs the method it was bound from; an exception
    that escapes it is reported and goes no further.  The FileLoader-only
    methods are never registered by a URLLoader. *)
Definition handle (l : Listener) (evt : Event) (w : World) : World :=
  let o :=
    match l_handler l with
    | OnStart => onStart w
    | OnProgress => onProgress evt w
    | OnHTTPStatus => onHTTPStatus w
    | OnComplete => onComplete w
    | OnError => onError w
    | OnClose => onClose w
    | Online => Done w
    | Offline => Done w
    end in
  match o with
  | Done w' => w'
  | Thrown e w' => report e w'
  end.

Definition fire (ty : EventType) (evt : Event) (w : World) : World :=
  fold_left (fun w' l => handle l evt w')
    (listeners_for ty (x_listeners (xhr w))) w.

Definition xhr_event : Event :=
  {| e_target := TXhr 0; e_loaded := 0; e_total := 0 |}.

Definition xhr_open (m : string) (u : option string) (w : World) : World :=
  let rs := x_readyState (xhr w) in
  let w := upd_xhr (fun x =>
             xhr_with_request m u [] (x_responseType x) None
               (xhr_with_response (x_readyState x) false 0 (RJs JsNull) x)) w in
  if rs =? 1 then w
  else
    let w := upd_xhr (xhr_with_response 1 false 0 (RJs JsNull)) w in
    fire readystatechange xhr_event w.

Definition xhr_setRequestHeader (name : string) (v : HeaderValue) (w : World) : World :=
  upd_xhr (fun x =>
    xhr_with_request (x_method x) (x_url x) (x_requestHeaders x ++ [(name, v)])
      (x_responseType x) (x_body x) x) w.

Definition xhr_set_responseType (rt : string) (w : World) : World :=
  upd_xhr (fun x =>
    xhr_with_request (x_method x) (x_url x) (x_requestHeaders x) rt (x_body x) x) w.

Definition xhr_send (body : option (list byte)) (w : World) : World :=
  let w := upd_xhr (fun x =>
             xhr_with_request (x_method x) (x_url x) (x_requestHeaders x)
               (x_responseType x) body
               (xhr_with_response (x_readyState x) true (x_status x) (x_response x) x)) w in
  fire loadstart xhr_event w.

Definition xhr_in_flight (x : Xhr) : bool :=
  x_sendFlag x && ((x_readyState x =? 1) || (x_readyState x =? 2) || (x_readyState x =? 3)).

Definition xhr_abort (w : World) : World :=
  let w :=
    if xhr_in_flight (xhr w) then
      let w := upd_xhr (xhr_with_response 4 false 0 (RJs JsNull)) w in
      let w := fire readystatechange xhr_event w in
      fire abort_ xhr_event w
    else w in
  upd_xhr (fun x =>
    if x_readyState x =? 4 then xhr_with_response 0 false 0 (RJs JsNull) x else x) w.

Definition abort (w : World) : World :=
  if _xhr (this w) then
    let w := xhr_abort w in
    let w := removeEventListener loadstart OnStart w in
    let w := removeEventListener progress OnProgress w in
    let w := removeEventListener abort_ OnClose w in
    let w := removeEventListener error OnError w in
    let w := removeEventListener load_ OnComplete w in
    removeEventListener readystatechange OnHTTPStatus w
  else w.

Definition close (w : World) : World :=
  let w := if negb (timeout w =? 0) then clearTimeout (_timer (this w)) w else w in
  let w := abort w in
  reset w.

Definition load (request : option URLRequest.t) (w : World) : Outcome :=
  let w := match request with
           | Some r => upd_this (set_request_field (Some r)) w
           | None => w
           end in
  let w := if negb (timeout w =? 0) then
             let '(id, w) := setTimeout w in
             upd_this (set_timer_field (Some id)) w
           else w in
  if _xhr (this w) then
    match _request (this w) with
    | Some r =>
        let w := xhr_open (URLRequest.method r) (URLRequest.url r) w in
        let w := fold_left (fun w' item =>
                   xhr_setRequestHeader (fst item) (snd item) w')
                   (URLRequest.requestHeaders r) w in
        let w := xhr_set_responseType
                   (if String.eqb (dataFormat w) LoaderDataFormat.BINARY
                    then "arraybuffer" else dataFormat w) w in
        Done (xhr_send (URLRequest.data r) w)
    | None =>
        Thrown (FTypeError "所传递的请求 URLRequest 对象或 URLRequest.url 属性为 null。") w
    end
  else
    Thrown (FTypeError "所传递的请求 URLRequest 对象或 URLRequest.url 属性为 null。") w.


(** The transport: headers, a part of the body, the end of the body, a
    network error. *)
Definition net_headers (status : Z) (w : World) : World :=
  if x_sendFlag (xhr w) && (x_readyState (xhr w) =? 1) then
    let w := upd_xhr (xhr_with_response 2 true status (RJs JsNull)) w in
    fire readystatechange xhr_event w
  else w.

Definition net_progress (received total : Z) (w : World) : World :=
  if x_sendFlag (xhr w) && ((x_readyState (xhr w) =? 2) || (x_readyState (xhr w) =? 3)) then
    let w := upd_xhr (fun x => xhr_with_response 3 true (x_status x) (RJs JsNull) x) w in
    let w := fire readystatechange xhr_event w in
    fire progress {| e_target := TXhr 0; e_loaded := received; e_total := total |} w
  else w.

Definition net_load (received total : Z) (response : Response) (w : World) : World :=
  if x_sendFlag (xhr w) && ((x_readyState (xhr w) =? 2) || (x_readyState (xhr w) =? 3)) then
    let w := fire progress {| e_target := TXhr 0; e_loaded := received; e_total := total |} w in
    let w := upd_xhr (fun x => xhr_with_response 4 false (x_status x) response x) w in
    let w := fire readystatechange xhr_event w in
    fire load_ {| e_target := TXhr 0; e_loaded := received; e_total := total |} w
  else w.

Definition net_error (w : World) : World :=
  if xhr_in_flight (xhr w) then
    let w := upd_xhr (xhr_with_response 4 false 0 (RJs JsNull)) w in
    let w := fire readystatechange xhr_event w in
    fire error xhr_event w
  else w.

End Parse.

Definition new_Xhr : Xhr :=
  {| x_readyState := 0; x_sendFlag := false; x_status := 0; x_response := RJs JsNull;
     x_method := ""; x_url := None; x_requestHeaders := []; x_responseType := "";
     x_body := None; x_listeners := [] |}.

Definition initialize (request : option URLRequest.t) (w : World) : World :=
  let w := reset w in
  let w := upd_this (set_request_field request) w in
  let w := upd_xhr (fun _ => new_Xhr) w in
  let w := upd_this (set_xhr_field true) w in
  let w := addEventListener loadstart OnStart w in
  let w := addEventListener progress OnProgress w in
  let w := addEventListener abort_ OnClose w in
  let w := addEventListener error OnError w in
  let w := addEventListener load_ OnComplete w in
  addEventListener readystatechange OnHTTPStatus w.

Definition empty_world : World :=
  {| this := {| _loaded := 0; _total := 0; _data := RJs JsNull; _dataFormat := "";
                _timeout := 0; _xhr := false; _timer := None; _request := None |};
     xhr := new_Xhr; next_fn := 0%nat; timers := []; next_timer := 0%nat;
     emitted := []; uncaught := [] |}.

(** [new URLLoader(request)] *)
Definition new_URLLoader (request : option URLRequest.t) : World :=
  initialize request empty_world.

End URLLoader.


(** ** Dispatch to the listeners of one exchange *)

Definition PROGRESS_notification (loaded : Z) (total : JsValue) : Notification :=
  with_counts loaded total
    (notification LoaderEvent.PROGRESS (CodeName LoaderEvent.PROGRESS) EventLevel.STATUS).

Lemma dispatch_one ty evt w id x l :
  e_target evt = TXhr id -> xhr_get id w = Some x ->
  listeners_for ty (x_listeners x) = [l] ->
  dispatch ty evt w = callback l evt w.
Proof.
  intros Ht Hx Hl. unfold dispatch, FileLoader.fire, listeners_of.
  unfold xhr_get in Hx. now rewrite Ht, Hx, Hl.
Qed.

Lemma dispatch_none ty evt w id x :
  e_target evt = TXhr id -> xhr_get id w = Some x ->
  listeners_for ty (x_listeners x) = [] ->
  dispatch ty evt w = w.
Proof.
  intros Ht Hx Hl. unfold dispatch, FileLoader.fire, listeners_of.
  unfold xhr_get in Hx. now rewrite Ht, Hx, Hl.
Qed.

Lemma callback_OnProgress l evt w id ld :
  l_handler l = OnProgress ->
  _loader (this w) = Some id -> xhr_get id w = Some ld ->
  2 <= x_readyState ld -> x_status ld < 400 ->
  callback l evt w
  = emit (PROGRESS_notification (FileLoader.bytesLoaded w + e_loaded evt)
            (FileLoader.bytesTotal w)) w.
Proof.
  intros Hl Hlo Hx Hrs Hst. unfold callback, FileLoader.handle, FileLoader.onProgress.
  rewrite Hl, Hlo, Hx.
  destruct (Z.ltb_spec (x_readyState ld) 2); [lia|].
  destruct (Z.leb_spec 400 (x_status ld)); [lia|]. reflexivity.
Qed.

(** readystatechange on an exchange that is not at HEADERS_RECEIVED, or on a
    chunk exchange whose response is not an error, changes nothing. *)
Lemma callback_OnHTTPStatus_idle l w id x :
  l_handler l = OnHTTPStatus -> xhr_get id w = Some x ->
  x_readyState x <> 2 \/ (x_status x < 400 /\ 3 <= _state (this w)) ->
  callback l (event_at (TXhr id)) w = w.
Proof.
  intros Hl Hx H. unfold callback, FileLoader.handle, FileLoader.onHTTPStatus.
  rewrite Hl. cbn [e_target event_at]. rewrite Hx.
  destruct (x_status x =? 0); [reflexivity|].
  destruct (Z.eqb_spec (x_readyState x) 2) as [E|]; [|reflexivity].
  destruct H as [H|[H1 H2]]; [contradiction|].
  destruct (Z.ltb_spec (_state (this w)) 2); [lia|].
  destruct (Z.leb_spec 400 (x_status x)); [lia|].
  destruct (Z.leb_spec 3 (_state (this w))); [reflexivity|lia].
Qed.

(** [onComplete] after a successful chunk, as an equation. *)
Lemma callback_OnComplete l evt w id ld response r :
  l_handler l = OnComplete ->
  _loader (this w) = Some id -> xhr_get id w = Some ld ->
  x_status ld < 400 -> x_response ld = Some response ->
  _request (this w) = Some r ->
  byteLength (buffer (FileLoader.data w)) = FileLoader.bytesLoaded w ->
  let appended := buffer (FileLoader.data w) ++ response in
  let W := FileLoader.set_bytesLoaded (FileLoader.bytesLoaded w + byteLength response)
             (FileLoader.set_data (Some appended) w) in
  callback l evt w
  = if js_lt (FileLoader.bytesLoaded w + byteLength response) (FileLoader.bytesTotal w)
    then sliced r W
    else emit (COMPLETE_notification (Some appended))
           (FileLoader.rline (upd_this (set_state 4) W)).
Proof.
  intros Hl Hlo Hx Hst Hresp Hreq Hbuf appended W.
  destruct (assemble (FileLoader.data w) response (FileLoader.bytesLoaded w) Hbuf)
    as (t1 & E1 & E2).
  assert (Hlen : byteLength appended = FileLoader.bytesLoaded w + byteLength response).
  { unfold appended. rewrite byteLength_app. lia. }
  unfold callback, FileLoader.handle, FileLoader.onComplete. rewrite Hl, Hlo, Hx.
  destruct (Z.ltb_spec (x_status ld) 400) as [_|]; [|lia].
  rewrite Hresp. cbv zeta.
  destruct (Z.ltb_spec (FileLoader.bytesLoaded w + byteLength response) 0) as [Hneg|_].
  { pose proof (byteLength_nonneg appended). lia. }
  rewrite E1, E2. fold appended. rewrite Hlen. fold W.
  change (FileLoader.bytesLoaded W)
    with (FileLoader.bytesLoaded w + byteLength response).
  change (FileLoader.bytesTotal W) with (FileLoader.bytesTotal w).
  destruct (js_lt _ _).
  - now rewrite (slice_spec callback0 r W callback0_quiet Hreq).
  - reflexivity.
Qed.

(** ** Content-Length strings *)

Lemma decimal_nonempty z : decimal z <> "".
Proof.
  unfold decimal. destruct z as [|p|p]; cbn; try discriminate.
  - pose proof (DecimalPos.Unsigned.to_uint_nonnil p) as H.
    destruct (Pos.to_uint p); try contradiction; cbn; discriminate.
Qed.

Lemma truthy_decimal z : truthy (JStr (decimal z)) = true.
Proof.
  cbn. destruct (String.eqb_spec (decimal z) ""); [|reflexivity].
  now destruct (decimal_nonempty z).
Qed.

(** The number that a Content-Length string written by [decimal] reads as. *)
Lemma ToNumber_decimal n : 0 <= n -> ToNumber (JStr (decimal n)) = Some n.
Proof.
  intros Hn. unfold ToNumber, decimal. destruct n as [|p|p]; [reflexivity| |lia].
  cbn [Z.to_int NilZero.string_of_int].
  pose proof (DecimalPos.Unsigned.to_uint_nonnil p) as H.
  replace (NilZero.string_of_uint (Pos.to_uint p))
    with (NilEmpty.string_of_uint (Pos.to_uint p))
    by (destruct (Pos.to_uint p); try contradiction; reflexivity).
  rewrite NilEmpty.usu. unfold N.of_uint.
  now rewrite DecimalPos.Unsigned.of_to.
Qed.

Lemma js_lt_decimal a n : 0 <= n -> js_lt a (JStr (decimal n)) = (a <? n).
Proof. intros H. unfold js_lt. now rewrite ToNumber_decimal. Qed.

(** ** Ranges of a resource *)

Lemma bytes_between_length resource k :
  0 <= k <= byteLength resource ->
  byteLength (bytes_between resource k (k + 204799))
  = Z.min 204800 (byteLength resource - k).
Proof.
  intros Hk. unfold bytes_between, byteLength in *.
  rewrite length_take, length_drop. lia.
Qed.

Lemma take_bytes_between resource k :
  0 <= k <= byteLength resource ->
  take (Z.to_nat k) resource ++ bytes_between resource k (k + 204799)
  = take (Z.to_nat (k + byteLength (bytes_between resource k (k + 204799)))) resource.
Proof.
  intros Hk. rewrite bytes_between_length by assumption.
  unfold bytes_between. rewrite take_take_drop.
  unfold byteLength in *.
  destruct (Z.le_ge_cases 204800 (Z.of_nat (length resource) - k)).
  - f_equal. lia.
  - rewrite !take_ge by lia. reflexivity.
Qed.

(** ** The transfer of one resource *)

Lemma wf_alter f id w :
  (forall x, x_listeners (f x) = x_listeners x) ->
  wf_world w -> wf_world (upd_xhrs (alter f id) w).
Proof.
  intros Hf [Hx Hw]. split; [|exact Hw]. cbn.
  apply Forall_alter; [exact Hx|]. intros x _ Hl. now rewrite Hf.
Qed.

Lemma wf_emit n w : wf_world w -> wf_world (emit n w).
Proof. intros H. exact H. Qed.

Lemma wf_sliced r w : wf_world w -> wf_world (sliced r w).
Proof.
  intros [Hx Hw]. split; cbn.
  - apply Forall_app. split.
    + eapply Forall_impl; [exact Hx|]. intros x Hl. cbn in Hl.
      eapply Forall_impl; [exact Hl|]. intros l. apply registered_mono. lia.
    + repeat constructor; cbn; lia.
  - eapply Forall_impl; [exact Hw|]. intros l. apply registered_mono. lia.
Qed.

Definition request_range (x : XHR) : option (Z * Z) := range_of (x_requestHeaders x).

(** The Range asked by each exchange created so far, oldest first; [None] for
    the header exchange. *)
Definition ranges (w : World) : list (option (Z * Z)) := map request_range (xhrs w).

Definition is_COMPLETE (n : Notification) : bool :=
  String.eqb (n_name n) LoaderEvent.COMPLETE.

(** How many COMPLETE notifications have been emitted. *)
Definition completions (w : World) : nat :=
  length (List.filter is_COMPLETE (emitted w)).

Section Transfer.

Variable r : URLRequest.t.
Variable resource : list byte.

Definition chunk_phase (x : XHR) : Prop :=
  (x_readyState x = 1 /\ x_status x = 0)
  \/ ((x_readyState x = 2 \/ x_readyState x = 3) /\ x_status x = 206).

(** The exchange for the chunk at offset [k], on its way. *)
Definition chunk_exchange (k : Z) (x : XHR) : Prop :=
  (exists f, x_listeners x = chunk_listeners f)
  /\ request_range x = Some (k, k + 204799)
  /\ x_sendFlag x = true
  /\ chunk_phase x.

(** The loader in the middle of the transfer: [k] bytes of the resource are
    assembled, and the newest exchange is the current one, asking from [k]. *)
Definition chunking (k : Z) (w : World) : Prop :=
  wf_world w
  /\ _state (this w) = 3
  /\ _loaded (this w) = k
  /\ _total (this w) = JStr (decimal (byteLength resource))
  /\ buffer (_data (this w)) = take (Z.to_nat k) resource
  /\ _request (this w) = Some r
  /\ 0 <= k < byteLength resource
  /\ (exists old x, xhrs w = old ++ [x] /\ _loader (this w) = Some (length old)
                    /\ chunk_exchange k x)
  /\ (exists lo lf, listeners_for online_ (window w) = [lo]
                    /\ listeners_for offline_ (window w) = [lf])
  /\ completions w = 0%nat.

(** The transfer at its end. *)
Definition completed (w : World) : Prop :=
  _state (this w) = 4
  /\ _loaded (this w) = byteLength resource
  /\ _data (this w) = Some resource
  /\ completions w = 1%nat.

Lemma chunk_listeners_for f :
  listeners_for progress (chunk_listeners f)
  = [{| l_type := progress; l_fn := f; l_handler := OnProgress |}]
  /\ listeners_for readystatechange (chunk_listeners f)
     = [{| l_type := readystatechange; l_fn := S (S (S f)); l_handler := OnHTTPStatus |}]
  /\ listeners_for load_ (chunk_listeners f)
     = [{| l_type := load_; l_fn := S (S f); l_handler := OnComplete |}]
  /\ listeners_for error (chunk_listeners f) = [].
Proof. repeat split. Qed.

Lemma xhr_get_last w old x : xhrs w = old ++ [x] -> xhr_get (length old) w = Some x.
Proof. intros H. unfold xhr_get. rewrite H. apply lookup_snoc. Qed.

Lemma xhr_get_altered f id w x :
  xhr_get id w = Some x -> xhr_get id (upd_xhrs (alter f id) w) = Some (f x).
Proof. unfold xhr_get. intros H. cbn. now rewrite list_lookup_alter_eq, H. Qed.

Lemma xhrs_altered f w old x :
  xhrs w = old ++ [x] -> xhrs (upd_xhrs (alter f (length old)) w) = old ++ [f x].
Proof. intros H. cbn. rewrite H. apply alter_snoc. Qed.

(** The server's answer to the current exchange. *)
Lemma response_to_chunk k x :
  request_range x = Some (k, k + 204799) -> 0 <= k < byteLength resource ->
  response_status resource x = 206
  /\ response_body resource x = bytes_between resource k (k + 204799).
Proof.
  unfold request_range, response_status, response_body. intros -> Hk.
  destruct (Z.ltb_spec k (byteLength resource)); [now split | lia].
Qed.

Lemma chunk_exchange_receiving k x rs cl :
  chunk_exchange k x -> rs = 2 \/ rs = 3 ->
  chunk_exchange k (xhr_set_response rs true 206 cl None x).
Proof.
  intros (Hl & Hr & Hsf & _) Hrs. split; [exact Hl|]. split; [exact Hr|].
  split; [reflexivity|]. right. now split.
Qed.

(** Headers of the current exchange arrive (or have arrived). *)
Lemma serve_headers_chunk k w old x :
  chunking k w -> xhrs w = old ++ [x] -> chunk_exchange k x ->
  exists x',
    serve_headers resource (length old) w = upd_xhrs (fun _ => old ++ [x']) w
    /\ chunk_exchange k x'
    /\ (x_readyState x' = 2 \/ x_readyState x' = 3)
    /\ x_status x' = 206 /\ x_listeners x' = x_listeners x.
Proof.
  intros (Hwf & Hst & _ & _ & _ & _ & Hk & _) Hx ((f & Hl) & Hr & Hsf & Hph).
  pose proof (xhr_get_last w old x Hx) as Hget.
  destruct (response_to_chunk k x Hr Hk) as [Es _].
  unfold serve_headers. rewrite Hget. unfold net_headers. rewrite Hget, Hsf.
  destruct Hph as [[Hrs Hs]|[Hrs Hs]].
  - rewrite Hrs. cbn [andb Z.eqb Pos.eqb].
    set (x' := xhr_set_response 2 true (response_status resource x)
                 (response_length resource x) None x).
    exists x'.
    assert (Hce : chunk_exchange k x').
    { unfold x'. rewrite Es. apply chunk_exchange_receiving; [|now left].
      split; [now exists f|]. split; [exact Hr|]. split; [exact Hsf|]. now left. }
    assert (Hget' : xhr_get (length old)
              (upd_xhrs (alter (xhr_set_response 2 true (response_status resource x)
                                  (response_length resource x) None) (length old)) w)
              = Some x') by now apply xhr_get_altered.
    erewrite dispatch_one;
      [ | reflexivity | exact Hget'
        | cbn [x_listeners xhr_set_response x']; rewrite Hl;
          apply (chunk_listeners_for f) ].
    erewrite callback_OnHTTPStatus_idle;
      [ | reflexivity | exact Hget' | right; cbn; rewrite Es, Hst; lia ].
    split.
    { unfold upd_xhrs. cbn. rewrite Hx, alter_snoc. reflexivity. }
    split; [exact Hce|]. split; [now left|]. split; [exact Es | reflexivity].
  - exists x.
    replace (x_readyState x =? 1) with false by (symmetry; apply Z.eqb_neq; lia).
    split.
    { cbn. rewrite <- Hx. now destruct w. }
    split.
    { split; [now exists f|]. split; [exact Hr|]. split; [exact Hsf|]. right. now split. }
    split; [exact Hrs|]. split; [exact Hs | reflexivity].
Qed.

Lemma rline_fresh w :
  wf_world w -> FileLoader.rline w = set_next_fn (S (S (next_fn w))) w.
Proof.
  intros Hwf. unfold FileLoader.rline.
  rewrite (removeEventListener_fresh TWindow online_ Online w Hwf).
  rewrite removeEventListener_fresh by (apply wf_set_next_fn; [cbn; lia | exact Hwf]).
  reflexivity.
Qed.

Lemma chunking_replace_current k w old x x' :
  chunking k w -> xhrs w = old ++ [x] ->
  chunk_exchange k x' -> x_listeners x' = x_listeners x ->
  chunking k (upd_xhrs (fun _ => old ++ [x']) w).
Proof.
  intros (Hwf & Hst & Hld & Htot & Hbuf & Hrq & Hk & (old0 & x0 & Hx0 & Hlo & _) & Hmon & Hc)
         Hx Hce Hls.
  rewrite Hx in Hx0. apply app_inj_tail in Hx0. destruct Hx0 as [E1 E2]. subst old0 x0.
  split.
  { destruct Hwf as [Hxs Hw]. split; [|exact Hw]. cbn. rewrite Hx in Hxs.
    apply Forall_app in Hxs as [Ho Hl]. apply Forall_app. split; [exact Ho|].
    constructor; [|constructor]. rewrite Hls. now inversion Hl. }
  repeat (split; [assumption|]). split; [|split; assumption].
  exists old, x'. split; [reflexivity|]. split; [exact Hlo | exact Hce].
Qed.

Lemma completions_emit n w :
  completions (emit n w) = (completions w + (if is_COMPLETE n then 1 else 0))%nat.
Proof.
  unfold completions, emit. cbn [emitted].
  rewrite List.filter_app, length_app. cbn [List.filter].
  destruct (is_COMPLETE n); cbn; lia.
Qed.

(** The body of the current exchange ends: its bytes are appended, and the
    transfer either goes on with the exchange for the next chunk or is
    complete. *)
Lemma serve_body_chunk k w old x :
  chunking k w -> xhrs w = old ++ [x] -> chunk_exchange k x ->
  x_readyState x = 2 \/ x_readyState x = 3 -> x_status x = 206 ->
  let w' := serve_body resource (length old) w in
  let total := JStr (decimal (byteLength resource)) in
  (k + 204800 < byteLength resource
   /\ chunking (k + 204800) w'
   /\ ranges w' = ranges w ++ [Some (k + 204800, k + 204800 + 204799)]
   /\ emitted w' = emitted w ++ [PROGRESS_notification (k + 204800) total])
  \/ (byteLength resource <= k + 204800
      /\ completed w'
      /\ ranges w' = ranges w
      /\ emitted w' = emitted w ++ [PROGRESS_notification (byteLength resource) total;
                                     COMPLETE_notification (Some resource)]).
Proof.
  intros (Hwf & Hst & Hld & Htot & Hbuf & Hrq & Hk & (old0 & x0 & Hx0 & Hlo & _) & Hmon & Hc)
         Hx ((f & Hl) & Hr & Hsf & _) Hrs Hs w' total.
  rewrite Hx in Hx0. apply app_inj_tail in Hx0. destruct Hx0 as [E1 E2]. subst old0 x0.
  pose proof (xhr_get_last w old x Hx) as Hget.
  destruct (response_to_chunk k x Hr Hk) as [_ Eb].
  set (body := bytes_between resource k (k + 204799)) in *.
  assert (Hblen : byteLength body = Z.min 204800 (byteLength resource - k)).
  { apply bytes_between_length. lia. }
  assert (Hbk : byteLength (buffer (FileLoader.data w)) = k).
  { unfold FileLoader.data. rewrite Hbuf. unfold byteLength in *. rewrite length_take. lia. }
  (* the last progress event *)
  set (evP := progress_event (length old) (byteLength body) x).
  assert (EP : dispatch progress evP w
               = emit (PROGRESS_notification (k + byteLength body) total) w).
  { erewrite dispatch_one;
      [ | reflexivity | exact Hget | rewrite Hl; apply (chunk_listeners_for f) ].
    erewrite callback_OnProgress;
      [ | reflexivity | exact Hlo | exact Hget | lia | lia ].
    unfold FileLoader.bytesLoaded, FileLoader.bytesTotal. now rewrite Hld, Htot. }
  (* DONE *)
  set (x2 := xhr_set_response 4 false (x_status x) (x_contentLength x) (Some body) x).
  set (w2 := upd_xhrs (alter (xhr_set_response 4 false (x_status x) (x_contentLength x)
                                (Some body)) (length old))
               (emit (PROGRESS_notification (k + byteLength body) total) w)).
  assert (Hget2 : xhr_get (length old) w2 = Some x2).
  { unfold w2. now apply xhr_get_altered. }
  assert (ER : dispatch readystatechange (event_at (TXhr (length old))) w2 = w2).
  { erewrite dispatch_one;
      [ | reflexivity | exact Hget2
        | cbn [x2 x_listeners xhr_set_response]; rewrite Hl; apply (chunk_listeners_for f) ].
    erewrite callback_OnHTTPStatus_idle;
      [ reflexivity | reflexivity | exact Hget2 | left; cbn; lia ]. }
  (* load *)
  set (appended := take (Z.to_nat k) resource ++ body).
  set (W := FileLoader.set_bytesLoaded (k + byteLength body)
              (FileLoader.set_data (Some appended) w2)).
  assert (EL : dispatch load_ evP w2
               = if k + byteLength body <? byteLength resource
                 then sliced r W
                 else emit (COMPLETE_notification (Some appended))
                        (FileLoader.rline (upd_this (set_state 4) W))).
  { erewrite dispatch_one;
      [ | reflexivity | exact Hget2
        | cbn [x2 x_listeners xhr_set_response]; rewrite Hl; apply (chunk_listeners_for f) ].
    erewrite (callback_OnComplete _ _ w2 (length old) x2 body r);
      [ | reflexivity | exact Hlo | exact Hget2 | cbn; lia | reflexivity | exact Hrq
        | exact (eq_trans Hbk (eq_sym Hld)) ].
    change (FileLoader.bytesLoaded w2) with (_loaded (this w)).
    change (FileLoader.bytesTotal w2) with (_total (this w)).
    change (FileLoader.data w2) with (_data (this w)).
    rewrite Hld, Htot, Hbuf, js_lt_decimal by lia. reflexivity. }
  assert (Ew' : w' = if k + byteLength body <? byteLength resource
                     then sliced r W
                     else emit (COMPLETE_notification (Some appended))
                            (FileLoader.rline (upd_this (set_state 4) W))).
  { unfold w', serve_body. rewrite Hget, Eb. unfold net_load. rewrite Hget, Hsf.
    replace ((x_readyState x =? 2) || (x_readyState x =? 3)) with true
      by (destruct Hrs as [-> | ->]; reflexivity).
    cbn [andb]. fold evP. rewrite EP. fold w2. rewrite ER. exact EL. }
  assert (Happ : appended
                 = take (Z.to_nat (k + byteLength body)) resource).
  { apply take_bytes_between. lia. }
  assert (Hwf2 : wf_world w2).
  { unfold w2. apply wf_alter; [reflexivity|]. exact Hwf. }
  assert (Hr2 : ranges w2 = ranges w).
  { unfold ranges, w2. cbn. rewrite Hx, alter_snoc, !map_app. reflexivity. }
  rewrite Ew'. clear Ew' EL ER EP.
  destruct (Z.ltb_spec (k + byteLength body) (byteLength resource)) as [Hlt|Hge].
  - left. assert (Hb : byteLength body = 204800) by lia.
    split; [lia|]. split.
    + split; [apply wf_sliced; exact Hwf2|].
      split; [reflexivity|].
      split; [change (_loaded (this (sliced r W))) with (k + byteLength body); lia|].
      split; [exact Htot|].
      split; [change (_data (this (sliced r W))) with (Some appended);
              cbn [buffer]; now rewrite Happ, Hb|].
      split; [exact Hrq|]. split; [lia|].
      split.
      { exists (xhrs W), (chunk_request r (k + byteLength body) (next_fn W)).
        split; [reflexivity|]. split; [reflexivity|].
        split; [eexists; reflexivity|]. rewrite Hb.
        split; [reflexivity|]. split; [reflexivity|]. now left. }
      split; [exact Hmon|].
      change (completions (sliced r W))
        with (completions (emit (PROGRESS_notification (k + byteLength body) total) w)).
      now rewrite completions_emit, Hc.
    + split.
      * unfold ranges in *. change (xhrs (sliced r W))
          with (xhrs w2 ++ [chunk_request r (k + byteLength body) (next_fn W)]).
        rewrite map_app, Hr2, Hb. reflexivity.
      * change (emitted (sliced r W))
          with (emitted w ++ [PROGRESS_notification (k + byteLength body) total]).
        now rewrite Hb.
  - right. assert (Hb : k + byteLength body = byteLength resource) by lia.
    assert (Hres : appended = resource).
    { rewrite Happ, Hb. apply take_ge. unfold byteLength. lia. }
    split; [lia|].
    assert (HwfW : wf_world (upd_this (set_state 4) W)) by exact Hwf2.
    rewrite (rline_fresh _ HwfW).
    split.
    + split; [reflexivity|].
      split; [change (k + byteLength body = byteLength resource); exact Hb|].
      split; [change (Some appended = Some resource); now rewrite Hres|].
      rewrite completions_emit.
      change (completions (set_next_fn _ _))
        with (completions (emit (PROGRESS_notification (k + byteLength body) total) w)).
      rewrite completions_emit, Hc. reflexivity.
    + split.
      * exact Hr2.
      * change ((emitted w ++ [PROGRESS_notification (k + byteLength body) total])
                  ++ [COMPLETE_notification (Some appended)]
                = emitted w ++ [PROGRESS_notification (byteLength resource) total;
                                COMPLETE_notification (Some resource)]).
        now rewrite Hb, Hres, <- app_assoc.
Qed.

(** The current exchange is answered in full. *)
Lemma deliver_chunk k w id :
  chunking k w -> _loader (this w) = Some id ->
  let w' := serve resource id w in
  let total := JStr (decimal (byteLength resource)) in
  (k + 204800 < byteLength resource
   /\ chunking (k + 204800) w'
   /\ ranges w' = ranges w ++ [Some (k + 204800, k + 204800 + 204799)]
   /\ emitted w' = emitted w ++ [PROGRESS_notification (k + 204800) total])
  \/ (byteLength resource <= k + 204800
      /\ completed w'
      /\ ranges w' = ranges w
      /\ emitted w' = emitted w ++ [PROGRESS_notification (byteLength resource) total;
                                     COMPLETE_notification (Some resource)]).
Proof.
  intros Hch Hid w' total.
  pose proof Hch as (_ & _ & _ & _ & _ & _ & Hk & (old & x & Hx & Hlo & Hce) & _).
  rewrite Hlo in Hid. injection Hid as <-.
  destruct (serve_headers_chunk k w old x Hch Hx Hce)
    as (x1 & Eh & Hce1 & Hrs1 & Hs1 & Hls1).
  pose proof (chunking_replace_current k w old x x1 Hch Hx Hce1 Hls1) as Hch1.
  assert (Hranges : ranges (upd_xhrs (fun _ => old ++ [x1]) w) = ranges w).
  { unfold ranges. cbn. rewrite Hx, !map_app. cbn.
    destruct Hce as (_ & -> & _), Hce1 as (_ & -> & _). reflexivity. }
  pose proof (serve_body_chunk k _ old x1 Hch1 eq_refl Hce1 Hrs1 Hs1) as H.
  cbv zeta in H. rewrite Hranges in H.
  unfold w', serve. rewrite Eh. exact H.
Qed.

(** A part of the body of the current exchange arrives. *)
Lemma partial_chunk k w id n :
  chunking k w -> _loader (this w) = Some id ->
  let w' := net_progress id n (serve_headers resource id w) in
  chunking k w' /\ ranges w' = ranges w
  /\ emitted w' = emitted w ++ [PROGRESS_notification (k + n)
                                  (JStr (decimal (byteLength resource)))].
Proof.
  intros Hch Hid w'.
  pose proof Hch as (_ & _ & _ & _ & _ & _ & Hk & (old & x & Hx & Hlo & Hce) & _).
  rewrite Hlo in Hid. injection Hid as <-.
  destruct (serve_headers_chunk k w old x Hch Hx Hce)
    as (x1 & Eh & Hce1 & Hrs1 & Hs1 & Hls1).
  pose proof (chunking_replace_current k w old x x1 Hch Hx Hce1 Hls1) as Hch1.
  assert (Hranges : ranges (upd_xhrs (fun _ => old ++ [x1]) w) = ranges w).
  { unfold ranges. cbn. rewrite Hx, !map_app. cbn.
    destruct Hce as (_ & -> & _), Hce1 as (_ & -> & _). reflexivity. }
  unfold w'. rewrite Eh. rewrite <- Hranges.
  change (emitted w) with (emitted (upd_xhrs (fun _ => old ++ [x1]) w)).
  set (w1 := upd_xhrs (fun _ => old ++ [x1]) w) in *.
  assert (Hx1 : xhrs w1 = old ++ [x1]) by reflexivity.
  clearbody w1. clear w' Hch Hx Hce Eh Hls1 Hranges x w Hlo.
  pose proof Hch1 as (Hwf & Hst & Hld & Htot & Hbuf & Hrq & _ & (old0 & x0 & Hx0 & Hlo & _) & _).
  rewrite Hx1 in Hx0. apply app_inj_tail in Hx0. destruct Hx0 as [E1 E2]. subst old0 x0.
  pose proof Hce1 as ((f & Hl) & Hr & Hsf & _).
  pose proof (xhr_get_last w1 old x1 Hx1) as Hget.
  unfold net_progress. rewrite Hget, Hsf.
  replace ((x_readyState x1 =? 2) || (x_readyState x1 =? 3)) with true
    by (destruct Hrs1 as [-> | ->]; reflexivity).
  cbn [andb].
  set (x2 := xhr_set_response 3 true (x_status x1) (x_contentLength x1) None x1).
  set (w2 := upd_xhrs (alter (xhr_set_response 3 true (x_status x1) (x_contentLength x1)
                                None) (length old)) w1).
  assert (Hget2 : xhr_get (length old) w2 = Some x2) by now apply xhr_get_altered.
  assert (ER : dispatch readystatechange (event_at (TXhr (length old))) w2 = w2).
  { erewrite dispatch_one;
      [ | reflexivity | exact Hget2
        | cbn [x2 x_listeners xhr_set_response]; rewrite Hl; apply (chunk_listeners_for f) ].
    erewrite callback_OnHTTPStatus_idle;
      [ reflexivity | reflexivity | exact Hget2 | left; cbn; lia ]. }
  rewrite ER.
  erewrite dispatch_one;
    [ | reflexivity | exact Hget2
      | cbn [x2 x_listeners xhr_set_response]; rewrite Hl; apply (chunk_listeners_for f) ].
  erewrite callback_OnProgress;
    [ | reflexivity | exact Hlo | exact Hget2 | cbn; lia | cbn; lia ].
  change (FileLoader.bytesLoaded w2) with (_loaded (this w1)).
  change (FileLoader.bytesTotal w2) with (_total (this w1)).
  rewrite Hld, Htot. cbn [e_loaded progress_event].
  assert (Hw2 : w2 = upd_xhrs (fun _ => old ++ [x2]) w1).
  { unfold w2, upd_xhrs. now rewrite Hx1, alter_snoc. }
  assert (Hch2 : chunking k w2).
  { rewrite Hw2. apply (chunking_replace_current k w1 old x1 x2 Hch1 Hx1); [|reflexivity].
    unfold x2. rewrite Hs1. apply chunk_exchange_receiving; [exact Hce1 | now right]. }
  split; [|split].
  - destruct Hch2 as (H1 & H2 & H3 & H4 & H5 & H6 & H7 & H8 & H9 & H10).
    split; [exact H1|]. repeat (split; [assumption|]).
    rewrite completions_emit, H10. reflexivity.
  - unfold ranges. change (xhrs (emit _ w2)) with (xhrs w2).
    rewrite Hw2. cbn [xhrs upd_xhrs]. rewrite Hx1, !map_app. reflexivity.
  - reflexivity.
Qed.

(** ** Starting the current chunk again *)

Lemma request_range_aborted x : request_range (aborted x) = request_range x.
Proof. unfold aborted. now destruct (in_flight x || (x_readyState x =? 4)). Qed.

Lemma map_alter_same {A B} (g : A -> B) (f : A -> A) i xs :
  (forall x, g (f x) = g x) -> map g (alter f i xs) = map g xs.
Proof.
  intros H. revert i. induction xs as [|x xs IH]; intros [|i]; cbn; try reflexivity.
  - now rewrite H.
  - f_equal. apply IH.
Qed.

Lemma completions_closes w cs :
  Forall is_CLOSE cs ->
  length (List.filter is_COMPLETE (emitted w ++ cs)) = completions w.
Proof.
  intros H. unfold completions. rewrite List.filter_app, length_app.
  replace (List.filter is_COMPLETE cs) with (@nil Notification); [cbn; lia|].
  induction H as [|n cs [Hn _] _ IH]; [reflexivity|].
  cbn. unfold is_COMPLETE at 1. rewrite Hn. exact IH.
Qed.

(** A new exchange issued where [k] bytes are assembled is the current one of
    a transfer at [k]. *)
Lemma chunking_sliced k w w1 :
  chunking k w -> wf_world w1 ->
  _loaded (this w1) = k -> _total (this w1) = _total (this w) ->
  _data (this w1) = _data (this w) -> _request (this w1) = Some r ->
  window w1 = window w -> completions w1 = completions w ->
  chunking k (sliced r w1)
  /\ ranges (sliced r w1) = ranges w1 ++ [Some (k, k + 204799)].
Proof.
  intros (_ & _ & _ & Htot & Hbuf & _ & Hk & _ & Hmon & Hc) Hwf El Et Ed Er Ew Ec.
  split.
  - split; [now apply wf_sliced|]. split; [reflexivity|].
    cbn [sliced this _loaded _total _data _request set_loader set_state].
    split; [exact El|]. split; [congruence|]. split; [congruence|].
    split; [exact Er|]. split; [exact Hk|]. split.
    { exists (xhrs w1), (chunk_request r k (next_fn w1)).
      split; [cbn; now rewrite El|]. split; [reflexivity|].
      split; [now exists (next_fn w1)|]. split; [reflexivity|].
      split; [reflexivity|]. now left. }
    split; [cbn [window sliced]; now rewrite Ew|].
    unfold completions in *. cbn [emitted sliced]. congruence.
  - unfold ranges. cbn [xhrs sliced]. rewrite map_app, El. reflexivity.
Qed.

(** [pause()] and then [resume()]: the transfer is where it was, with a new
    exchange for the same chunk. *)
Lemma pause_resume_chunk k w :
  chunking k w ->
  let w' := step CallResume (step CallPause w) in
  chunking k w' /\ ranges w' = ranges w ++ [Some (k, k + 204799)].
Proof.
  intros Hch w'.
  pose proof Hch as (Hwf & Hst & Hld & Htot & Hbuf & Hrq & Hk & _ & _ & Hc).
  set (w0 := upd_this (set_active_disconnect true) w).
  pose proof (abort_spec callback0 w0 (wf_upd_this _ w Hwf)) as H.
  change (FileLoader.abort (FileLoader.handle callback0) w0)
    with (FileLoader.abort callback w0) in H.
  cbv zeta in H.
  remember (FileLoader.abort callback w0) as w1 eqn:Hw1.
  destruct H as [S W].
  destruct (settles_this_fields _ _ S) as (Es & El & Et & Ed & _ & _ & _ & Er).
  destruct S as (_ & X & Wi & _ & _ & cs & Em & Hcs).
  change (this (upd_xhrs _ w0)) with (set_active_disconnect true (this w)) in *.
  cbn [_state _loaded _total _data _request set_active_disconnect] in Es, El, Et, Ed, Er.
  cbn [xhrs upd_xhrs w0 upd_this this window emitted] in X, Wi, Em.
  assert (E1 : step CallPause w = w1).
  { cbn [step]. unfold FileLoader.pause, FileLoader.state. rewrite Hst.
    cbn [Z.eqb Pos.eqb negb world_of]. now rewrite Hw1. }
  assert (E2 : step CallResume w1 = sliced r w1).
  { cbn [step]. unfold FileLoader.resume, FileLoader.state. rewrite Es, Hst.
    cbn [Z.eqb Pos.eqb negb].
    rewrite (slice_spec callback r w1 callback_quiet) by congruence. reflexivity. }
  unfold w'. rewrite E1, E2.
  destruct (chunking_sliced k w w1 Hch W) as [C R]; try congruence.
  { unfold completions at 1. rewrite Em. now apply completions_closes. }
  split; [exact C|]. rewrite R. f_equal.
  unfold ranges. rewrite X. cbn [_loader _xhr set_active_disconnect].
  destruct (_loader (this w)), (_xhr (this w)); cbn [alter_opt];
    rewrite ?(map_alter_same request_range aborted) by apply request_range_aborted;
    reflexivity.
Qed.

Definition disconnection_notification : Notification :=
  with_desc "network disconnection"
    (notification "networkState" (CodeName "offline") EventLevel.WARNING).

Lemma monitor_handler ty w l :
  wf_world w -> listeners_for ty (window w) = [l] -> l_handler l = handler_of ty.
Proof.
  intros [_ Hw] Hl.
  pose proof (listeners_for_registered _ ty _ Hw) as H. rewrite Hl in H.
  now inversion H.
Qed.

(** The network goes away: the offline signal, the current exchange fails;
    then the online signal.  The transfer is where it was, with a new
    exchange for the same chunk. *)
Lemma reconnect_chunk k w id :
  chunking k w -> _loader (this w) = Some id ->
  let w' := win_online (net_error id (win_offline w)) in
  chunking k w' /\ ranges w' = ranges w ++ [Some (k, k + 204799)]
  /\ emitted w' = emitted w ++ [disconnection_notification; recovery_notification].
Proof.
  intros Hch Hid w'.
  pose proof Hch as (Hwf & Hst & Hld & Htot & Hbuf & Hrq & Hk
                     & (old & x & Hx & Hlo & Hce) & (lo & lf & Hon & Hoff) & Hc).
  rewrite Hlo in Hid. injection Hid as <-.
  pose proof (monitor_handler _ _ _ Hwf Hon) as Hlo'.
  pose proof (monitor_handler _ _ _ Hwf Hoff) as Hlf'.
  cbn [handler_of] in Hlo', Hlf'.
  assert (E1 : win_offline w = emit disconnection_notification w).
  { unfold win_offline, dispatch, FileLoader.fire.
    cbn [e_target event_at listeners_of]. rewrite Hoff. cbn [fold_left].
    unfold callback, FileLoader.handle at 1. now rewrite Hlf'. }
  set (w1 := emit disconnection_notification w) in *.
  pose proof Hce as ((f & Hl) & Hr & Hsf & Hph).
  set (x4 := xhr_set_response 4 false 0 None None x).
  assert (E2 : net_error (length old) w1 = upd_xhrs (fun _ => old ++ [x4]) w1).
  { assert (Hget : xhr_get (length old) w1 = Some x) by now apply xhr_get_last.
    unfold net_error. rewrite Hget.
    replace (in_flight x) with true.
    2:{ unfold in_flight. rewrite Hsf.
        destruct Hph as [[-> _]|[[-> | ->] _]]; reflexivity. }
    set (w2 := upd_xhrs (alter (xhr_set_response 4 false 0 None None) (length old)) w1).
    assert (Hget2 : xhr_get (length old) w2 = Some x4) by now apply xhr_get_altered.
    erewrite (dispatch_one readystatechange);
      [ | reflexivity | exact Hget2
        | cbn [x4 x_listeners xhr_set_response]; rewrite Hl; apply (chunk_listeners_for f) ].
    erewrite callback_OnHTTPStatus_idle;
      [ | reflexivity | exact Hget2 | left; cbn; lia ].
    erewrite dispatch_none;
      [ | reflexivity | exact Hget2
        | cbn [x4 x_listeners xhr_set_response]; rewrite Hl; apply (chunk_listeners_for f) ].
    unfold w2, upd_xhrs. cbn [xhrs w1 emit]. now rewrite Hx, alter_snoc. }
  set (w2 := upd_xhrs (fun _ => old ++ [x4]) w1) in *.
  assert (E3 : win_online w2 = emit recovery_notification (sliced r w2)).
  { unfold win_online, dispatch, FileLoader.fire.
    cbn [e_target event_at listeners_of]. change (window w2) with (window w).
    rewrite Hon. cbn [fold_left].
    unfold callback, FileLoader.handle at 1. rewrite Hlo'.
    unfold FileLoader.online. change (_state (this w2)) with (_state (this w)).
    rewrite Hst. cbn [Z.eqb Pos.eqb]. unfold seq.
    now rewrite (slice_spec callback0 r w2 callback0_quiet Hrq). }
  unfold w'. rewrite E1, E2, E3.
  assert (W2 : wf_world w2).
  { destruct Hwf as [Hxs Hw]. split; [|exact Hw]. cbn. rewrite Hx in Hxs.
    apply Forall_app in Hxs as [Ho Hlast]. apply Forall_app. split; [exact Ho|].
    constructor; [|constructor]. now inversion Hlast. }
  destruct (chunking_sliced k w w2 Hch W2) as [C R]; try assumption; try reflexivity.
  { change (completions w2) with (completions (emit disconnection_notification w)).
    rewrite completions_emit. cbn. lia. }
  split; [|split].
  - destruct C as (H1 & H2 & H3 & H4 & H5 & H6 & H7 & H8 & H9 & H10).
    split; [exact H1|]. repeat (split; [assumption|]).
    rewrite completions_emit, H10. reflexivity.
  - change (ranges (emit recovery_notification (sliced r w2))) with (ranges (sliced r w2)).
    rewrite R. f_equal. unfold ranges. cbn [xhrs w2 upd_xhrs]. rewrite Hx, !map_app.
    reflexivity.
  - cbn [emitted emit sliced w2 upd_xhrs w1]. now rewrite <- app_assoc.
Qed.

End Transfer.

(** ** From [load] to the first chunk *)

Definition START_notification : Notification :=
  notification LoaderEvent.START (CodeName LoaderEvent.START) EventLevel.STATUS.

(** The header exchange, as [load] leaves it. *)
Definition header_request (r : URLRequest.t) : XHR :=
  {| x_readyState := 1; x_sendFlag := true; x_status := 0;
     x_contentLength := None; x_response := None;
     x_method := URLRequest.method r; x_url := URLRequest.url r;
     x_requestHeaders := URLRequest.requestHeaders r;
     x_responseType := "arraybuffer"; x_body := URLRequest.data r;
     x_listeners := header_listeners 0 |}.

(** The world after [new FileLoader(r)] and [load()]. *)
Definition opened (r : URLRequest.t) : World :=
  {| this := {| _state := 1; _loaded := 0; _total := JNum 0; _data := None;
                _dataFormat := LoaderDataFormat.BINARY; _timeout := 0;
                _xhr := Some 0%nat; _loader := None;
                _active_disconnect := false; _request := Some r |};
     xhrs := [header_request r];
     window := [];
     next_fn := 4%nat;
     emitted := [START_notification];
     uncaught := [] |}.

(** ... and after the headers of a successful response that announces its
    length as [s]. *)
Definition discovered (r : URLRequest.t) (s : string) : World :=
  {| this := {| _state := 3; _loaded := 0; _total := JStr s; _data := None;
                _dataFormat := LoaderDataFormat.BINARY; _timeout := 0;
                _xhr := Some 0%nat; _loader := Some 1%nat;
                _active_disconnect := false; _request := Some r |};
     xhrs := [xhr_set_response 0 false 0 None None (header_request r);
              chunk_request r 0 10];
     window := [ {| l_type := online_; l_fn := 14; l_handler := Online |};
                 {| l_type := offline_; l_fn := 15; l_handler := Offline |} ];
     next_fn := 16%nat;
     emitted := [START_notification];
     uncaught := [] |}.

Lemma setRequestHeader_first name v x xs t win nf em un :
  xhr_setRequestHeader 0 name v
    {| this := t; xhrs := x :: xs; window := win; next_fn := nf;
       emitted := em; uncaught := un |}
  = {| this := t;
       xhrs := xhr_set_request (x_method x) (x_url x) (x_requestHeaders x ++ [(name, v)])
                 (x_responseType x) (x_body x) x :: xs;
       window := win; next_fn := nf; emitted := em; uncaught := un |}.
Proof. reflexivity. Qed.

Lemma setRequestHeaders_fold hs : forall x xs t win nf em un,
  fold_left (fun w' item => xhr_setRequestHeader 0 (fst item) (snd item) w') hs
    {| this := t; xhrs := x :: xs; window := win; next_fn := nf;
       emitted := em; uncaught := un |}
  = {| this := t;
       xhrs := xhr_set_request (x_method x) (x_url x) (x_requestHeaders x ++ hs)
                 (x_responseType x) (x_body x) x :: xs;
       window := win; next_fn := nf; emitted := em; uncaught := un |}.
Proof.
  induction hs as [|[name v] hs IH]; intros x xs t win nf em un.
  - cbn. rewrite app_nil_r. now destruct x.
  - cbn [fold_left fst snd]. rewrite setRequestHeader_first, IH.
    cbn. now rewrite <- app_assoc.
Qed.

Ltac evaluate t :=
  let v := eval vm_compute in t in
  replace t with v by (vm_compute; reflexivity).

Lemma load_opened r :
  FileLoader.load callback None (new_FileLoader (Some r)) = Done (opened r).
Proof.
  evaluate (new_FileLoader (Some r)).
  unfold FileLoader.load. cbv iota beta zeta. cbn [this _xhr _request].
  match goal with |- context [fold_left ?f ?hs ?w0] => evaluate w0 end.
  rewrite setRequestHeaders_fold. vm_compute. reflexivity.
Qed.

Lemma headers_discovered r s :
  s <> "" -> net_headers 0 200 (Some s) (opened r) = discovered r s.
Proof. destruct s as [|c s]; [contradiction|]. intros _. vm_compute. reflexivity. Qed.

Section Start.

Variable r : URLRequest.t.
Variable resource : list byte.

(** The request asks for the whole resource. *)
Hypothesis whole : range_of (URLRequest.requestHeaders r) = None.

(** The server answers the header exchange: the loader has the length and
    has issued the exchange for the first chunk. *)
Lemma serve_opened :
  serve resource 0 (opened r) = discovered r (decimal (byteLength resource)).
Proof.
  unfold serve, serve_headers.
  change (xhr_get 0 (opened r)) with (Some (header_request r)).
  unfold response_status, response_length, response_body.
  change (x_requestHeaders (header_request r)) with (URLRequest.requestHeaders r).
  rewrite whole, headers_discovered by apply decimal_nonempty.
  reflexivity.
Qed.

Lemma discovered_chunking :
  0 < byteLength resource ->
  chunking r resource 0 (discovered r (decimal (byteLength resource)))
  /\ ranges (discovered r (decimal (byteLength resource))) = [None; Some (0, 204799)].
Proof.
  intros Hlen. split.
  - split.
    { split; cbn; repeat constructor; cbn; lia. }
    split; [reflexivity|]. split; [reflexivity|]. split; [reflexivity|].
    split; [reflexivity|]. split; [reflexivity|]. split; [lia|].
    split.
    { exists [xhr_set_response 0 false 0 None None (header_request r)],
             (chunk_request r 0 10).
      split; [reflexivity|]. split; [reflexivity|].
      split; [now exists 10%nat|]. split; [reflexivity|]. split; [reflexivity|].
      now left. }
    split; [|reflexivity].
    eexists _, _. split; reflexivity.
  - unfold ranges. cbn [xhrs discovered map]. unfold request_range at 1.
    cbn [x_requestHeaders xhr_set_response header_request]. now rewrite whole.
Qed.

End Start.

(** ** A transfer under way *)

(** What happens to a transfer between two calls of the caller or events of
    the environment: the server answers the current exchange in full; a part
    of its body arrives; the caller pauses and resumes; the network goes away
    (the exchange fails) and comes back. *)
Inductive Action :=
| Deliver
| Partial (received : Z)
| PauseResume
| Reconnect.

Definition act (resource : list byte) (a : Action) (w : World) : World :=
  match a, _loader (this w) with
  | Deliver, Some id => serve resource id w
  | Partial n, Some id => net_progress id n (serve_headers resource id w)
  | PauseResume, _ => step CallResume (step CallPause w)
  | Reconnect, Some id => win_online (net_error id (win_offline w))
  | _, None => w
  end.

(** The actions of a script, one after the other, for as long as the loader
    is downloading. *)
Fixpoint run_script (resource : list byte) (script : list Action) (w : World) : World :=
  match script with
  | [] => w
  | a :: script' =>
      if FileLoader.state w =? 3 then run_script resource script' (act resource a w)
      else w
  end.

(** [new FileLoader(r)], [load()], the server's answer to the header
    exchange, and then the script. *)
Definition transfer (r : URLRequest.t) (resource : list byte) (script : list Action) : World :=
  run_script resource script
    (serve resource 0 (world_of (FileLoader.load callback None (new_FileLoader (Some r))))).

Lemma run_script_stopped resource script w :
  FileLoader.state w <> 3 -> run_script resource script w = w.
Proof.
  intros H. destruct script; [reflexivity|]. cbn.
  destruct (Z.eqb_spec (FileLoader.state w) 3); [contradiction | reflexivity].
Qed.

Lemma run_script_app resource s1 s2 w :
  run_script resource (s1 ++ s2) w = run_script resource s2 (run_script resource s1 w).
Proof.
  revert w. induction s1 as [|a s1 IH]; intros w; [reflexivity|].
  cbn. destruct (Z.eqb_spec (FileLoader.state w) 3) as [E|E]; [apply IH|].
  now rewrite run_script_stopped.
Qed.

Section Scripts.

Variable r : URLRequest.t.
Variable resource : list byte.

(** The transfer at its end, its one COMPLETE notification carrying the
    resource. *)
Definition finished (w : World) : Prop :=
  completed resource w
  /\ List.filter is_COMPLETE (emitted w) = [COMPLETE_notification (Some resource)].

Lemma finished_stopped script w :
  finished w -> run_script resource script w = w.
Proof.
  intros [(E & _) _]. apply run_script_stopped. unfold FileLoader.state.
  rewrite E. discriminate.
Qed.

Lemma deliver_finished k w id :
  chunking r resource k w -> _loader (this w) = Some id ->
  completed resource (serve resource id w) ->
  emitted (serve resource id w)
  = emitted w ++ [PROGRESS_notification (byteLength resource)
                    (JStr (decimal (byteLength resource)));
                  COMPLETE_notification (Some resource)] ->
  finished (serve resource id w).
Proof.
  intros Hch Hid Hc He. split; [exact Hc|].
  destruct Hch as (_ & _ & _ & _ & _ & _ & _ & _ & _ & H0).
  rewrite He, List.filter_app. unfold completions in H0.
  apply length_zero_iff_nil in H0. rewrite H0. reflexivity.
Qed.

Lemma act_chunking a k w :
  chunking r resource k w ->
  (exists k', chunking r resource k' (act resource a w))
  \/ finished (act resource a w).
Proof.
  intros Hch.
  pose proof Hch as (_ & _ & _ & _ & _ & _ & _ & (old & x & _ & Hlo & _) & _).
  unfold act. rewrite Hlo. destruct a as [|n| |].
  - destruct (deliver_chunk r resource k w _ Hch Hlo) as [(_ & H & _)|(_ & H & _ & He)];
      [left; now exists (k + 204800) | right; now apply (deliver_finished k)].
  - left. exists k. now apply partial_chunk.
  - left. exists k. now apply pause_resume_chunk.
  - left. exists k. now apply reconnect_chunk.
Qed.

(** Whatever the script, the transfer is under way or at its end. *)
Lemma run_script_chunking script : forall k w,
  chunking r resource k w ->
  (exists k', chunking r resource k' (run_script resource script w))
  \/ finished (run_script resource script w).
Proof.
  induction script as [|a script IH]; intros k w Hch; [left; now exists k|].
  cbn. pose proof Hch as (_ & Hst & _). unfold FileLoader.state. rewrite Hst.
  cbn [Z.eqb Pos.eqb].
  destruct (act_chunking a k w Hch) as [[k' H]|H]; [now apply (IH k')|].
  right. now rewrite finished_stopped.
Qed.

(** Enough answers of the server bring the transfer to its end. *)
Lemma deliver_all n : forall k w,
  chunking r resource k w ->
  byteLength resource <= k + Z.of_nat n * 204800 ->
  finished (run_script resource (replicate n Deliver) w).
Proof.
  induction n as [|n IH]; intros k w Hch Hn.
  - destruct Hch as (_ & _ & _ & _ & _ & _ & Hk & _). lia.
  - pose proof Hch as (_ & Hst & _ & _ & _ & _ & _ & (old & x & _ & Hlo & _) & _).
    cbn [replicate run_script]. unfold FileLoader.state. rewrite Hst.
    cbn [Z.eqb Pos.eqb]. unfold act. rewrite Hlo.
    destruct (deliver_chunk r resource k w _ Hch Hlo) as [(_ & H & _)|(_ & H & _ & He)].
    + apply (IH (k + 204800)); [exact H | lia].
    + rewrite finished_stopped; now apply (deliver_finished k).
Qed.

Hypothesis whole : range_of (URLRequest.requestHeaders r) = None.

Lemma transfer_start script :
  transfer r resource script
  = run_script resource script (discovered r (decimal (byteLength resource))).
Proof. unfold transfer. rewrite load_opened. cbn [world_of]. now rewrite serve_opened. Qed.

(** A resource of at least one byte: whatever happens on the way, once the
    server has answered often enough the transfer is at its end. *)
Lemma transfer_finishes script :
  0 < byteLength resource ->
  finished (transfer r resource
              (script ++ replicate (Z.to_nat (byteLength resource / 204800 + 1)) Deliver)).
Proof.
  intros Hlen. rewrite transfer_start, run_script_app.
  destruct (discovered_chunking r resource whole Hlen) as [H0 _].
  destruct (run_script_chunking script 0 _ H0) as [[k H]|H].
  - apply (deliver_all _ k); [exact H|].
    destruct H as (_ & _ & _ & _ & _ & _ & Hk & _).
    pose proof (Z.mul_succ_div_gt (byteLength resource) 204800 ltac:(lia)).
    pose proof (Z.div_pos (byteLength resource) 204800 ltac:(lia) ltac:(lia)).
    rewrite Z2Nat.id by lia. lia.
  - now rewrite finished_stopped.
Qed.

End Scripts.

(** ** A resource without bytes *)

Definition ERROR_notification (status : Z) : Notification :=
  with_desc (if 500 <=? status then "server error" else "request error")
    (notification LoaderEvent.ERROR (CodeNum status) EventLevel.ERROR).

(** readystatechange at HEADERS_RECEIVED of an exchange that the server
    refused, the loader downloading. *)
Lemma callback_OnHTTPStatus_refused l w id x :
  l_handler l = OnHTTPStatus -> xhr_get id w = Some x ->
  x_readyState x = 2 -> 400 <= x_status x -> _state (this w) = 3 -> wf_world w ->
  callback l (event_at (TXhr id)) w
  = emit (ERROR_notification (x_status x)) (set_next_fn (S (S (next_fn w))) w).
Proof.
  intros Hl Hx Hrs Hst Hs Hwf. unfold callback, FileLoader.handle, FileLoader.onHTTPStatus.
  rewrite Hl. cbn [e_target event_at]. rewrite Hx, Hrs, Hs.
  replace (x_status x =? 0) with false by (symmetry; apply Z.eqb_neq; lia).
  cbn [Z.eqb Pos.eqb Z.ltb Z.compare Pos.compare Pos.compare_cont].
  destruct (Z.leb_spec 400 (x_status x)); [|lia].
  now rewrite rline_fresh.
Qed.

Lemma callback_OnProgress_refused l evt w id ld :
  l_handler l = OnProgress ->
  _loader (this w) = Some id -> xhr_get id w = Some ld -> 400 <= x_status ld ->
  callback l evt w = w.
Proof.
  intros Hl Hlo Hx Hst. unfold callback, FileLoader.handle, FileLoader.onProgress.
  rewrite Hl, Hlo, Hx.
  destruct (x_readyState ld <? 2); [reflexivity|].
  destruct (Z.leb_spec 400 (x_status ld)); [reflexivity | lia].
Qed.

Lemma callback_OnComplete_refused l evt w id ld :
  l_handler l = OnComplete ->
  _loader (this w) = Some id -> xhr_get id w = Some ld -> 400 <= x_status ld ->
  callback l evt w = w.
Proof.
  intros Hl Hlo Hx Hst. unfold callback, FileLoader.handle, FileLoader.onComplete.
  rewrite Hl, Hlo, Hx.
  destruct (Z.ltb_spec (x_status ld) 400); [lia | reflexivity].
Qed.

Section Refused.

Variable r : URLRequest.t.
Variable resource : list byte.
Hypothesis no_bytes : byteLength resource = 0.

(** The loader downloading with nothing assembled, its current exchange [x]
    asking for a range. *)
Definition refused_at (old : list XHR) (x : XHR) (w : World) : Prop :=
  wf_world w
  /\ _state (this w) = 3
  /\ _loaded (this w) = 0
  /\ _request (this w) = Some r
  /\ xhrs w = old ++ [x]
  /\ _loader (this w) = Some (length old)
  /\ (exists f, x_listeners x = chunk_listeners f)
  /\ (exists a b, request_range x = Some (a, b) /\ 0 <= a)
  /\ (exists lo lf, listeners_for online_ (window w) = [lo]
                    /\ listeners_for offline_ (window w) = [lf]).

(** The exchange has ended, or the server is refusing it. *)
Definition refusal (x : XHR) : Prop :=
  x_sendFlag x = false
  \/ ((x_readyState x = 2 \/ x_readyState x = 3) /\ x_status x = 416).

Definition refused (w : World) : Prop :=
  exists old x, refused_at old x w
                /\ (refusal x \/ (x_readyState x = 1 /\ x_status x = 0)).

Lemma response_refused x a b :
  request_range x = Some (a, b) -> 0 <= a ->
  response_status resource x = 416 /\ response_body resource x = [].
Proof.
  unfold request_range, response_status, response_body. intros -> Ha.
  destruct (Z.ltb_spec a (byteLength resource)); [lia | now split].
Qed.

Lemma refused_at_replace old x x' w w' :
  refused_at old x w -> wf_world w' ->
  this w' = this w -> window w' = window w -> xhrs w' = old ++ [x'] ->
  x_listeners x' = x_listeners x -> request_range x' = request_range x ->
  refused_at old x' w'.
Proof.
  intros (_ & Hst & Hld & Hrq & _ & Hlo & Hl & Hr & Hmon) Hwf Et Ew Ex El Er.
  split; [exact Hwf|]. rewrite Et, Ew, El, Er. now repeat (split; [assumption|]).
Qed.

Lemma wf_replace old x x' w :
  wf_world w -> xhrs w = old ++ [x] -> x_listeners x' = x_listeners x ->
  wf_world (upd_xhrs (fun _ => old ++ [x']) w).
Proof.
  intros [Hxs Hw] Hx Hls. split; [|exact Hw]. cbn. rewrite Hx in Hxs.
  apply Forall_app in Hxs as [Ho Hl]. apply Forall_app. split; [exact Ho|].
  constructor; [|constructor]. rewrite Hls. now inversion Hl.
Qed.

Lemma refused_serve_headers old x w :
  refused_at old x w -> refusal x \/ (x_readyState x = 1 /\ x_status x = 0) ->
  exists x', refused_at old x' (serve_headers resource (length old) w) /\ refusal x'.
Proof.
  intros Hat Hph.
  pose proof Hat as (Hwf & Hst & Hld & Hrq & Hx & Hlo & (f & Hl) & (a & b & Hr & Ha) & Hmon).
  pose proof (xhr_get_last w old x Hx) as Hget.
  destruct (response_refused x a b Hr Ha) as [Es Eb].
  unfold serve_headers. rewrite Hget. unfold net_headers. rewrite Hget.
  destruct (x_sendFlag x && (x_readyState x =? 1)) eqn:G.
  - apply andb_true_iff in G as [Hsf Hrs]. apply Z.eqb_eq in Hrs.
    set (x' := xhr_set_response 2 true (response_status resource x)
                 (response_length resource x) None x).
    set (w1 := upd_xhrs _ w).
    assert (Hget' : xhr_get (length old) w1 = Some x') by now apply xhr_get_altered.
    assert (Hx1 : xhrs w1 = old ++ [x']).
    { unfold w1. cbn. now rewrite Hx, alter_snoc. }
    assert (W1 : wf_world w1).
    { replace w1 with (upd_xhrs (fun _ => old ++ [x']) w)
        by (unfold w1, upd_xhrs; now rewrite Hx, alter_snoc).
      now apply (wf_replace old x). }
    erewrite dispatch_one;
      [ | reflexivity | exact Hget'
        | cbn [x_listeners xhr_set_response x']; rewrite Hl;
          apply (chunk_listeners_for f) ].
    erewrite callback_OnHTTPStatus_refused;
      [ | reflexivity | exact Hget' | reflexivity | cbn; rewrite Es; lia
        | exact Hst | exact W1 ].
    exists x'. split; [|right; split; [now left | exact Es]].
    apply (refused_at_replace old x x' w); try reflexivity; try assumption.
    apply wf_emit. apply wf_set_next_fn; [cbn; lia | exact W1].
  - exists x. split; [exact Hat|].
    destruct Hph as [H|[Hrs _]]; [exact H|]. left.
    rewrite Hrs in G. cbn in G. now rewrite andb_true_r in G.
Qed.

Lemma refused_serve_body old x w :
  refused_at old x w -> refusal x ->
  exists x', refused_at old x' (serve_body resource (length old) w) /\ refusal x'.
Proof.
  intros Hat Hph.
  pose proof Hat as (Hwf & Hst & Hld & Hrq & Hx & Hlo & (f & Hl) & (a & b & Hr & Ha) & Hmon).
  pose proof (xhr_get_last w old x Hx) as Hget.
  unfold serve_body. rewrite Hget. unfold net_load. rewrite Hget.
  destruct (x_sendFlag x && ((x_readyState x =? 2) || (x_readyState x =? 3))) eqn:G.
  2:{ exists x. now split. }
  apply andb_true_iff in G as [Hsf _].
  destruct Hph as [Hph|[Hrs Hs]]; [congruence|].
  erewrite (dispatch_one progress);
    [ | reflexivity | exact Hget | rewrite Hl; apply (chunk_listeners_for f) ].
  erewrite callback_OnProgress_refused;
    [ | reflexivity | exact Hlo | exact Hget | lia ].
  set (x' := xhr_set_response 4 false (x_status x) (x_contentLength x)
               (Some (response_body resource x)) x).
  set (w1 := upd_xhrs _ w).
  assert (Hget' : xhr_get (length old) w1 = Some x') by now apply xhr_get_altered.
  erewrite (dispatch_one readystatechange);
    [ | reflexivity | exact Hget'
      | cbn [x_listeners xhr_set_response x']; rewrite Hl; apply (chunk_listeners_for f) ].
  erewrite callback_OnHTTPStatus_idle;
    [ | reflexivity | exact Hget' | left; cbn; lia ].
  erewrite (dispatch_one load_);
    [ | reflexivity | exact Hget'
      | cbn [x_listeners xhr_set_response x']; rewrite Hl; apply (chunk_listeners_for f) ].
  erewrite callback_OnComplete_refused;
    [ | reflexivity | exact Hlo | exact Hget' | cbn; lia ].
  exists x'. split; [|now left].
  assert (E : w1 = upd_xhrs (fun _ => old ++ [x']) w)
    by (unfold w1, upd_xhrs; now rewrite Hx, alter_snoc).
  rewrite E.
  apply (refused_at_replace old x x' w); try reflexivity; try assumption.
  now apply (wf_replace old x).
Qed.

Lemma refused_net_progress old x w n :
  refused_at old x w -> refusal x ->
  exists x', refused_at old x' (net_progress (length old) n w) /\ refusal x'.
Proof.
  intros Hat Hph.
  pose proof Hat as (Hwf & Hst & Hld & Hrq & Hx & Hlo & (f & Hl) & (a & b & Hr & Ha) & Hmon).
  pose proof (xhr_get_last w old x Hx) as Hget.
  unfold net_progress. rewrite Hget.
  destruct (x_sendFlag x && ((x_readyState x =? 2) || (x_readyState x =? 3))) eqn:G.
  2:{ exists x. now split. }
  apply andb_true_iff in G as [Hsf _].
  destruct Hph as [Hph|[Hrs Hs]]; [congruence|].
  set (x' := xhr_set_response 3 true (x_status x) (x_contentLength x) None x).
  set (w1 := upd_xhrs _ w).
  assert (Hget' : xhr_get (length old) w1 = Some x') by now apply xhr_get_altered.
  erewrite (dispatch_one readystatechange);
    [ | reflexivity | exact Hget'
      | cbn [x_listeners xhr_set_response x']; rewrite Hl; apply (chunk_listeners_for f) ].
  erewrite callback_OnHTTPStatus_idle;
    [ | reflexivity | exact Hget' | left; cbn; lia ].
  erewrite (dispatch_one progress);
    [ | reflexivity | exact Hget'
      | cbn [x_listeners xhr_set_response x']; rewrite Hl; apply (chunk_listeners_for f) ].
  erewrite callback_OnProgress_refused;
    [ | reflexivity | exact Hlo | exact Hget' | cbn; lia ].
  exists x'. split; [|right; split; [now right | exact Hs]].
  assert (E : w1 = upd_xhrs (fun _ => old ++ [x']) w)
    by (unfold w1, upd_xhrs; now rewrite Hx, alter_snoc).
  rewrite E.
  apply (refused_at_replace old x x' w); try reflexivity; try assumption.
  now apply (wf_replace old x).
Qed.

Lemma refused_sliced old x w w1 :
  refused_at old x w -> wf_world w1 ->
  _loaded (this w1) = 0 -> _request (this w1) = Some r -> window w1 = window w ->
  refused (sliced r w1).
Proof.
  intros (_ & _ & _ & _ & _ & _ & _ & _ & Hmon) Hwf El Er Ew.
  exists (xhrs w1), (chunk_request r 0 (next_fn w1)). split; [|now right].
  split; [now apply wf_sliced|]. split; [reflexivity|].
  cbn [sliced this _loaded _request set_loader set_state].
  split; [exact El|]. split; [exact Er|].
  split; [cbn; now rewrite El|]. split; [reflexivity|].
  split; [now exists (next_fn w1)|].
  split; [exists 0, (0 + 204799); now split|].
  cbn [window sliced]. now rewrite Ew.
Qed.

Lemma refused_pause_resume w :
  refused w -> refused (step CallResume (step CallPause w)).
Proof.
  intros (old & x & Hat & _).
  pose proof Hat as (Hwf & Hst & Hld & Hrq & _).
  set (w0 := upd_this (set_active_disconnect true) w).
  pose proof (abort_fields callback0 w0 (wf_upd_this _ w Hwf)) as H.
  change (FileLoader.abort (FileLoader.handle callback0) w0)
    with (FileLoader.abort callback w0) in H.
  cbv zeta in H.
  remember (FileLoader.abort callback w0) as w1 eqn:Hw1.
  destruct H as (Es & El & _ & _ & _ & _ & _ & Er & _ & Wi & W).
  change (this w0) with (set_active_disconnect true (this w)) in *.
  cbn [_state _loaded _request set_active_disconnect] in Es, El, Er.
  change (window w0) with (window w) in Wi.
  assert (E1 : step CallPause w = w1).
  { cbn [step]. unfold FileLoader.pause, FileLoader.state. rewrite Hst.
    cbn [Z.eqb Pos.eqb negb world_of]. now rewrite Hw1. }
  assert (E2 : step CallResume w1 = sliced r w1).
  { cbn [step]. unfold FileLoader.resume, FileLoader.state. rewrite Es, Hst.
    cbn [Z.eqb Pos.eqb negb].
    rewrite (slice_spec callback r w1 callback_quiet) by congruence. reflexivity. }
  rewrite E1, E2. apply (refused_sliced old x w); try assumption; congruence.
Qed.

Lemma refused_emit n w : refused w -> refused (emit n w).
Proof.
  intros (old & x & (Hwf & H) & Hph). exists old, x. split; [|exact Hph].
  split; [now apply wf_emit | exact H].
Qed.

Lemma refused_reconnect w id :
  refused w -> _loader (this w) = Some id ->
  refused (win_online (net_error id (win_offline w))).
Proof.
  intros (old & x & Hat & Hph) Hid.
  pose proof Hat as (Hwf & Hst & Hld & Hrq & Hx & Hlo & (f & Hl) & _ & (lo & lf & Hon & Hoff)).
  rewrite Hlo in Hid. injection Hid as <-.
  pose proof (monitor_handler _ _ _ Hwf Hon) as Hlo'.
  pose proof (monitor_handler _ _ _ Hwf Hoff) as Hlf'.
  cbn [handler_of] in Hlo', Hlf'.
  assert (E1 : win_offline w = emit disconnection_notification w).
  { unfold win_offline, dispatch, FileLoader.fire.
    cbn [e_target event_at listeners_of]. rewrite Hoff. cbn [fold_left].
    unfold callback, FileLoader.handle at 1. now rewrite Hlf'. }
  rewrite E1. set (w1 := emit disconnection_notification w).
  assert (Hat1 : refused_at old x w1).
  { destruct Hat as (_ & H). split; [now apply wf_emit | exact H]. }
  assert (H2 : exists x2, refused_at old x2 (net_error (length old) w1)).
  { assert (Hget : xhr_get (length old) w1 = Some x) by now apply xhr_get_last.
    unfold net_error. rewrite Hget. destruct (in_flight x); [|now exists x].
    set (x4 := xhr_set_response 4 false 0 None None x).
    set (w2 := upd_xhrs _ w1).
    assert (Hget2 : xhr_get (length old) w2 = Some x4) by now apply xhr_get_altered.
    erewrite (dispatch_one readystatechange);
      [ | reflexivity | exact Hget2
        | cbn [x4 x_listeners xhr_set_response]; rewrite Hl; apply (chunk_listeners_for f) ].
    erewrite callback_OnHTTPStatus_idle;
      [ | reflexivity | exact Hget2 | left; cbn; lia ].
    erewrite dispatch_none;
      [ | reflexivity | exact Hget2
        | cbn [x4 x_listeners xhr_set_response]; rewrite Hl; apply (chunk_listeners_for f) ].
    exists x4.
    assert (E : w2 = upd_xhrs (fun _ => old ++ [x4]) w1)
      by (unfold w2, upd_xhrs; cbn [xhrs w1 emit]; now rewrite Hx, alter_snoc).
    rewrite E.
    apply (refused_at_replace old x x4 w1); try reflexivity; try assumption.
    apply (wf_replace old x); [now apply wf_emit | exact Hx | reflexivity]. }
  destruct H2 as (x2 & Hat2). set (w2 := net_error (length old) w1) in *.
  pose proof Hat2 as (Hwf2 & Hst2 & Hld2 & Hrq2 & _ & _ & _ & _ & (lo2 & lf2 & Hon2 & _)).
  pose proof (monitor_handler _ _ _ Hwf2 Hon2) as Hlo2. cbn [handler_of] in Hlo2.
  assert (E3 : win_online w2 = emit recovery_notification (sliced r w2)).
  { unfold win_online, dispatch, FileLoader.fire.
    cbn [e_target event_at listeners_of]. rewrite Hon2. cbn [fold_left].
    unfold callback, FileLoader.handle at 1. rewrite Hlo2.
    unfold FileLoader.online. rewrite Hst2. cbn [Z.eqb Pos.eqb]. unfold seq.
    now rewrite (slice_spec callback0 r w2 callback0_quiet Hrq2). }
  rewrite E3. apply refused_emit.
  now apply (refused_sliced old x2 w2).
Qed.

Lemma act_refused a w : refused w -> refused (act resource a w).
Proof.
  intros Hr. pose proof Hr as (old & x & Hat & Hph).
  pose proof Hat as (_ & _ & _ & _ & _ & Hlo & _).
  unfold act. rewrite Hlo. destruct a as [|n| |].
  - unfold serve.
    destruct (refused_serve_headers old x w Hat Hph) as (x1 & Hat1 & Hph1).
    destruct (refused_serve_body old x1 _ Hat1 Hph1) as (x2 & Hat2 & Hph2).
    exists old, x2. split; [exact Hat2 | now left].
  - destruct (refused_serve_headers old x w Hat Hph) as (x1 & Hat1 & Hph1).
    destruct (refused_net_progress old x1 _ n Hat1 Hph1) as (x2 & Hat2 & Hph2).
    exists old, x2. split; [exact Hat2 | now left].
  - now apply refused_pause_resume.
  - now apply refused_reconnect.
Qed.

(** Whatever the script, the loader stays in state 3. *)
Lemma run_script_refused script : forall w,
  refused w -> refused (run_script resource script w).
Proof.
  induction script as [|a script IH]; intros w Hr; [exact Hr|].
  cbn. destruct (FileLoader.state w =? 3); [|exact Hr].
  apply IH. now apply act_refused.
Qed.

Lemma discovered_refused : refused (discovered r (decimal (byteLength resource))).
Proof.
  exists [xhr_set_response 0 false 0 None None (header_request r)], (chunk_request r 0 10).
  split; [|now right].
  split. { split; cbn; repeat constructor; cbn; lia. }
  split; [reflexivity|]. split; [reflexivity|]. split; [reflexivity|].
  split; [reflexivity|]. split; [reflexivity|].
  split; [now exists 10%nat|].
  split; [exists 0, (0 + 204799); now split|].
  eexists _, _. split; reflexivity.
Qed.

End Refused.

(** ** The same resource through a URLLoader *)

(** The server's answer to the request of a URLLoader that asked for an
    arraybuffer: headers, then the whole body. *)
Definition binary_answer (JSON_parse : string -> option Json) (resource : list byte)
    (w : URLLoader.World) : URLLoader.World :=
  let hs := URLLoader.x_requestHeaders (URLLoader.xhr w) in
  let status := match range_of hs with
                | None => 200
                | Some (a, _) => if a <? byteLength resource then 206 else 416
                end in
  let body := match range_of hs with
              | None => resource
              | Some (a, b) =>
                  if a <? byteLength resource then bytes_between resource a b else []
              end in
  let w := URLLoader.net_headers JSON_parse status w in
  URLLoader.net_load JSON_parse (byteLength body) (byteLength body) (RBuffer body) w.

(** [new URLLoader(r)], [dataFormat = LoaderDataFormat.BINARY], [load()], and
    the server's answer. *)
Definition whole_fetch (JSON_parse : string -> option Json) (r : URLRequest.t)
    (resource : list byte) : URLLoader.World :=
  let w := URLLoader.new_URLLoader (Some r) in
  let w := URLLoader.world_of (URLLoader.set_dataFormat LoaderDataFormat.BINARY w) in
  let w := URLLoader.world_of (URLLoader.load JSON_parse None w) in
  binary_answer JSON_parse resource w.

Lemma URLLoader_setRequestHeaders_fold hs : forall t x nf ts nt em un,
  fold_left (fun w' item => URLLoader.xhr_setRequestHeader (fst item) (snd item) w') hs
    {| URLLoader.this := t; URLLoader.xhr := x; URLLoader.next_fn := nf;
       URLLoader.timers := ts; URLLoader.next_timer := nt;
       URLLoader.emitted := em; URLLoader.uncaught := un |}
  = {| URLLoader.this := t;
       URLLoader.xhr :=
         URLLoader.xhr_with_request (URLLoader.x_method x) (URLLoader.x_url x)
           (URLLoader.x_requestHeaders x ++ hs)
           (URLLoader.x_responseType x) (URLLoader.x_body x) x;
       URLLoader.next_fn := nf; URLLoader.timers := ts; URLLoader.next_timer := nt;
       URLLoader.emitted := em; URLLoader.uncaught := un |}.
Proof.
  induction hs as [|[name v] hs IH]; intros t x nf ts nt em un.
  - cbn. rewrite app_nil_r. now destruct x.
  - cbn [fold_left fst snd].
    change (URLLoader.xhr_setRequestHeader name v ?w)
      with (URLLoader.upd_xhr (fun x =>
              URLLoader.xhr_with_request (URLLoader.x_method x) (URLLoader.x_url x)
                (URLLoader.x_requestHeaders x ++ [(name, v)])
                (URLLoader.x_responseType x) (URLLoader.x_body x) x) w).
    unfold URLLoader.upd_xhr at 1.
    cbn [URLLoader.this URLLoader.xhr URLLoader.next_fn URLLoader.timers
         URLLoader.next_timer URLLoader.emitted URLLoader.uncaught].
    rewrite IH. cbn. now rewrite <- app_assoc.
Qed.

(** [onProgress] for the progress event that ends a body of known length. *)
Lemma URLLoader_onProgress_last evt w :
  URLLoader._xhr (URLLoader.this w) = true ->
  (URLLoader.x_readyState (URLLoader.xhr w) <? 2) = false ->
  (400 <=? URLLoader.x_status (URLLoader.xhr w)) = false ->
  URLLoader.bytesTotal w = 0 -> e_loaded evt = e_total evt ->
  exists em,
    URLLoader.onProgress evt w
    = URLLoader.Done
        {| URLLoader.this :=
             URLLoader.set_total (e_total evt)
               (URLLoader.set_loaded (e_total evt) (URLLoader.this w));
           URLLoader.xhr := URLLoader.xhr w;
           URLLoader.next_fn := URLLoader.next_fn w;
           URLLoader.timers := URLLoader.timers w;
           URLLoader.next_timer := URLLoader.next_timer w;
           URLLoader.emitted := em;
           URLLoader.uncaught := URLLoader.uncaught w |}.
Proof.
  intros Hx Hrs Hst Ht He. unfold URLLoader.onProgress.
  rewrite Hx, Hrs, Hst. cbn [negb].
  unfold URLLoader.bytesTotal in *. cbn [URLLoader.upd_this URLLoader.this
    URLLoader.set_loaded URLLoader._total URLLoader._loaded]. rewrite Ht, He.
  cbn [Z.eqb URLLoader.upd_this URLLoader.this URLLoader.set_total URLLoader._total
       URLLoader.bytesLoaded URLLoader._loaded URLLoader.set_loaded
       URLLoader.xhr URLLoader.next_fn URLLoader.timers URLLoader.next_timer
       URLLoader.emitted URLLoader.uncaught].
  destruct ((e_total evt =? 0) || (e_total evt <? e_total evt)); eexists; reflexivity.
Qed.

Lemma whole_fetch_data JSON_parse r resource :
  range_of (URLRequest.requestHeaders r) = None ->
  URLLoader.data (whole_fetch JSON_parse r resource) = RBuffer resource
  /\ URLLoader.x_responseType (URLLoader.xhr (whole_fetch JSON_parse r resource))
     = "arraybuffer".
Proof.
  intros whole. unfold whole_fetch. cbv zeta.
  evaluate (URLLoader.world_of
              (URLLoader.set_dataFormat LoaderDataFormat.BINARY
                 (URLLoader.new_URLLoader (Some r)))).
  unfold URLLoader.load. cbv iota beta zeta.
  cbn [URLLoader.this URLLoader._xhr URLLoader._request URLLoader.timeout
       URLLoader._timeout Z.eqb negb].
  match goal with |- context [fold_left ?f ?hs ?w0] => evaluate w0 end.
  rewrite URLLoader_setRequestHeaders_fold.
  cbn [URLLoader.world_of].
  unfold binary_answer.
  match goal with
  | |- context [range_of ?hs] =>
      replace (range_of hs) with (@None (Z * Z)) by (cbn; now rewrite whole)
  end.
  cbv iota beta zeta.
  match goal with
  | |- context [URLLoader.net_headers ?p ?st ?w0] =>
      evaluate (URLLoader.net_headers p st w0)
  end.
  unfold URLLoader.net_load.
  match goal with
  | |- context [if ?g then _ else _] => replace g with true by (vm_compute; reflexivity)
  end.
  cbv zeta.
  match goal with
  | |- context [URLLoader.fire ?p progress ?evt ?w0] =>
      destruct (URLLoader_onProgress_last evt w0) as [em E]; try reflexivity;
      replace (URLLoader.fire p progress evt w0)
        with (match URLLoader.onProgress evt w0 with
              | URLLoader.Done w' => w'
              | URLLoader.Thrown e w' => URLLoader.report e w'
              end)
        by reflexivity;
      rewrite E
  end.
  generalize (byteLength resource). intros n.
  vm_compute. split; reflexivity.
Qed.

(** ** Whole transfers *)

Lemma deliver_step r resource k w script :
  chunking r resource k w ->
  exists id, _loader (this w) = Some id
             /\ run_script resource (Deliver :: script) w
                = run_script resource script (serve resource id w).
Proof.
  intros (_ & Hst & _ & _ & _ & _ & _ & (old & x & _ & Hlo & _) & _).
  exists (length old). split; [exact Hlo|].
  cbn [run_script]. unfold FileLoader.state, act. now rewrite Hst, Hlo.
Qed.

(** The transfer of 500000 bytes when the server answers each exchange in
    full. *)
Lemma three_deliveries r resource :
  range_of (URLRequest.requestHeaders r) = None ->
  byteLength resource = 500000 ->
  let w := transfer r resource [Deliver; Deliver; Deliver] in
  let total := JStr (decimal 500000) in
  ranges w = [None; Some (0, 204799); Some (204800, 409599); Some (409600, 614399)]
  /\ finished resource w
  /\ emitted w = [START_notification;
                  PROGRESS_notification 204800 total;
                  PROGRESS_notification 409600 total;
                  PROGRESS_notification 500000 total;
                  COMPLETE_notification (Some resource)].
Proof.
  intros whole Hlen w total. unfold w, total. clear w total.
  rewrite (transfer_start r resource whole).
  destruct (discovered_chunking r resource whole ltac:(lia)) as [H0 R0].
  set (w0 := discovered r (decimal (byteLength resource))) in *.
  assert (E0 : emitted w0 = [START_notification]) by reflexivity.
  destruct (deliver_step r resource 0 w0 [Deliver; Deliver] H0) as (i0 & L0 & ->).
  destruct (deliver_chunk r resource 0 w0 i0 H0 L0) as [(_ & H1 & R1 & E1)|(F & _)]; [|lia].
  set (w1 := serve resource i0 w0) in *.
  destruct (deliver_step r resource _ w1 [Deliver] H1) as (i1 & L1 & ->).
  destruct (deliver_chunk r resource _ w1 i1 H1 L1) as [(_ & H2 & R2 & E2)|(F & _)]; [|lia].
  set (w2 := serve resource i1 w1) in *.
  destruct (deliver_step r resource _ w2 [] H2) as (i2 & L2 & ->).
  destruct (deliver_chunk r resource _ w2 i2 H2 L2) as [(F & _)|(_ & H3 & R3 & E3)]; [lia|].
  cbn [run_script].
  split; [|split].
  - rewrite R3, R2, R1, R0. reflexivity.
  - now apply (deliver_finished r resource (0 + 204800 + 204800) w2 i2).
  - rewrite E3, E2, E1, E0, Hlen. reflexivity.
Qed.

Definition demo_request : URLRequest.t :=
  URLRequest.initialize (Some "http://127.0.0.1/test.zip").

(** A resource of 500000 bytes. *)
Definition demo_500000 : list byte := replicate (Z.to_nat 500000) "a"%byte.

Lemma demo_500000_length : byteLength demo_500000 = 500000.
Proof. unfold byteLength, demo_500000. rewrite length_replicate. reflexivity. Qed.

(** C1 (as the spec words it, at a concrete transfer).  The third ranged
    request of the transfer of 500000 bytes asks for bytes 409600-614399: the
    Range header is not clipped to the length of the resource, so the
    requests are not the three of the scenario. *)
Lemma third_range_is_not_clipped :
  ranges (transfer demo_request demo_500000 [Deliver; Deliver; Deliver]) !! 3%nat
  = Some (Some (409600, 614399))
  /\ ranges (transfer demo_request demo_500000 [Deliver; Deliver; Deliver])
     <> [None; Some (0, 204799); Some (204800, 409599); Some (409600, 499999)].
Proof.
  destruct (three_deliveries demo_request demo_500000 eq_refl demo_500000_length)
    as (R & _).
  rewrite R. split; [reflexivity | discriminate].
Qed.

(** C1 (amended).  For a resource of 500000 bytes and a request for the whole
    of it, when the server answers each exchange in full: after the header
    exchange the loader issues exactly three ranged requests, for bytes
    0-204799, 204800-409599 and 409600-614399 (the server answers the last
    with the 90400 bytes that exist); it then is in state 4 and has emitted
    exactly one COMPLETE notification, whose data is the resource, of length
    500000. *)
Theorem three_ranged_requests_for_500000 :
  forall r resource,
    range_of (URLRequest.requestHeaders r) = None ->
    byteLength resource = 500000 ->
    let w := transfer r resource [Deliver; Deliver; Deliver] in
    ranges w = [None; Some (0, 204799); Some (204800, 409599); Some (409600, 614399)]
    /\ byteLength (bytes_between resource 409600 614399) = 90400
    /\ FileLoader.state w = 4
    /\ FileLoader.data w = Some resource
    /\ exists d,
         List.filter is_COMPLETE (emitted w) = [COMPLETE_notification (Some d)]
         /\ byteLength d = 500000.
Proof.
  intros r resource whole Hlen w.
  destruct (three_deliveries r resource whole Hlen) as (R & [(Hs & _ & Hd & _) Hc] & _).
  fold w in R, Hs, Hd, Hc.
  split; [exact R|]. split.
  { change 614399 with (409600 + 204799). rewrite bytes_between_length; lia. }
  split; [exact Hs|]. split; [exact Hd|].
  exists resource. now split.
Qed.

Lemma three_ranged_requests_for_500000_witness :
  range_of (URLRequest.requestHeaders demo_request) = None
  /\ byteLength demo_500000 = 500000
  /\ ranges (transfer demo_request demo_500000 [Deliver; Deliver; Deliver])
     = [None; Some (0, 204799); Some (204800, 409599); Some (409600, 614399)].
Proof.
  split; [reflexivity|]. split; [exact demo_500000_length|].
  apply (three_ranged_requests_for_500000 demo_request demo_500000);
    [reflexivity | exact demo_500000_length].
Defined.

(** X1.  Transfers in which every new exchange is issued after the one
    before it has ended.  For a request for the whole of a resource, whatever
    its length and whatever happens on the way (answers of the server, parts
    of a body, [pause()] followed at once by [resume()], loss of the network
    with the failure of the exchange and then its return, in any number and
    order): if the loader is in state 4, its data is the resource, byte for
    byte, as is the data of a URLLoader that fetched the resource in binary
    format in one exchange, and exactly one COMPLETE notification was
    emitted, carrying that data.  And when the resource has at least one
    byte, state 4 is reached once the server has answered often enough. *)
Theorem chunked_transfer_equals_whole_fetch :
  forall JSON_parse r resource,
    range_of (URLRequest.requestHeaders r) = None ->
    (forall script,
       let w := transfer r resource script in
       FileLoader.state w = 4 ->
       FileLoader.data w = Some resource
       /\ URLLoader.data (whole_fetch JSON_parse r resource) = RBuffer resource
       /\ List.filter is_COMPLETE (emitted w) = [COMPLETE_notification (Some resource)])
    /\ (0 < byteLength resource ->
        exists n, forall script,
          FileLoader.state (transfer r resource (script ++ replicate n Deliver)) = 4).
Proof.
  intros JSON_parse r resource whole. split.
  - intros script w Hst. unfold w in *. clear w.
    rewrite (transfer_start r resource whole) in *.
    destruct (Z_lt_le_dec 0 (byteLength resource)) as [Hlen|Hlen].
    + destruct (discovered_chunking r resource whole Hlen) as [H0 _].
      destruct (run_script_chunking r resource script 0 _ H0)
        as [[k (_ & H3 & _)]|[(_ & _ & Hd & _) Hc]].
      * unfold FileLoader.state in Hst. congruence.
      * split; [exact Hd|]. split; [|exact Hc].
        apply (whole_fetch_data JSON_parse r resource whole).
    + pose proof (byteLength_nonneg resource).
      assert (E : byteLength resource = 0) by lia.
      pose proof (run_script_refused r resource E script _ (discovered_refused r resource))
        as (old & x & (_ & H3 & _) & _).
      unfold FileLoader.state in Hst. congruence.
  - intros Hlen. exists (Z.to_nat (byteLength resource / 204800 + 1)). intros script.
    destruct (transfer_finishes r resource whole script Hlen) as [(Hs & _) _].
    exact Hs.
Qed.

Lemma chunked_transfer_equals_whole_fetch_witness :
  range_of (URLRequest.requestHeaders demo_request) = None
  /\ (0 < byteLength demo_500000 ->
      exists n, forall script,
        FileLoader.state
          (transfer demo_request demo_500000 (script ++ replicate n Deliver)) = 4).
Proof.
  split; [reflexivity|].
  exact (proj2 (chunked_transfer_equals_whole_fetch (fun _ => None)
                  demo_request demo_500000 eq_refl)).
Defined.

(** ** C9: the listeners of an aborted exchange *)

Lemma listeners_aborted x : x_listeners (aborted x) = x_listeners x.
Proof. unfold aborted. now destruct (in_flight x || (x_readyState x =? 4)). Qed.

(** [abort] leaves every listener where it was, and its two exchanges not in
    flight. *)
Lemma abort_listeners w :
  wf_world w ->
  let w' := FileLoader.abort callback w in
  map x_listeners (xhrs w') = map x_listeners (xhrs w)
  /\ window w' = window w
  /\ this w' = set_active_disconnect (_active_disconnect (this w')) (this w)
  /\ forall id x,
       _loader (this w) = Some id \/ _xhr (this w) = Some id ->
       xhrs w' !! id = Some x -> in_flight x = false.
Proof.
  intros Hwf w'.
  destruct (abort_spec callback0 w Hwf) as [(T & X & Wi & _) _].
  change (FileLoader.abort (FileLoader.handle callback0) w) with w' in T, X, Wi.
  cbn [xhrs window this upd_xhrs] in T, X, Wi.
  split; [|split; [exact Wi|split; [exact T|]]].
  - rewrite X.
    destruct (_loader (this w)), (_xhr (this w)); cbn [alter_opt];
      rewrite ?(map_alter_same x_listeners aborted) by apply listeners_aborted;
      reflexivity.
  - intros id x Hid Hx. rewrite X in Hx.
    destruct Hid as [Hid|Hid]; rewrite Hid in Hx; cbn [alter_opt] in Hx.
    + rewrite list_lookup_alter_eq in Hx.
      destruct (alter_opt aborted (_xhr (this w)) (xhrs w) !! id); [|discriminate].
      injection Hx as <-. apply aborted_not_in_flight.
    + destruct (_loader (this w)) as [lid|]; cbn [alter_opt] in Hx.
      * destruct (Nat.eq_dec lid id) as [->|Hne].
        -- rewrite list_lookup_alter_eq in Hx.
           destruct (alter aborted id (xhrs w) !! id); [|discriminate].
           injection Hx as <-. apply aborted_not_in_flight.
        -- rewrite list_lookup_alter_ne in Hx by exact Hne.
           rewrite list_lookup_alter_eq in Hx.
           destruct (xhrs w !! id); [|discriminate].
           injection Hx as <-. apply aborted_not_in_flight.
      * rewrite list_lookup_alter_eq in Hx.
        destruct (xhrs w !! id); [|discriminate].
        injection Hx as <-. apply aborted_not_in_flight.
Qed.

(** C9 (the code).  [abort], and so [pause()] and [close()], deregisters
    nothing: each call of [removeEventListener] is given a function object
    that [bind] has just made, which no listener list holds.  After the
    call every exchange, the aborted ones included, has the listeners it had,
    and so has [window]; the exchanges that [abort] ended are not in flight. *)
Theorem abort_deregisters_nothing :
  forall w,
    wf_world w ->
    (forall w',
       w' = FileLoader.abort callback w
       \/ w' = step CallPause w \/ w' = step CallClose w ->
       map x_listeners (xhrs w') = map x_listeners (xhrs w)
       /\ window w' = window w)
    /\ (forall id x,
          _loader (this w) = Some id \/ _xhr (this w) = Some id ->
          xhrs (FileLoader.abort callback w) !! id = Some x ->
          in_flight x = false /\ Some (x_listeners x) = x_listeners <$> xhrs w !! id).
Proof.
  intros w Hwf.
  destruct (abort_listeners w Hwf) as (L & Wi & _ & F). split.
  - intros w' [->|[->| ->]].
    + now split.
    + cbn [step]. unfold FileLoader.pause.
      destruct (negb (FileLoader.state w =? 3)); [now split|]. cbn [world_of].
      destruct (abort_listeners (upd_this (set_active_disconnect true) w)
                  (wf_upd_this _ w Hwf)) as (L' & Wi' & _).
      now split.
    + cbn [step]. unfold FileLoader.close, seq, lift. cbn [world_of].
      unfold FileLoader.reset. cbn [xhrs window upd_this]. now split.
  - intros id x Hid Hx. split; [now apply (F id x)|].
    assert (E : map x_listeners (xhrs (FileLoader.abort callback w)) !! id
                = Some (x_listeners x)).
    { rewrite list_lookup_fmap, Hx. reflexivity. }
    rewrite L, list_lookup_fmap in E. now rewrite E.
Qed.

(** The loader downloading the first chunk of 500000 bytes. *)
Definition demo_downloading : World := discovered demo_request "500000".

Lemma demo_downloading_wf : wf_world demo_downloading.
Proof. split; cbn; repeat constructor; cbn; lia. Qed.

Lemma abort_deregisters_nothing_witness :
  wf_world demo_downloading
  /\ map x_listeners (xhrs (step CallPause demo_downloading))
     = [header_listeners 0; chunk_listeners 10]
  /\ window (step CallPause demo_downloading) = window demo_downloading.
Proof.
  split; [exact demo_downloading_wf|].
  exact (proj1 (abort_deregisters_nothing demo_downloading demo_downloading_wf)
           (step CallPause demo_downloading) (or_intror (or_introl eq_refl))).
Defined.

(** ** C3: progress beyond the total *)

(** C3 (the code).  [onProgress] of the FileLoader has no test on the counts:
    a progress event that brings the bytes loaded beyond the known total is
    reported, in a PROGRESS notification whose [loaded] exceeds its [total].
    The URLLoader returns on such an event without a notification. *)
Theorem onProgress_reports_overrun :
  forall l w id ld received n,
    l_handler l = OnProgress ->
    _loader (this w) = Some id ->
    xhr_get id w = Some ld ->
    2 <= x_readyState ld ->
    x_status ld < 400 ->
    ToNumber (FileLoader.bytesTotal w) = Some n ->
    n < FileLoader.bytesLoaded w + received ->
    emitted (callback l (progress_event id received ld) w)
    = emitted w ++ [PROGRESS_notification (FileLoader.bytesLoaded w + received)
                      (FileLoader.bytesTotal w)]
    /\ js_lt (FileLoader.bytesLoaded w + received) (FileLoader.bytesTotal w) = false
    /\ forall uw evt,
         URLLoader._xhr (URLLoader.this uw) = true ->
         2 <= URLLoader.x_readyState (URLLoader.xhr uw) ->
         URLLoader.x_status (URLLoader.xhr uw) < 400 ->
         URLLoader.bytesTotal uw <> 0 ->
         URLLoader.bytesTotal uw < e_loaded evt ->
         exists uw',
           URLLoader.onProgress evt uw = URLLoader.Done uw'
           /\ URLLoader.emitted uw' = URLLoader.emitted uw.
Proof.
  intros l w id ld received n Hl Hlo Hx Hrs Hst Hn Hover. split; [|split].
  - rewrite (callback_OnProgress l _ w id ld Hl Hlo Hx Hrs Hst). reflexivity.
  - unfold js_lt. rewrite Hn. apply Z.ltb_ge. lia.
  - intros uw evt Hu Hurs Hust Ht Hov. unfold URLLoader.onProgress.
    rewrite Hu. cbn [negb].
    destruct (Z.ltb_spec (URLLoader.x_readyState (URLLoader.xhr uw)) 2); [lia|].
    destruct (Z.leb_spec 400 (URLLoader.x_status (URLLoader.xhr uw))); [lia|].
    cbv zeta.
    set (uw1 := URLLoader.upd_this (URLLoader.set_loaded (e_loaded evt)) uw).
    assert (E1 : URLLoader.bytesTotal uw1 = URLLoader.bytesTotal uw) by reflexivity.
    assert (E2 : URLLoader.bytesLoaded uw1 = e_loaded evt) by reflexivity.
    assert (E3 : (URLLoader.bytesTotal uw1 =? 0) = false) by (apply Z.eqb_neq; congruence).
    rewrite E3. rewrite E3, E1, E2.
    destruct (Z.ltb_spec (URLLoader.bytesTotal uw) (e_loaded evt)); [|lia].
    cbn [orb]. exists uw1. split; reflexivity.
Qed.

(** The loader whose total is 100 bytes, its first chunk exchange receiving. *)
Definition demo_exchange : XHR :=
  xhr_set_response 3 true 206 (Some "100") None (chunk_request demo_request 0 10).

Definition demo_receiving : World :=
  upd_xhrs (alter (fun _ => demo_exchange) 1%nat) (discovered demo_request "100").

Lemma onProgress_reports_overrun_witness :
  (_loader (this demo_receiving) = Some 1%nat
   /\ xhr_get 1 demo_receiving = Some demo_exchange
   /\ 2 <= x_readyState demo_exchange
   /\ x_status demo_exchange < 400
   /\ ToNumber (FileLoader.bytesTotal demo_receiving) = Some 100
   /\ 100 < FileLoader.bytesLoaded demo_receiving + 150)
  /\ emitted (callback {| l_type := progress; l_fn := 10; l_handler := OnProgress |}
                (progress_event 1 150 demo_exchange) demo_receiving)
     = emitted demo_receiving ++ [PROGRESS_notification 150 (JStr "100")].
Proof.
  split.
  - split; [reflexivity|]. split; [reflexivity|]. split; [cbn; lia|].
    split; [cbn; lia|]. split; [reflexivity | cbn; lia].
  - exact (proj1 (onProgress_reports_overrun
                    {| l_type := progress; l_fn := 10; l_handler := OnProgress |}
                    demo_receiving 1%nat demo_exchange 150 100
                    eq_refl eq_refl eq_refl ltac:(cbn; lia) ltac:(cbn; lia)
                    eq_refl ltac:(cbn; lia))).
Defined.

(** ** The theorems at concrete loaders *)

(** The loader whose total is 3 bytes, the answer to its first chunk exchange
    complete. *)
Definition demo_answered : XHR :=
  xhr_set_response 4 false 206 (Some "3") (Some ["a"; "b"; "c"]%byte)
    (chunk_request demo_request 0 10).

Definition demo_last_chunk : World :=
  upd_xhrs (alter (fun _ => demo_answered) 1%nat) (discovered demo_request "3").

Lemma onComplete_completes_or_continues_witness :
  (_loader (this demo_last_chunk) = Some 1%nat
   /\ xhr_get 1 demo_last_chunk = Some demo_answered
   /\ x_status demo_answered < 400
   /\ x_response demo_answered = Some ["a"; "b"; "c"]%byte
   /\ _request (this demo_last_chunk) = Some demo_request
   /\ byteLength (buffer (FileLoader.data demo_last_chunk))
      = FileLoader.bytesLoaded demo_last_chunk
   /\ ToNumber (FileLoader.bytesTotal demo_last_chunk) = Some 3)
  /\ exists w',
       FileLoader.onComplete callback0 (event_at (TXhr 1)) demo_last_chunk = Done w'
       /\ FileLoader.data w' = Some ["a"; "b"; "c"]%byte
       /\ FileLoader.bytesLoaded w' = 3.
Proof.
  split.
  - repeat split; cbn; lia.
  - destruct (onComplete_completes_or_continues callback0 (event_at (TXhr 1))
                demo_last_chunk 1%nat demo_answered ["a"; "b"; "c"]%byte demo_request 3
                callback0_quiet eq_refl eq_refl ltac:(cbn; lia) eq_refl eq_refl
                eq_refl eq_refl) as (w' & H1 & H2 & H3 & _).
    exists w'. split; [exact H1|]. split; [exact H2 | exact H3].
Defined.

Lemma demo_discovering : discovering (opened demo_request).
Proof.
  exists (header_request demo_request). split; [|repeat split].
  split; [reflexivity|]. split; [exists 0%nat; split; [reflexivity | cbn; lia]|].
  split; [reflexivity|]. split; [reflexivity | cbn; lia].
Qed.

Lemma headers_without_length_stop_witness :
  discovering (opened demo_request)
  /\ 200 <= 200 < 300
  /\ emitted (step (NetHeaders 0 200 None) (opened demo_request))
     = emitted (opened demo_request) ++ [ERROR_1001].
Proof.
  split; [exact demo_discovering|]. split; [lia|].
  exact (proj1 (headers_without_length_stop (opened demo_request) 200
                  demo_discovering ltac:(lia))).
Defined.

Lemma pause_resume_restarts_at_loaded_witness :
  wf_world demo_downloading
  /\ _request (this demo_downloading) = Some demo_request
  /\ FileLoader.state demo_downloading = 3
  /\ exists w1 w2 f,
       FileLoader.pause callback demo_downloading = Done w1
       /\ FileLoader.resume callback w1 = Done w2
       /\ FileLoader.bytesLoaded w2 = FileLoader.bytesLoaded demo_downloading
       /\ xhrs w2
          = xhrs w1 ++ [chunk_request demo_request
                          (FileLoader.bytesLoaded demo_downloading) f].
Proof.
  split; [exact demo_downloading_wf|]. split; [reflexivity|]. split; [reflexivity|].
  destruct (proj2 pause_resume_restarts_at_loaded demo_downloading demo_request
              demo_downloading_wf eq_refl eq_refl)
    as (w1 & w2 & f & H1 & H2 & H3 & _ & _ & _ & _ & _ & H4 & _).
  exists w1, w2, f. split; [exact H1|]. split; [exact H2|]. split; [exact H3 | exact H4].
Defined.

Lemma online_signal_resumes_witness :
  _request (this demo_downloading) = Some demo_request
  /\ listeners_for online_ (window demo_downloading)
     = [{| l_type := online_; l_fn := 14; l_handler := Online |}]
  /\ FileLoader.state demo_downloading = 3
  /\ win_online demo_downloading
     = emit recovery_notification (sliced demo_request demo_downloading).
Proof.
  split; [reflexivity|]. split; [reflexivity|]. split; [reflexivity|].
  exact (proj1 (proj2 (proj1 (online_signal_resumes demo_downloading demo_request
                                {| l_type := online_; l_fn := 14; l_handler := Online |}
                                eq_refl eq_refl eq_refl) eq_refl))).
Defined.

(** ** C8: an exchange that is superseded while in flight *)

(** The chunk was appended twice: the loader is in state 4 with the bytes of
    the resource twice over, more than [bytesTotal], and COMPLETE was emitted
    twice. *)
Definition appended_twice (resource : list byte) (w : World) : Prop :=
  FileLoader.state w = 4
  /\ FileLoader.data w = Some (resource ++ resource)
  /\ FileLoader.bytesLoaded w = 2 * byteLength resource
  /\ FileLoader.bytesTotal w = JStr (decimal (byteLength resource))
  /\ List.filter is_COMPLETE (emitted w)
     = [COMPLETE_notification (Some resource);
        COMPLETE_notification (Some (resource ++ resource))].

(** C8 (the code).  [slice] makes a new XMLHttpRequest the current one
    without ending the one in flight, and [onComplete] reads the response of
    [this._loader], whichever exchange the load event belongs to.  So when
    [resume()] is called without a [pause()] before it, when the online
    signal arrives while the chunk exchange is alive, or when [pause()] is
    followed by the online signal and then [resume()], two exchanges for the
    same chunk are in flight; once the server has answered the newer and then
    the older one, the response of the newer one has been appended twice.
    For a resource of three bytes the data at the second COMPLETE is six
    bytes, while a URLLoader that fetches the resource in one exchange has
    the three. *)
Theorem superseded_exchange_appends_twice :
  forall JSON_parse url,
    let r := URLRequest.initialize url in
    let resource := ["a"; "b"; "c"]%byte in
    let w0 := transfer r resource [] in
    URLLoader.data (whole_fetch JSON_parse r resource) = RBuffer resource
    /\ map in_flight (xhrs (step CallResume w0)) = [false; true; true]
    /\ appended_twice resource
         (serve resource 1 (serve resource 2 (step CallResume w0)))
    /\ appended_twice resource
         (serve resource 1 (serve resource 2 (step WinOnline w0)))
    /\ appended_twice resource
         (serve resource 2
            (serve resource 3
               (step CallResume (step WinOnline (step CallPause w0))))).
Proof.
  intros JSON_parse url r resource w0. split.
  - apply (whole_fetch_data JSON_parse r resource). reflexivity.
  - unfold w0, r, resource, appended_twice. clear. vm_compute. repeat split.
Qed.

(** * Further properties of the loaders *)

(** ** The header exchange fails *)

(** X2.  The header response has an error status: one ERROR notification with
    that status as its code, classified as a server or a request error; the
    loader is in state 2, and no chunk exchange is issued, then or later. *)
Theorem header_error_status_stops :
  forall w status contentLength,
    discovering w ->
    400 <= status ->
    let w1 := step (NetHeaders 0 status contentLength) w in
    emitted w1 = emitted w ++ [ERROR_notification status]
    /\ n_desc (ERROR_notification status)
       = Some (if 500 <=? status then "server error" else "request error")
    /\ FileLoader.state w1 = 2
    /\ forall inputs,
         Forall not_load inputs ->
         length (xhrs (run inputs w1)) = 1%nat
         /\ _loader (this (run inputs w1)) = None.
Proof.
  intros w status contentLength Hd Hstatus w1.
  assert (H : stalled w1 /\ emitted w1 = emitted w ++ [ERROR_notification status]
              /\ FileLoader.state w1 = 2).
  { unfold w1. clear w1. cbn [step].
    destruct Hd as (x & (Hx & (f & Hl & Hf) & Hwin & Hld & Hst) & Hxhr & Hsf & Hrs).
    destruct w as [t xs win nf em un].
    destruct t as [st ld tot dat dfm tmo xh lo ad rq].
    destruct x as [rs sf xst cl resp me ur hs rt bo ls].
    cbn in Hx, Hl, Hf, Hwin, Hld, Hst, Hxhr, Hsf, Hrs. subst.
    assert (E1 : (status =? 0) = false) by (apply Z.eqb_neq; lia).
    assert (E2 : (400 <=? status) = true) by (apply Z.leb_le; lia).
    unfold net_headers. hsimpl. hcbn. rewrite E1, E2.
    unfold FileLoader.rline, ERROR_notification.
    destruct (st <? 2) eqn:E4; hsimpl; hcbn.
    - split; [|split; reflexivity].
      eexists. split; [repeat split; cbn; try reflexivity; try lia;
                       exists f; split; [reflexivity|cbn; lia] | reflexivity].
    - apply Z.ltb_ge in E4. assert (st = 2) by lia. subst st.
      split; [|split; reflexivity].
      eexists. split; [repeat split; cbn; try reflexivity; try lia;
                       exists f; split; [reflexivity|cbn; lia] | reflexivity]. }
  destruct H as (Hs & He & H2).
  split; [exact He|]. split; [reflexivity|]. split; [exact H2|].
  intros inputs Hi.
  destruct (stalled_run inputs w1 Hs Hi) as [(x & (Hx & _ & _ & Hlo & _) & _) _].
  rewrite Hx. now split.
Qed.

Lemma header_error_status_stops_witness :
  discovering (opened demo_request)
  /\ 400 <= 404
  /\ emitted (step (NetHeaders 0 404 None) (opened demo_request))
     = emitted (opened demo_request) ++ [ERROR_notification 404].
Proof.
  split; [exact demo_discovering|]. split; [lia|].
  exact (proj1 (header_error_status_stops (opened demo_request) 404 None
                  demo_discovering ltac:(lia))).
Defined.

Definition ERROR_1000 : Notification :=
  with_desc "network error"
    (notification LoaderEvent.ERROR (CodeNum 1000) EventLevel.ERROR).

(** X3.  The header exchange fails in the network: one ERROR notification with
    code 1000; the loader's state is as before, and no chunk exchange is
    issued, then or later. *)
Theorem header_network_error_stops :
  forall w,
    discovering w ->
    let w1 := step (NetError 0) w in
    emitted w1 = emitted w ++ [ERROR_1000]
    /\ FileLoader.state w1 = FileLoader.state w
    /\ forall inputs,
         Forall not_load inputs ->
         length (xhrs (run inputs w1)) = 1%nat
         /\ _loader (this (run inputs w1)) = None.
Proof.
  intros w Hd w1.
  assert (H : stalled w1 /\ emitted w1 = emitted w ++ [ERROR_1000]
              /\ FileLoader.state w1 = FileLoader.state w).
  { unfold w1. clear w1. cbn [step].
    destruct Hd as (x & (Hx & (f & Hl & Hf) & Hwin & Hld & Hst) & Hxhr & Hsf & Hrs).
    destruct w as [t xs win nf em un].
    destruct t as [st ld tot dat dfm tmo xh lo ad rq].
    destruct x as [rs sf xst cl resp me ur hs rt bo ls].
    cbn in Hx, Hl, Hf, Hwin, Hld, Hst, Hxhr, Hsf, Hrs. subst.
    unfold net_error, ERROR_1000. hsimpl. hcbn. hsimpl.
    split; [|split; reflexivity].
    eexists. split; [repeat split; cbn; try reflexivity; try lia;
                     exists f; split; [reflexivity|cbn; lia] | reflexivity]. }
  destruct H as (Hs & He & H2).
  split; [exact He|]. split; [exact H2|].
  intros inputs Hi.
  destruct (stalled_run inputs w1 Hs Hi) as [(x & (Hx & _ & _ & Hlo & _) & _) _].
  rewrite Hx. now split.
Qed.

Lemma header_network_error_stops_witness :
  discovering (opened demo_request)
  /\ emitted (step (NetError 0) (opened demo_request))
     = emitted (opened demo_request) ++ [ERROR_1000].
Proof.
  split; [exact demo_discovering|].
  exact (proj1 (header_network_error_stops (opened demo_request) demo_discovering)).
Defined.

(** ** A chunk exchange fails *)

(** X4.  The current chunk exchange fails in the network.  No listener for the
    error event is registered on a chunk exchange: nothing is emitted, the
    loader stays in state 3 with what it had assembled, the exchange is over,
    and an answer of the server changes nothing any more. *)
Theorem chunk_network_error_is_silent :
  forall r resource k w id,
    chunking r resource k w ->
    _loader (this w) = Some id ->
    let w1 := step (NetError id) w in
    emitted w1 = emitted w
    /\ this w1 = this w
    /\ (exists x, xhrs w1 !! id = Some x /\ in_flight x = false
                  /\ x_readyState x = 4 /\ x_status x = 0)
    /\ serve resource id w1 = w1.
Proof.
  intros r resource k w id Hch Hid w1.
  pose proof Hch as (Hwf & Hst & Hld & Htot & Hbuf & Hrq & Hk
                     & (old & x & Hx & Hlo & Hce) & _).
  rewrite Hlo in Hid. injection Hid as <-.
  pose proof Hce as ((f & Hl) & Hr & Hsf & Hph).
  set (x4 := xhr_set_response 4 false 0 None None x).
  assert (E : w1 = upd_xhrs (fun _ => old ++ [x4]) w).
  { unfold w1. cbn [step].
    assert (Hget : xhr_get (length old) w = Some x) by now apply xhr_get_last.
    unfold net_error. rewrite Hget.
    replace (in_flight x) with true.
    2:{ unfold in_flight. rewrite Hsf.
        destruct Hph as [[-> _]|[[-> | ->] _]]; reflexivity. }
    set (w2 := upd_xhrs (alter (xhr_set_response 4 false 0 None None) (length old)) w).
    assert (Hget2 : xhr_get (length old) w2 = Some x4) by now apply xhr_get_altered.
    erewrite (dispatch_one readystatechange);
      [ | reflexivity | exact Hget2
        | cbn [x4 x_listeners xhr_set_response]; rewrite Hl; apply (chunk_listeners_for f) ].
    erewrite callback_OnHTTPStatus_idle;
      [ | reflexivity | exact Hget2 | left; cbn; lia ].
    erewrite dispatch_none;
      [ | reflexivity | exact Hget2
        | cbn [x4 x_listeners xhr_set_response]; rewrite Hl; apply (chunk_listeners_for f) ].
    unfold w2, upd_xhrs. now rewrite Hx, alter_snoc. }
  rewrite E. split; [reflexivity|]. split; [reflexivity|]. split.
  - exists x4. cbn [xhrs upd_xhrs]. rewrite lookup_snoc. now repeat split.
  - unfold serve, serve_headers, serve_body, net_headers, net_load, xhr_get.
    cbn [xhrs upd_xhrs]. rewrite !lookup_snoc. cbn [x4 x_sendFlag xhr_set_response andb].
    cbn [xhrs upd_xhrs]. rewrite !lookup_snoc. reflexivity.
Qed.

Lemma demo_chunking : chunking demo_request demo_500000 0 demo_downloading.
Proof.
  pose proof (discovered_chunking demo_request demo_500000 eq_refl) as H.
  rewrite demo_500000_length in H. apply H. lia.
Qed.

Lemma chunk_network_error_is_silent_witness :
  chunking demo_request demo_500000 0 demo_downloading
  /\ _loader (this demo_downloading) = Some 1%nat
  /\ emitted (step (NetError 1) demo_downloading) = emitted demo_downloading.
Proof.
  split; [exact demo_chunking|]. split; [reflexivity|].
  exact (proj1 (chunk_network_error_is_silent demo_request demo_500000 0
                  demo_downloading 1%nat demo_chunking eq_refl)).
Defined.

(** X5.  The network goes away during a chunk and comes back: a WARNING and then a
    STATUS notification of the network state are emitted, the loader has what
    it had assembled, a new exchange asks for the same chunk again, and the
    transfer comes to its end once the server has answered often enough. *)
Theorem reconnect_continues_transfer :
  forall r resource k w id,
    chunking r resource k w ->
    _loader (this w) = Some id ->
    let w1 := step WinOnline (step (NetError id) (step WinOffline w)) in
    emitted w1 = emitted w ++ [disconnection_notification; recovery_notification]
    /\ n_level disconnection_notification = EventLevel.WARNING
    /\ FileLoader.bytesLoaded w1 = k
    /\ buffer (FileLoader.data w1) = buffer (FileLoader.data w)
    /\ ranges w1 = ranges w ++ [Some (k, k + 204799)]
    /\ exists n,
         let w2 := run_script resource (replicate n Deliver) w1 in
         FileLoader.state w2 = 4 /\ FileLoader.data w2 = Some resource.
Proof.
  intros r resource k w id Hch Hid w1.
  destruct (reconnect_chunk r resource k w id Hch Hid) as (C & R & E).
  change (win_online (net_error id (win_offline w))) with w1 in C, R, E.
  split; [exact E|]. split; [reflexivity|].
  pose proof C as (_ & _ & Hld & _ & Hb1 & _ & Hk & _).
  pose proof Hch as (_ & _ & _ & _ & Hb & _).
  split; [exact Hld|]. split.
  { unfold FileLoader.data. fold w1 in Hb1. now rewrite Hb1, Hb. }
  split; [exact R|].
  exists (Z.to_nat (byteLength resource / 204800 + 1)). cbv zeta.
  assert (F : finished resource
                (run_script resource
                   (replicate (Z.to_nat (byteLength resource / 204800 + 1)) Deliver) w1)).
  { apply (deliver_all r resource _ k); [exact C|].
    pose proof (Z.mul_succ_div_gt (byteLength resource) 204800 ltac:(lia)).
    pose proof (Z.div_pos (byteLength resource) 204800 ltac:(lia) ltac:(lia)).
    rewrite Z2Nat.id by lia. lia. }
  destruct F as [(Hs & _ & Hd & _) _]. now split.
Qed.

Lemma reconnect_continues_transfer_witness :
  chunking demo_request demo_500000 0 demo_downloading
  /\ _loader (this demo_downloading) = Some 1%nat
  /\ emitted (step WinOnline (step (NetError 1) (step WinOffline demo_downloading)))
     = emitted demo_downloading ++ [disconnection_notification; recovery_notification].
Proof.
  split; [exact demo_chunking|]. split; [reflexivity|].
  exact (proj1 (reconnect_continues_transfer demo_request demo_500000 0
                  demo_downloading 1%nat demo_chunking eq_refl)).
Defined.

(** ** The server refuses the range *)

(** X6.  A resource without bytes, on a server that answers a range starting at or
    after the end of the resource with 416.  The header exchange announces
    length 0, which the loader reads as the string ['0'] and so as a known
    length; the first chunk exchange is refused, which the loader reports
    with an ERROR notification; and whatever follows, the loader stays in
    state 3. *)
Theorem empty_resource_never_completes :
  forall r,
    range_of (URLRequest.requestHeaders r) = None ->
    FileLoader.bytesTotal (transfer r [] []) = JStr "0"
    /\ emitted (transfer r [] [Deliver]) = [START_notification; ERROR_notification 416]
    /\ forall script, FileLoader.state (transfer r [] script) = 3.
Proof.
  intros r whole. rewrite !(transfer_start r [] whole). split; [reflexivity|]. split.
  - vm_compute. reflexivity.
  - intros script. rewrite (transfer_start r [] whole).
    pose proof (run_script_refused r [] eq_refl script _ (discovered_refused r []))
      as (old & x & (_ & H3 & _) & _).
    exact H3.
Qed.

Lemma empty_resource_never_completes_witness :
  range_of (URLRequest.requestHeaders demo_request) = None
  /\ FileLoader.state (transfer demo_request [] [Deliver; PauseResume; Deliver]) = 3.
Proof.
  split; [reflexivity|].
  exact (proj2 (proj2 (empty_resource_never_completes demo_request eq_refl))
           [Deliver; PauseResume; Deliver]).
Defined.

(** ** close and pause during the first chunk *)

Definition CLOSE_notification (loaded : Z) (total : JsValue) : Notification :=
  with_counts loaded total
    (notification LoaderEvent.CLOSE (CodeName LoaderEvent.CLOSE) EventLevel.STATUS).

(** X7.  [close()] while the first chunk is in flight: one CLOSE notification with
    the counts as they were, then everything is reset and no exchange is in
    flight.  [pause()] in the same place ends the exchange without any
    notification: the abort listener finds [_active_disconnect] set, and
    clears it. *)
Theorem close_and_pause_during_first_chunk :
  forall r resource,
    range_of (URLRequest.requestHeaders r) = None ->
    let w := transfer r resource [] in
    let total := JStr (decimal (byteLength resource)) in
    (let w1 := step CallClose w in
     emitted w1 = emitted w ++ [CLOSE_notification 0 total]
     /\ FileLoader.state w1 = 0
     /\ FileLoader.bytesLoaded w1 = 0
     /\ FileLoader.bytesTotal w1 = JNum 0
     /\ FileLoader.data w1 = None
     /\ map in_flight (xhrs w1) = [false; false])
    /\ (let w1 := step CallPause w in
        emitted w1 = emitted w
        /\ FileLoader.state w1 = 3
        /\ FileLoader.bytesTotal w1 = total
        /\ _active_disconnect (this w1) = false
        /\ map in_flight (xhrs w1) = [false; false]).
Proof.
  intros r resource whole w total. unfold w, total.
  rewrite (transfer_start r resource whole). cbn [run_script].
  generalize (decimal (byteLength resource)). intros s.
  split; vm_compute; repeat split.
Qed.

Lemma close_and_pause_during_first_chunk_witness :
  range_of (URLRequest.requestHeaders demo_request) = None
  /\ emitted (step CallClose (transfer demo_request demo_500000 []))
     = emitted (transfer demo_request demo_500000 [])
       ++ [CLOSE_notification 0 (JStr (decimal (byteLength demo_500000)))].
Proof.
  split; [reflexivity|].
  exact (proj1 (proj1 (close_and_pause_during_first_chunk demo_request demo_500000
                         eq_refl))).
Defined.

(** X8.  [pause()] when no exchange is in flight leaves [_active_disconnect] set:
    after the chunk exchange has failed, [pause()], [resume()] and then
    [close()] end the new exchange, and the CLOSE notification of that
    [close()] is never emitted. *)
Theorem pause_without_exchange_swallows_close :
  forall r resource,
    range_of (URLRequest.requestHeaders r) = None ->
    let w := transfer r resource [] in
    let w1 := run [NetError 1; CallPause; CallResume] w in
    _active_disconnect (this (run [NetError 1; CallPause] w)) = true
    /\ map in_flight (xhrs w1) = [false; false; true]
    /\ emitted (step CallClose w1) = emitted w
    /\ map in_flight (xhrs (step CallClose w1)) = [false; false; false].
Proof.
  intros r resource whole w w1. unfold w1, w.
  rewrite (transfer_start r resource whole). cbn [run_script].
  generalize (decimal (byteLength resource)). intros s.
  vm_compute. repeat split.
Qed.

Lemma pause_without_exchange_swallows_close_witness :
  range_of (URLRequest.requestHeaders demo_request) = None
  /\ emitted (step CallClose
                (run [NetError 1; CallPause; CallResume]
                   (transfer demo_request demo_500000 [])))
     = emitted (transfer demo_request demo_500000 []).
Proof.
  split; [reflexivity|].
  exact (proj1 (proj2 (proj2 (pause_without_exchange_swallows_close demo_request
                                demo_500000 eq_refl)))).
Defined.

(** ** resume without pause *)


(** ** load *)


(** ** The notifications of a transfer *)

(** X11.  The transfer of 500000 bytes, each exchange answered in full, emits
    START, a PROGRESS notification at the end of each chunk, whose [total] is
    the Content-Length as the string the header gave, and COMPLETE. *)
Theorem notifications_of_500000 :
  forall r resource,
    range_of (URLRequest.requestHeaders r) = None ->
    byteLength resource = 500000 ->
    emitted (transfer r resource [Deliver; Deliver; Deliver])
    = [START_notification;
       PROGRESS_notification 204800 (JStr "500000");
       PROGRESS_notification 409600 (JStr "500000");
       PROGRESS_notification 500000 (JStr "500000");
       COMPLETE_notification (Some resource)].
Proof.
  intros r resource whole Hlen.
  destruct (three_deliveries r resource whole Hlen) as (_ & _ & E).
  rewrite E. vm_compute. reflexivity.
Qed.

Lemma notifications_of_500000_witness :
  range_of (URLRequest.requestHeaders demo_request) = None
  /\ byteLength demo_500000 = 500000
  /\ length (emitted (transfer demo_request demo_500000 [Deliver; Deliver; Deliver]))
     = 5%nat.
Proof.
  split; [reflexivity|]. split; [exact demo_500000_length|].
  rewrite (notifications_of_500000 demo_request demo_500000 eq_refl demo_500000_length).
  reflexivity.
Defined.

(** ** The URLLoader *)



(** No callback of the URLLoader touches its XMLHttpRequest object, the
    function counter, or the loader's configuration. *)
Lemma URLLoader_handle_frame parse l evt w :
  URLLoader.xhr (URLLoader.handle parse l evt w) = URLLoader.xhr w
  /\ URLLoader.next_fn (URLLoader.handle parse l evt w) = URLLoader.next_fn w
  /\ URLLoader._xhr (URLLoader.this (URLLoader.handle parse l evt w)) = URLLoader._xhr (URLLoader.this w)
  /\ URLLoader._dataFormat (URLLoader.this (URLLoader.handle parse l evt w)) = URLLoader._dataFormat (URLLoader.this w)
  /\ URLLoader._timeout (URLLoader.this (URLLoader.handle parse l evt w)) = URLLoader._timeout (URLLoader.this w).
Proof.
  unfold URLLoader.handle.
  destruct (l_handler l);
    unfold URLLoader.onStart, URLLoader.onProgress, URLLoader.onHTTPStatus, URLLoader.onComplete, URLLoader.onError,
      URLLoader.onClose, URLLoader.clearTimeout;
    cbv zeta;
    repeat match goal with
           | |- context [match ?x with _ => _ end] =>
               lazymatch x with
               | context [match _ with _ => _ end] => fail
               | _ => destruct x
               end
           end;
    repeat split.
Qed.

Lemma URLLoader_fire_frame parse ty evt w :
  URLLoader.xhr (URLLoader.fire parse ty evt w) = URLLoader.xhr w
  /\ URLLoader.next_fn (URLLoader.fire parse ty evt w) = URLLoader.next_fn w
  /\ URLLoader._xhr (URLLoader.this (URLLoader.fire parse ty evt w))
     = URLLoader._xhr (URLLoader.this w)
  /\ URLLoader._dataFormat (URLLoader.this (URLLoader.fire parse ty evt w))
     = URLLoader._dataFormat (URLLoader.this w)
  /\ URLLoader._timeout (URLLoader.this (URLLoader.fire parse ty evt w))
     = URLLoader._timeout (URLLoader.this w).
Proof.
  unfold URLLoader.fire.
  generalize (listeners_for ty (URLLoader.x_listeners (URLLoader.xhr w))). intros ls.
  revert w. induction ls as [|l ls IH]; intros w; [now repeat split|].
  cbn [fold_left].
  destruct (IH (URLLoader.handle parse l evt w)) as (H1 & H2 & H3 & H4 & H5).
  destruct (URLLoader_handle_frame parse l evt w) as (G1 & G2 & G3 & G4 & G5).
  repeat split; congruence.
Qed.

Lemma URLLoader_remove_fresh ty h w :
  Forall (registered (URLLoader.next_fn w)) (URLLoader.x_listeners (URLLoader.xhr w)) ->
  URLLoader.x_listeners (URLLoader.xhr (URLLoader.removeEventListener ty h w))
  = URLLoader.x_listeners (URLLoader.xhr w)
  /\ Forall (registered (URLLoader.next_fn (URLLoader.removeEventListener ty h w)))
       (URLLoader.x_listeners (URLLoader.xhr (URLLoader.removeEventListener ty h w)))
  /\ URLLoader.xhr_in_flight (URLLoader.xhr (URLLoader.removeEventListener ty h w))
     = URLLoader.xhr_in_flight (URLLoader.xhr w).
Proof.
  intros H. unfold URLLoader.removeEventListener. cbn.
  rewrite (remove_listener_fresh ty _ _ H). split; [reflexivity|]. split; [|reflexivity].
  eapply Forall_impl; [exact H|]. intros l. apply registered_mono. lia.
Qed.

(** X12.  [abort], and so [close()], of the URLLoader deregisters nothing either:
    each [removeEventListener] is given a function object that [bind] has
    just made.  The XMLHttpRequest keeps the listeners it had, and is not in
    flight. *)
Theorem URLLoader_abort_deregisters_nothing :
  forall parse w,
    Forall (registered (URLLoader.next_fn w)) (URLLoader.x_listeners (URLLoader.xhr w)) ->
    URLLoader._xhr (URLLoader.this w) = true ->
    URLLoader.x_listeners (URLLoader.xhr (URLLoader.abort parse w))
    = URLLoader.x_listeners (URLLoader.xhr w)
    /\ URLLoader.xhr_in_flight (URLLoader.xhr (URLLoader.abort parse w)) = false
    /\ URLLoader.x_listeners (URLLoader.xhr (URLLoader.close parse w))
       = URLLoader.x_listeners (URLLoader.xhr w).
Proof.
  assert (A : forall parse w,
    Forall (registered (URLLoader.next_fn w)) (URLLoader.x_listeners (URLLoader.xhr w)) ->
    URLLoader._xhr (URLLoader.this w) = true ->
    URLLoader.x_listeners (URLLoader.xhr (URLLoader.abort parse w))
    = URLLoader.x_listeners (URLLoader.xhr w)
    /\ URLLoader.xhr_in_flight (URLLoader.xhr (URLLoader.abort parse w)) = false).
  { intros parse w Hreg Hx. unfold URLLoader.abort. rewrite Hx.
    set (w1 := URLLoader.xhr_abort parse w).
    assert (H1 : URLLoader.x_listeners (URLLoader.xhr w1)
                 = URLLoader.x_listeners (URLLoader.xhr w)
                 /\ URLLoader.next_fn w1 = URLLoader.next_fn w
                 /\ URLLoader.xhr_in_flight (URLLoader.xhr w1) = false).
    { unfold w1, URLLoader.xhr_abort.
      destruct (URLLoader.xhr_in_flight (URLLoader.xhr w)) eqn:F.
      - set (wa := URLLoader.upd_xhr _ w).
        destruct (URLLoader_fire_frame parse readystatechange URLLoader.xhr_event wa)
          as (X1 & N1 & _).
        destruct (URLLoader_fire_frame parse abort_ URLLoader.xhr_event
                    (URLLoader.fire parse readystatechange URLLoader.xhr_event wa))
          as (X2 & N2 & _).
        cbn [URLLoader.xhr URLLoader.upd_xhr URLLoader.next_fn].
        rewrite X2, X1, N2, N1. cbn. now repeat split.
      - cbn [URLLoader.xhr URLLoader.upd_xhr URLLoader.next_fn].
        destruct (URLLoader.x_readyState (URLLoader.xhr w) =? 4) eqn:E;
          [now repeat split|].
        now repeat split. }
    destruct H1 as (L1 & N1 & F1).
    assert (R1 : Forall (registered (URLLoader.next_fn w1))
                   (URLLoader.x_listeners (URLLoader.xhr w1))) by now rewrite L1, N1.
    clearbody w1.
    destruct (URLLoader_remove_fresh loadstart OnStart w1 R1) as (E2 & R2 & F2).
    destruct (URLLoader_remove_fresh progress OnProgress _ R2) as (E3 & R3 & F3).
    destruct (URLLoader_remove_fresh abort_ OnClose _ R3) as (E4 & R4 & F4).
    destruct (URLLoader_remove_fresh error OnError _ R4) as (E5 & R5 & F5).
    destruct (URLLoader_remove_fresh load_ OnComplete _ R5) as (E6 & R6 & F6).
    destruct (URLLoader_remove_fresh readystatechange OnHTTPStatus _ R6) as (E7 & R7 & F7).
    split; congruence. }
  intros parse w Hreg Hx. destruct (A parse w Hreg Hx) as [L F].
  split; [exact L|]. split; [exact F|].
  unfold URLLoader.close. cbv zeta.
  change (URLLoader.xhr (URLLoader.reset ?v)) with (URLLoader.xhr v).
  destruct (negb (URLLoader.timeout w =? 0)); [|exact L].
  set (wc := URLLoader.clearTimeout (URLLoader._timer (URLLoader.this w)) w).
  assert (Ec : URLLoader.xhr wc = URLLoader.xhr w /\ URLLoader.next_fn wc = URLLoader.next_fn w
               /\ URLLoader.this wc = URLLoader.this w).
  { unfold wc, URLLoader.clearTimeout.
    now destruct (URLLoader._timer (URLLoader.this w)). }
  destruct Ec as (E1 & E2 & E3).
  destruct (A parse wc) as [Lc _]; [now rewrite E1, E2 | now rewrite E3 |].
  now rewrite Lc, E1.
Qed.

(** X13.  [close()] resets the loader's configuration with its counters, and
    leaves it without its XMLHttpRequest: [state] reads 0, [dataFormat] is
    back to ['text'] and [timeout] to 0, and the next [load] throws the
    TypeError, opens no exchange, sets no timer and emits nothing. *)
Theorem URLLoader_close_then_load_throws :
  forall parse w request,
    let w' := URLLoader.close parse w in
    URLLoader.state w' = 0
    /\ URLLoader.dataFormat w' = LoaderDataFormat.TEXT
    /\ URLLoader.timeout w' = 0
    /\ URLLoader.bytesLoaded w' = 0
    /\ URLLoader.data w' = RJs JsNull
    /\ exists w'',
         URLLoader.load parse request w'
         = URLLoader.Thrown
             (URLLoader.FTypeError "所传递的请求 URLRequest 对象或 URLRequest.url 属性为 null。") w''
         /\ URLLoader.xhr w'' = URLLoader.xhr w'
         /\ URLLoader.timers w'' = URLLoader.timers w'
         /\ URLLoader.emitted w'' = URLLoader.emitted w'.
Proof.
  intros parse w request w'. unfold w', URLLoader.close. cbv zeta.
  set (wa := URLLoader.abort parse _). clearbody wa.
  repeat (split; [reflexivity|]).
  unfold URLLoader.load. destruct request as [r|]; cbn; eexists; repeat split.
Qed.

Definition no_parse : string -> option Json := fun _ => None.

(** A URLLoader that has loaded the demonstration request. *)
Definition demo_url_loading : URLLoader.World :=
  URLLoader.world_of
    (URLLoader.load no_parse None (URLLoader.new_URLLoader (Some demo_request))).

Lemma URLLoader_abort_deregisters_nothing_witness :
  Forall (registered (URLLoader.next_fn demo_url_loading))
    (URLLoader.x_listeners (URLLoader.xhr demo_url_loading))
  /\ URLLoader._xhr (URLLoader.this demo_url_loading) = true
  /\ length (URLLoader.x_listeners
               (URLLoader.xhr (URLLoader.abort no_parse demo_url_loading))) = 6%nat.
Proof.
  assert (H : Forall (registered (URLLoader.next_fn demo_url_loading))
                (URLLoader.x_listeners (URLLoader.xhr demo_url_loading))).
  { vm_compute. repeat constructor. }
  split; [exact H|]. split; [reflexivity|].
  rewrite (proj1 (URLLoader_abort_deregisters_nothing no_parse demo_url_loading
                    H eq_refl)).
  reflexivity.
Defined.

(** ** The notifications of a fetch *)

(** The six listeners of a URLLoader, as [initialize] registers them. *)
Definition url_listeners : list Listener :=
  [ {| l_type := loadstart; l_fn := 0; l_handler := OnStart |};
    {| l_type := progress; l_fn := 1; l_handler := OnProgress |};
    {| l_type := abort_; l_fn := 2; l_handler := OnClose |};
    {| l_type := error; l_fn := 3; l_handler := OnError |};
    {| l_type := load_; l_fn := 4; l_handler := OnComplete |};
    {| l_type := readystatechange; l_fn := 5; l_handler := OnHTTPStatus |} ].

(** A URLLoader whose request is in flight, no header received yet, and no
    timeout set. *)
Definition requesting (w : URLLoader.World) : Prop :=
  URLLoader._xhr (URLLoader.this w) = true
  /\ URLLoader.x_listeners (URLLoader.xhr w) = url_listeners
  /\ URLLoader.x_sendFlag (URLLoader.xhr w) = true
  /\ URLLoader.x_readyState (URLLoader.xhr w) = 1
  /\ URLLoader.timeout w = 0.

Definition outcome_world (o : URLLoader.Outcome) : URLLoader.World :=
  match o with
  | URLLoader.Done w' => w'
  | URLLoader.Thrown e w' => URLLoader.report e w'
  end.

Lemma URLLoader_fire_url parse ty evt w :
  URLLoader.x_listeners (URLLoader.xhr w) = url_listeners ->
  URLLoader.fire parse ty evt w
  = match ty with
    | loadstart => outcome_world (URLLoader.onStart w)
    | progress => outcome_world (URLLoader.onProgress evt w)
    | abort_ => outcome_world (URLLoader.onClose w)
    | error => outcome_world (URLLoader.onError w)
    | load_ => outcome_world (URLLoader.onComplete parse w)
    | readystatechange => outcome_world (URLLoader.onHTTPStatus w)
    | _ => w
    end.
Proof. intros H. unfold URLLoader.fire. rewrite H. now destruct ty. Qed.

Definition HTTP_STATUS_note (status : Z) : URLLoader.Note :=
  {| URLLoader.n_name := LoaderEvent.HTTP_STATUS;
     URLLoader.n_code := CodeName LoaderEvent.HTTP_STATUS;
     URLLoader.n_level := EventLevel.STATUS;
     URLLoader.n_desc := None; URLLoader.n_loaded := None; URLLoader.n_total := None;
     URLLoader.n_progress := None; URLLoader.n_data := None;
     URLLoader.n_httpStatus := Some status |}.

Definition COMPLETE_note (d : Response) : URLLoader.Note :=
  {| URLLoader.n_name := LoaderEvent.COMPLETE;
     URLLoader.n_code := CodeName LoaderEvent.COMPLETE;
     URLLoader.n_level := EventLevel.STATUS;
     URLLoader.n_desc := None; URLLoader.n_loaded := None; URLLoader.n_total := None;
     URLLoader.n_progress := None; URLLoader.n_data := Some d;
     URLLoader.n_httpStatus := None |}.

Definition PROGRESS_note (loaded total : Z) : URLLoader.Note :=
  {| URLLoader.n_name := LoaderEvent.PROGRESS;
     URLLoader.n_code := CodeName LoaderEvent.PROGRESS;
     URLLoader.n_level := EventLevel.STATUS;
     URLLoader.n_desc := None; URLLoader.n_loaded := Some loaded;
     URLLoader.n_total := Some total;
     URLLoader.n_progress := Some (loaded, total); URLLoader.n_data := None;
     URLLoader.n_httpStatus := None |}.

Ltac ul_norm :=
  cbv beta iota zeta delta
      [URLLoader.upd_xhr URLLoader.upd_this URLLoader.emit URLLoader.report
       URLLoader.xhr URLLoader.this URLLoader.next_fn URLLoader.timers
       URLLoader.next_timer URLLoader.emitted URLLoader.uncaught
       URLLoader._loaded URLLoader._total URLLoader._data URLLoader._dataFormat
       URLLoader._timeout URLLoader._xhr URLLoader._timer URLLoader._request
       URLLoader.set_loaded URLLoader.set_total URLLoader.set_data_field
       URLLoader.xhr_with_response
       URLLoader.x_readyState URLLoader.x_sendFlag URLLoader.x_status
       URLLoader.x_response URLLoader.x_method URLLoader.x_url
       URLLoader.x_requestHeaders URLLoader.x_body
       URLLoader.x_responseType URLLoader.x_listeners
       URLLoader.bytesLoaded URLLoader.bytesTotal URLLoader.data URLLoader.dataFormat
       URLLoader.timeout URLLoader.state outcome_world].

Ltac eqb_strings :=
  repeat match goal with
         | |- context [String.eqb ?a ?b] =>
             let v := eval vm_compute in (String.eqb a b) in
             change (String.eqb a b) with v
         end.

Ltac ul_cbn :=
  cbn [URLLoader.upd_xhr URLLoader.upd_this URLLoader.emit URLLoader.report
       URLLoader.xhr URLLoader.this URLLoader.next_fn URLLoader.timers
       URLLoader.next_timer URLLoader.emitted URLLoader.uncaught
       URLLoader._loaded URLLoader._total URLLoader._data URLLoader._dataFormat
       URLLoader._timeout URLLoader._xhr URLLoader._timer URLLoader._request
       URLLoader.set_loaded URLLoader.set_total URLLoader.set_data_field
       URLLoader.xhr_with_response
       URLLoader.x_readyState URLLoader.x_sendFlag URLLoader.x_status
       URLLoader.x_response URLLoader.x_responseType URLLoader.x_listeners
       URLLoader.bytesLoaded URLLoader.bytesTotal URLLoader.data URLLoader.dataFormat
       URLLoader.timeout URLLoader.state
       outcome_world negb andb orb Z.eqb Z.ltb Z.leb Z.compare Pos.eqb Pos.compare
       Pos.compare_cont e_loaded e_total].

(** X14.  The response has an error status: ERROR with the status as its code when
    the headers arrive, HTTP_STATUS when the exchange is done; no PROGRESS and
    no COMPLETE, and [data] stays as it was, whatever the body. *)
Theorem URLLoader_error_status :
  forall parse w status received total response,
    requesting w ->
    400 <= status ->
    let w' := URLLoader.net_load parse received total response
                (URLLoader.net_headers parse status w) in
    URLLoader.emitted w'
    = URLLoader.emitted w
      ++ [URLLoader.error_note status
            (if 500 <=? status then "server error" else "request error");
          HTTP_STATUS_note status]
    /\ URLLoader.data w' = URLLoader.data w
    /\ URLLoader.bytesLoaded w' = URLLoader.bytesLoaded w
    /\ URLLoader.state w' = 4.
Proof.
  intros parse w status received total response (Hx & Hl & Hsf & Hrs & Htm) Hstatus w'.
  unfold w'. clear w'.
  destruct w as [t x nf ts nt em un].
  destruct t as [ld tot dat dfm tmo xfl tmr rq].
  destruct x as [rs sf st resp me ur hs rt bo ls].
  cbn in Hx, Hl, Hsf, Hrs, Htm. subst.
  assert (E1 : (status =? 0) = false) by (apply Z.eqb_neq; lia).
  assert (E2 : (400 <=? status) = true) by (apply Z.leb_le; lia).
  match goal with
  | |- context [URLLoader.net_load parse received total response ?w1] =>
      assert (E : URLLoader.net_load parse received total response w1
                  = {| URLLoader.this :=
                         {| URLLoader._loaded := ld; URLLoader._total := tot;
                            URLLoader._data := dat; URLLoader._dataFormat := dfm;
                            URLLoader._timeout := 0; URLLoader._xhr := true;
                            URLLoader._timer := tmr; URLLoader._request := rq |};
                       URLLoader.xhr :=
                         {| URLLoader.x_readyState := 4; URLLoader.x_sendFlag := false;
                            URLLoader.x_status := status; URLLoader.x_response := response;
                            URLLoader.x_method := me; URLLoader.x_url := ur;
                            URLLoader.x_requestHeaders := hs;
                            URLLoader.x_responseType := rt; URLLoader.x_body := bo;
                            URLLoader.x_listeners := url_listeners |};
                       URLLoader.next_fn := nf; URLLoader.timers := ts;
                       URLLoader.next_timer := nt;
                       URLLoader.emitted :=
                         em ++ [URLLoader.error_note status
                                  (if 500 <=? status then "server error"
                                   else "request error");
                                HTTP_STATUS_note status];
                       URLLoader.uncaught := un |})
  end.
  { unfold URLLoader.net_headers. ul_cbn. cbv zeta.
    rewrite (URLLoader_fire_url parse readystatechange) by reflexivity.
    unfold URLLoader.onHTTPStatus at 1. ul_cbn. rewrite E1, E2. ul_cbn.
    unfold URLLoader.net_load. ul_cbn. cbv zeta.
    rewrite (URLLoader_fire_url parse progress) by reflexivity.
    unfold URLLoader.onProgress. ul_cbn. rewrite E2. ul_cbn.
    rewrite (URLLoader_fire_url parse readystatechange) by reflexivity.
    unfold URLLoader.onHTTPStatus. ul_cbn. rewrite E1. ul_cbn.
    rewrite (URLLoader_fire_url parse load_) by reflexivity.
    unfold URLLoader.onComplete. ul_cbn. rewrite E2. ul_cbn.
    ul_norm. rewrite <- app_assoc. reflexivity. }
  rewrite E. now repeat split.
Qed.

Lemma URLLoader_error_status_witness :
  requesting demo_url_loading
  /\ 400 <= 503
  /\ URLLoader.emitted
       (URLLoader.net_load no_parse 0 0 (RJs JsNull)
          (URLLoader.net_headers no_parse 503 demo_url_loading))
     = URLLoader.emitted demo_url_loading
       ++ [URLLoader.error_note 503 "server error"; HTTP_STATUS_note 503].
Proof.
  assert (H : requesting demo_url_loading) by (repeat split).
  split; [exact H|]. split; [lia|].
  exact (proj1 (URLLoader_error_status no_parse demo_url_loading 503 0 0 (RJs JsNull)
                  H ltac:(lia))).
Defined.

(** The headers of a successful response, at a loader that is requesting. *)
Lemma URLLoader_headers_ok parse w status :
  requesting w -> 0 < status < 400 ->
  URLLoader.net_headers parse status w
  = URLLoader.upd_xhr (URLLoader.xhr_with_response 2 true status (RJs JsNull)) w.
Proof.
  intros (Hx & Hl & Hsf & Hrs & Htm) Hstatus.
  destruct w as [t x nf ts nt em un].
  destruct t as [ld tot dat dfm tmo xfl tmr rq].
  destruct x as [rs sf st resp me ur hs rt bo ls].
  cbn in Hx, Hl, Hsf, Hrs, Htm. subst.
  assert (E1 : (status =? 0) = false) by (apply Z.eqb_neq; lia).
  assert (E2 : (400 <=? status) = false) by (apply Z.leb_gt; lia).
  unfold URLLoader.net_headers. ul_cbn. cbv zeta.
  rewrite (URLLoader_fire_url parse readystatechange) by reflexivity.
  unfold URLLoader.onHTTPStatus at 1. ul_cbn. rewrite E1, E2. ul_cbn. reflexivity.
Qed.

(** X15.  A successful fetch in binary, text or document format, of a body of
    known, positive length: PROGRESS with the counts of the body, HTTP_STATUS
    with the status, COMPLETE with the response, which is the loader's data
    from then on. *)
Theorem URLLoader_successful_fetch :
  forall parse w status n response,
    requesting w ->
    0 < status < 400 ->
    URLLoader.bytesTotal w = 0 ->
    0 < n ->
    response_truthy response = true ->
    In (URLLoader.dataFormat w)
       [LoaderDataFormat.BINARY; LoaderDataFormat.TEXT; LoaderDataFormat.DOCUMENT] ->
    let w' := URLLoader.net_load parse n n response
                (URLLoader.net_headers parse status w) in
    URLLoader.emitted w'
    = URLLoader.emitted w
      ++ [PROGRESS_note n n; HTTP_STATUS_note status; COMPLETE_note response]
    /\ URLLoader.data w' = response
    /\ URLLoader.bytesLoaded w' = n
    /\ URLLoader.bytesTotal w' = n
    /\ URLLoader.state w' = 4
    /\ URLLoader.uncaught w' = URLLoader.uncaught w.
Proof.
  intros parse w status n response Hreq Hstatus Htot Hn Htr Hdf w'. unfold w'. clear w'.
  rewrite (URLLoader_headers_ok parse w status Hreq Hstatus).
  destruct Hreq as (Hx & Hl & Hsf & Hrs & Htm).
  destruct w as [t x nf ts nt em un].
  destruct t as [ld tot dat dfm tmo xfl tmr rq].
  destruct x as [rs sf st resp me ur hs rt bo ls].
  cbn in Hx, Hl, Hsf, Hrs, Htm, Htot, Hdf. subst.
  assert (E1 : (status =? 0) = false) by (apply Z.eqb_neq; lia).
  assert (E2 : (400 <=? status) = false) by (apply Z.leb_gt; lia).
  assert (E3 : (n =? 0) = false) by (apply Z.eqb_neq; lia).
  assert (E4 : (n <? n) = false) by apply Z.ltb_irrefl.
  match goal with
  | |- context [URLLoader.net_load parse n n response ?w1] =>
      assert (E : URLLoader.net_load parse n n response w1
                  = {| URLLoader.this :=
                         {| URLLoader._loaded := n; URLLoader._total := n;
                            URLLoader._data := response; URLLoader._dataFormat := dfm;
                            URLLoader._timeout := 0; URLLoader._xhr := true;
                            URLLoader._timer := tmr; URLLoader._request := rq |};
                       URLLoader.xhr :=
                         {| URLLoader.x_readyState := 4; URLLoader.x_sendFlag := false;
                            URLLoader.x_status := status; URLLoader.x_response := response;
                            URLLoader.x_method := me; URLLoader.x_url := ur;
                            URLLoader.x_requestHeaders := hs;
                            URLLoader.x_responseType := rt; URLLoader.x_body := bo;
                            URLLoader.x_listeners := url_listeners |};
                       URLLoader.next_fn := nf; URLLoader.timers := ts;
                       URLLoader.next_timer := nt;
                       URLLoader.emitted :=
                         em ++ [PROGRESS_note n n; HTTP_STATUS_note status;
                                COMPLETE_note response];
                       URLLoader.uncaught := un |})
  end.
  { unfold URLLoader.net_load. ul_cbn. cbv zeta.
    rewrite (URLLoader_fire_url parse progress) by reflexivity.
    unfold URLLoader.onProgress. ul_cbn. rewrite E2. ul_cbn. rewrite E3, E4. ul_cbn.
    rewrite (URLLoader_fire_url parse readystatechange) by reflexivity.
    unfold URLLoader.onHTTPStatus. ul_cbn. rewrite E1. ul_cbn.
    rewrite (URLLoader_fire_url parse load_) by reflexivity.
    unfold URLLoader.onComplete. ul_cbn. rewrite E2, Htr.
    destruct Hdf as [<-|[<-|[<-|[]]]]; ul_cbn; eqb_strings; ul_cbn; ul_norm;
      rewrite <- !app_assoc; reflexivity. }
  rewrite E. now repeat split.
Qed.

Lemma URLLoader_successful_fetch_witness :
  requesting demo_url_loading
  /\ URLLoader.bytesTotal demo_url_loading = 0
  /\ In (URLLoader.dataFormat demo_url_loading)
        [LoaderDataFormat.BINARY; LoaderDataFormat.TEXT; LoaderDataFormat.DOCUMENT]
  /\ URLLoader.data
       (URLLoader.net_load no_parse 5 5 (RJs (JsStr "hello"))
          (URLLoader.net_headers no_parse 200 demo_url_loading))
     = RJs (JsStr "hello").
Proof.
  assert (H : requesting demo_url_loading) by (repeat split).
  split; [exact H|]. split; [reflexivity|]. split; [right; left; reflexivity|].
  exact (proj1 (proj2 (URLLoader_successful_fetch no_parse demo_url_loading 200 5
                         (RJs (JsStr "hello")) H ltac:(lia) eq_refl ltac:(lia) eq_refl
                         (or_intror (or_introl eq_refl))))).
Defined.

(** X16.  A successful fetch in JSON format whose response is a string: the string
    is parsed, and the parsed value is the data of COMPLETE and of the loader;
    when [JSON.parse] throws, the listener throws an Error in its turn, no
    COMPLETE is emitted and [data] stays as it was.  A response that is not a
    string is the data as it is. *)
Theorem URLLoader_json_fetch :
  forall parse w status n response,
    requesting w ->
    0 < status < 400 ->
    URLLoader.bytesTotal w = 0 ->
    0 < n ->
    response_truthy response = true ->
    URLLoader.dataFormat w = LoaderDataFormat.JSON ->
    let w' := URLLoader.net_load parse n n response
                (URLLoader.net_headers parse status w) in
    match response with
    | RJs (JsStr s) =>
        match parse s with
        | Some v =>
            URLLoader.emitted w'
            = URLLoader.emitted w
              ++ [PROGRESS_note n n; HTTP_STATUS_note status; COMPLETE_note (RJs v)]
            /\ URLLoader.data w' = RJs v
            /\ URLLoader.uncaught w' = URLLoader.uncaught w
        | None =>
            URLLoader.emitted w'
            = URLLoader.emitted w ++ [PROGRESS_note n n; HTTP_STATUS_note status]
            /\ URLLoader.data w' = URLLoader.data w
            /\ URLLoader.uncaught w'
               = URLLoader.uncaught w
                 ++ [URLLoader.FError ("JSON parse failed: " ++ s)]
        end
    | _ =>
        URLLoader.emitted w'
        = URLLoader.emitted w
          ++ [PROGRESS_note n n; HTTP_STATUS_note status; COMPLETE_note response]
        /\ URLLoader.data w' = response
        /\ URLLoader.uncaught w' = URLLoader.uncaught w
    end.
Proof.
  intros parse w status n response Hreq Hstatus Htot Hn Htr Hdf w'. unfold w'. clear w'.
  rewrite (URLLoader_headers_ok parse w status Hreq Hstatus).
  destruct Hreq as (Hx & Hl & Hsf & Hrs & Htm).
  destruct w as [t x nf ts nt em un].
  destruct t as [ld tot dat dfm tmo xfl tmr rq].
  destruct x as [rs sf st resp me ur hs rt bo ls].
  cbn in Hx, Hl, Hsf, Hrs, Htm, Htot, Hdf. subst.
  assert (E1 : (status =? 0) = false) by (apply Z.eqb_neq; lia).
  assert (E2 : (400 <=? status) = false) by (apply Z.leb_gt; lia).
  assert (E3 : (n =? 0) = false) by (apply Z.eqb_neq; lia).
  assert (E4 : (n <? n) = false) by apply Z.ltb_irrefl.
  unfold URLLoader.net_load. ul_cbn. cbv zeta.
  rewrite (URLLoader_fire_url parse progress) by reflexivity.
  unfold URLLoader.onProgress. ul_cbn. rewrite E2. ul_cbn. rewrite E3, E4. ul_cbn.
  rewrite (URLLoader_fire_url parse readystatechange) by reflexivity.
  unfold URLLoader.onHTTPStatus. ul_cbn. rewrite E1. ul_cbn.
  rewrite (URLLoader_fire_url parse load_) by reflexivity.
  unfold URLLoader.onComplete. ul_cbn. rewrite E2, Htr. eqb_strings. ul_cbn.
  destruct response as [b|m|[ |b|z|s|items|fields]];
    try (ul_cbn; ul_norm; rewrite <- !app_assoc; now repeat split).
  destruct (parse s) as [v|];
    ul_cbn; ul_norm; rewrite <- ?app_assoc; now repeat split.
Qed.

(** [JSON.parse] for the demonstration: it knows the text of the number 1. *)
Definition demo_parse (s : string) : option Json :=
  if String.eqb s "1" then Some (JsNum 1) else None.

Definition demo_json_loading : URLLoader.World :=
  URLLoader.world_of
    (URLLoader.load demo_parse None
       (URLLoader.world_of
          (URLLoader.set_dataFormat LoaderDataFormat.JSON
             (URLLoader.new_URLLoader (Some demo_request))))).

Lemma URLLoader_json_fetch_witness :
  requesting demo_json_loading
  /\ URLLoader.bytesTotal demo_json_loading = 0
  /\ URLLoader.dataFormat demo_json_loading = LoaderDataFormat.JSON
  /\ URLLoader.data
       (URLLoader.net_load demo_parse 1 1 (RJs (JsStr "1"))
          (URLLoader.net_headers demo_parse 200 demo_json_loading))
     = RJs (JsNum 1).
Proof.
  assert (H : requesting demo_json_loading) by (repeat split).
  split; [exact H|]. split; [reflexivity|]. split; [reflexivity|].
  exact (proj1 (proj2 (URLLoader_json_fetch demo_parse demo_json_loading 200 1
                         (RJs (JsStr "1")) H ltac:(lia) eq_refl ltac:(lia) eq_refl
                         eq_refl))).
Defined.

(** ** The timeout of the URLLoader *)





(** X18.  Without a timeout, [load] arms no timer. *)
Theorem URLLoader_no_timeout_no_timer :
  forall parse r,
    URLLoader.timers
      (URLLoader.world_of (URLLoader.load parse None (URLLoader.new_URLLoader (Some r))))
    = [].
Proof.
  intros parse r.
  evaluate (URLLoader.new_URLLoader (Some r)).
  unfold URLLoader.load. cbv iota beta zeta.
  cbn [URLLoader.this URLLoader._xhr URLLoader._request URLLoader.timeout
       URLLoader._timeout Z.eqb negb].
  match goal with |- context [fold_left ?f ?hs ?w0] => evaluate w0 end.
  rewrite URLLoader_setRequestHeaders_fold. vm_compute. reflexivity.
Qed.

(** ** Progress of unknown total, and the formats of the URLLoader *)

(** X19.  A progress event while the total is unknown (the response announces no
    length) sets [bytesLoaded] and emits nothing. *)
Theorem URLLoader_progress_of_unknown_total :
  forall evt w,
    URLLoader._xhr (URLLoader.this w) = true ->
    2 <= URLLoader.x_readyState (URLLoader.xhr w) ->
    URLLoader.x_status (URLLoader.xhr w) < 400 ->
    URLLoader.bytesTotal w = 0 ->
    e_total evt = 0 ->
    exists w',
      URLLoader.onProgress evt w = URLLoader.Done w'
      /\ URLLoader.emitted w' = URLLoader.emitted w
      /\ URLLoader.bytesLoaded w' = e_loaded evt
      /\ URLLoader.bytesTotal w' = 0.
Proof.
  intros evt w Hx Hrs Hst Ht He. unfold URLLoader.onProgress.
  rewrite Hx. cbn [negb].
  destruct (Z.ltb_spec (URLLoader.x_readyState (URLLoader.xhr w)) 2); [lia|].
  destruct (Z.leb_spec 400 (URLLoader.x_status (URLLoader.xhr w))); [lia|].
  cbv zeta.
  set (w1 := URLLoader.upd_this (URLLoader.set_loaded (e_loaded evt)) w).
  assert (E1 : URLLoader.bytesTotal w1 = 0) by exact Ht.
  rewrite E1. cbn [Z.eqb]. rewrite He.
  set (w2 := URLLoader.upd_this (URLLoader.set_total 0) w1).
  assert (E2 : URLLoader.bytesTotal w2 = 0) by reflexivity.
  rewrite E2. cbn [Z.eqb orb].
  exists w2. now repeat split.
Qed.

Lemma URLLoader_progress_of_unknown_total_witness :
  URLLoader._xhr (URLLoader.this (URLLoader.net_headers no_parse 200 demo_url_loading))
  = true
  /\ URLLoader.bytesTotal (URLLoader.net_headers no_parse 200 demo_url_loading) = 0
  /\ exists w',
       URLLoader.onProgress {| e_target := TXhr 0; e_loaded := 10; e_total := 0 |}
         (URLLoader.net_headers no_parse 200 demo_url_loading)
       = URLLoader.Done w'
       /\ URLLoader.emitted w'
          = URLLoader.emitted (URLLoader.net_headers no_parse 200 demo_url_loading).
Proof.
  split; [reflexivity|]. split; [reflexivity|].
  destruct (URLLoader_progress_of_unknown_total
              {| e_target := TXhr 0; e_loaded := 10; e_total := 0 |}
              (URLLoader.net_headers no_parse 200 demo_url_loading)
              eq_refl ltac:(cbn; lia) ltac:(cbn; lia) eq_refl eq_refl)
    as (w' & H1 & H2 & _).
  exists w'. now split.
Defined.

(** X20.  The URLLoader takes the formats binary, text, document and json, and no
    other: assigning one of them stores it; assigning anything else, the
    format zip of LoaderDataFormat included, throws a TypeError and leaves the
    loader as it was.  A new loader has the format text. *)
Theorem URLLoader_dataFormat_accepts_four :
  forall value w,
    (In value [LoaderDataFormat.BINARY; LoaderDataFormat.TEXT;
               LoaderDataFormat.DOCUMENT; LoaderDataFormat.JSON] ->
     exists w',
       URLLoader.set_dataFormat value w = URLLoader.Done w'
       /\ URLLoader.dataFormat w' = value)
    /\ (~ In value [LoaderDataFormat.BINARY; LoaderDataFormat.TEXT;
                    LoaderDataFormat.DOCUMENT; LoaderDataFormat.JSON] ->
        exists message,
          URLLoader.set_dataFormat value w
          = URLLoader.Thrown (URLLoader.FTypeError message) w)
    /\ (exists message,
          URLLoader.set_dataFormat LoaderDataFormat.ZIP w
          = URLLoader.Thrown (URLLoader.FTypeError message) w)
    /\ forall request,
         URLLoader.dataFormat (URLLoader.new_URLLoader request) = LoaderDataFormat.TEXT.
Proof.
  intros value w. split; [|split; [|split]].
  - intros [<-|[<-|[<-|[<-|[]]]]]; eexists; split; reflexivity.
  - intros Hn. unfold URLLoader.set_dataFormat.
    destruct (String.eqb_spec value LoaderDataFormat.BINARY) as [->|];
      [exfalso; apply Hn; now left|].
    destruct (String.eqb_spec value LoaderDataFormat.TEXT) as [->|];
      [exfalso; apply Hn; right; now left|].
    destruct (String.eqb_spec value LoaderDataFormat.DOCUMENT) as [->|];
      [exfalso; apply Hn; right; right; now left|].
    destruct (String.eqb_spec value LoaderDataFormat.JSON) as [->|];
      [exfalso; apply Hn; right; right; right; now left|].
    cbn [orb]. eexists. reflexivity.
  - eexists. reflexivity.
  - reflexivity.
Qed.
